(** * Incremental batch classification and merge engine

    A shallow embedding of [OpenAIProvider] in
    [code/detal_json/paper_search_classify.py] (the Gemini and DeepSeek
    providers have the same batch loop, parser and merge):

    - [classify_papers]: the batch loop (planner and orchestrator),
    - [_parse_classification_result]: the response parser,
    - [_merge_results]: the merge engine;

    then of [PaperSearchClassifier] in the same file (loading, keyword
    search, saving), of the viewer in [code/main.py] (loading a saved
    classification, search, statistics, grouping) and of the converter
    in [code/detal_json/strand_json.py].

    Python integers are [Z]; [//] is floor division, which is [Z.div].
    Python strings are [string] (their UTF-8 bytes).  Exceptions are an
    explicit result type.  [ClassificationResult] objects are mutable and
    shared between the lists that hold them, so they live in a store and
    a Python list of them is a list of locations. *)

From Stdlib Require Import ZArith Lia List String Ascii DecimalString DecimalNat.
From stdpp Require Import base list strings option numbers.

Open Scope Z_scope.

(** ** Outcomes of fallible code *)

Inductive exn :=
| ValueError
| TypeError
| AttributeError
| IndexError
| ZeroDivisionError
| BackendError (detail : string).

(** [IllTyped] marks the point where Python would go on with a value that
    the dataclass annotations exclude (a [category] or [summary] that is
    not a [str]); the embedding stops there. *)
Inductive result (A : Type) :=
| Ok (a : A)
| Raise (e : exn)
| IllTyped.
Arguments Ok {A} a.
Arguments Raise {A} e.
Arguments IllTyped {A}.

#[global] Instance result_ret : MRet result := fun A a => Ok a.
#[global] Instance result_bind : MBind result := fun A B f m =>
  match m with
  | Ok a => f a
  | Raise e => Raise e
  | IllTyped => IllTyped
  end.

Definition raises {A} (r : result A) : Prop := exists e, r = Raise e.

(** ** Python list primitives *)

Section PyList.
Context {A : Type}.

Definition len (l : list A) : Z := Z.of_nat (length l).

(** Bound of a slice: a negative bound counts from the end, and both
    ends are clamped to the list. *)
Definition slice_bound (n i : Z) : Z :=
  if i <? 0 then Z.max (i + n) 0 else Z.min i n.

(** [l[lo:hi]] *)
Definition py_slice (l : list A) (lo hi : Z) : list A :=
  let lo' := slice_bound (len l) lo in
  let hi' := slice_bound (len l) hi in
  take (Z.to_nat (hi' - lo')) (drop (Z.to_nat lo') l).

End PyList.

(** [range(k)] *)
Definition py_range (k : Z) : list nat := seq 0 (Z.to_nat k).

(** ** Data model *)

Record Paper := {
  title : string;
  abstract : string;
  venue : string;
  paper_id : option string;
  authors : option (list string);
  keywords : option (list string);
  pdf_url : option string;
  forum_url : option string
}.

Record ClassificationResult := {
  category : string;
  papers : list Paper;
  summary : string
}.

(** ** Batch planning (classify_papers, lines 78 and 83-86) *)

Section Planner.
Variable batch_size : Z.

(** [(len(papers) + self.batch_size - 1) // self.batch_size] *)
Definition batch_count (ps : list Paper) : result Z :=
  if batch_size =? 0 then Raise ZeroDivisionError
  else Ok ((len ps + batch_size - 1) `div` batch_size).

(** [papers[start_idx:end_idx]] of batch [batch_idx] *)
Definition batch_papers (ps : list Paper) (batch_idx : nat) : list Paper :=
  let start_idx := Z.of_nat batch_idx * batch_size in
  let end_idx := Z.min (start_idx + batch_size) (len ps) in
  py_slice ps start_idx end_idx.

(** The batches the loop goes through, in order. *)
Definition plan_batches (ps : list Paper) : result (list (list Paper)) :=
  k ← batch_count ps;
  mret (map (batch_papers ps) (py_range k)).

End Planner.

(** ** Decoded JSON values

    What [json.loads] hands back: [None], [bool], [int], [float], [str],
    [list] and [dict] (insertion-ordered, looked up by key).  A float is
    kept as an exact fraction or one of the three special values, which
    is all that the comparison [0 < idx <= len(papers)] looks at. *)

Inductive pyfloat :=
| FNan
| FInf (negative : bool)
| FFin (num : Z) (den : positive).

#[local] Set Warnings "-register-all".
Inductive json :=
| JNull
| JBool (b : bool)
| JInt (n : Z)
| JFloat (f : pyfloat)
| JStr (s : string)
| JList (l : list json)
| JDict (kvs : list (string * json)).

(** [d.get(key, default)] on a dict *)
Fixpoint dict_get (kvs : list (string * json)) (key : string) (default : json) : json :=
  match kvs with
  | [] => default
  | (k, v) :: rest => if String.eqb k key then v else dict_get rest key default
  end.

(** [x.get(key, default)]: only a dict has the method. *)
Definition py_get (x : json) (key : string) (default : json) : result json :=
  match x with
  | JDict kvs => Ok (dict_get kvs key default)
  | _ => Raise AttributeError
  end.

(** The one-character strings a [for] loop over a [str] yields (one per
    byte here; every one of them is a [str] either way). *)
Fixpoint chars_of (s : string) : list json :=
  match s with
  | EmptyString => []
  | String c s' => JStr (String c EmptyString) :: chars_of s'
  end.

(** [for x in v]: a list yields its elements, a dict its keys, a str its
    characters; nothing else is iterable. *)
Definition py_iter (v : json) : result (list json) :=
  match v with
  | JList l => Ok l
  | JDict kvs => Ok (map (fun kv => JStr kv.1) kvs)
  | JStr s => Ok (chars_of s)
  | _ => Raise TypeError
  end.

(** [0 < f <= n] for a float [f] *)
Definition float_in_range (f : pyfloat) (n : Z) : bool :=
  match f with
  | FFin a d => (0 <? a) && (a <=? n * Z.pos d)
  | _ => false
  end.

(** [0 < i <= n] for an int [i] *)
Definition int_in_range (i n : Z) : bool := (0 <? i) && (i <=? n).

(** ** Response parser (_parse_classification_result, lines 168-194) *)

Definition default_name : string := "未命名类别".

(** [papers[idx - 1]] for an int [idx] that passed the filter *)
Definition paper_at (ps : list Paper) (idx : Z) : result Paper :=
  match ps !! Z.to_nat (idx - 1) with
  | Some p => Ok p
  | None => Raise IndexError
  end.

(** [[papers[idx - 1] for idx in paper_indices if 0 < idx <= len(papers)]]:
    [bool] is an [int] (True is 1); a float can be compared but not used
    as an index; any other value cannot be compared with 0. *)
Fixpoint select_papers (ps : list Paper) (paper_indices : list json) : result (list Paper) :=
  match paper_indices with
  | [] => Ok []
  | idx :: rest =>
      match idx with
      | JInt i =>
          if int_in_range i (len ps)
          then p ← paper_at ps i; tl ← select_papers ps rest; mret (p :: tl)
          else select_papers ps rest
      | JBool b =>
          let i := if b then 1 else 0 in
          if int_in_range i (len ps)
          then p ← paper_at ps i; tl ← select_papers ps rest; mret (p :: tl)
          else select_papers ps rest
      | JFloat f =>
          if float_in_range f (len ps) then Raise TypeError
          else select_papers ps rest
      | _ => Raise TypeError
      end
  end.

(** [ClassificationResult(category=..., papers=..., summary=...)] *)
Definition make_result (category_name : json) (category_papers : list Paper)
    (summary_value : json) : result ClassificationResult :=
  match category_name, summary_value with
  | JStr n, JStr s => Ok {| category := n; papers := category_papers; summary := s |}
  | _, _ => IllTyped
  end.

(** The loop body, lines 181-192. *)
Definition parse_entry (ps : list Paper) (cat : json) : result ClassificationResult :=
  category_name ← py_get cat "name" (JStr default_name);
  paper_indices ← py_get cat "paper_indices" (JList []);
  summary_value ← py_get cat "summary" (JStr "");
  is_existing ← py_get cat "is_existing" (JBool false);
  idxs ← py_iter paper_indices;
  category_papers ← select_papers ps idxs;
  make_result category_name category_papers summary_value.

Fixpoint parse_entries (ps : list Paper) (cats : list json) : result (list ClassificationResult) :=
  match cats with
  | [] => Ok []
  | cat :: rest =>
      r ← parse_entry ps cat;
      results ← parse_entries ps rest;
      mret (r :: results)
  end.

(** Lines 179-194, on the decoded payload. *)
Definition parse_payload (ps : list Paper) (result_data : json) : result (list ClassificationResult) :=
  categories ← py_get result_data "categories" (JList []);
  cats ← py_iter categories;
  parse_entries ps cats.

(** *** [re.search(r'\{[\s\S]*\}', response_text)]

    The class [[\s\S]] is every character and the star is greedy: the
    match opens at the first left brace and closes at the last right
    brace after it. *)

Fixpoint after_first_open (s : string) : option string :=
  match s with
  | EmptyString => None
  | String c s' => if Ascii.eqb c "{" then Some s' else after_first_open s'
  end.

(** The longest prefix of [s] that ends in a right brace. *)
Fixpoint upto_last_close (s : string) : option string :=
  match s with
  | EmptyString => None
  | String c s' =>
      match upto_last_close s' with
      | Some t => Some (String c t)
      | None => if Ascii.eqb c "}" then Some (String c EmptyString) else None
      end
  end.

Definition json_match (response_text : string) : option string :=
  body ← after_first_open response_text;
  inner ← upto_last_close body;
  Some (String "{" inner).

Section Parser.
(** [json.loads]: [None] stands for [json.JSONDecodeError]. *)
Variable json_loads : string -> option json.

(** The [existing_categories] argument is never read by the method. *)
Definition _parse_classification_result (response_text : string) (ps : list Paper)
    : result (list ClassificationResult) :=
  match json_match response_text with
  | None => Raise ValueError
  | Some group =>
      match json_loads group with
      | None => Raise ValueError
      | Some result_data => parse_payload ps result_data
      end
  end.

End Parser.

(** ** The object store

    A [ClassificationResult] is a mutable object: [existing_results[:]]
    copies the list, not the objects in it, and [merged.append(batch_cat)]
    puts the very object of the batch into the accumulated list.  The
    store maps a location to the current fields of the object there; a
    Python list of results is a list of locations.  Every result owns its
    [papers] list, as the parser builds them. *)

Abbreviation loc := nat (only parsing).
Abbreviation heap := (list ClassificationResult) (only parsing).

(** The objects of a list, as they are now. *)
Definition view (h : heap) (l : list loc) : list ClassificationResult :=
  omap (fun x => h !! x) l.

(** Fresh objects for the values the parser built. *)
Definition alloc (h : heap) (vs : list ClassificationResult) : heap * list loc :=
  (h ++ vs, seq (length h) (length vs)).

(** [c.papers.extend(more)] *)
Definition extend_papers (more : list Paper) (c : ClassificationResult) : ClassificationResult :=
  {| category := category c; papers := papers c ++ more; summary := summary c |}.

(** ** Merge engine (_merge_results, lines 196-214) *)

(** The inner [for] loop with its [break]: [Some] is [found = True] with
    the store after the [extend], [None] is [found = False].  A location
    is always allocated in Python; the branches for a missing one are
    there to make the function total. *)
Fixpoint scan_merged (h : heap) (batch_cat : loc) (merged : list loc) : option heap :=
  match merged with
  | [] => None
  | x :: rest =>
      match h !! x, h !! batch_cat with
      | Some existing_cat, Some b =>
          if String.eqb (category existing_cat) (category b)
          then Some (alter (extend_papers (papers b)) x h)
          else scan_merged h batch_cat rest
      | _, _ => scan_merged h batch_cat rest
      end
  end.

(** The outer [for] loop. *)
Fixpoint merge_loop (h : heap) (merged batch_results : list loc) : heap * list loc :=
  match batch_results with
  | [] => (h, merged)
  | batch_cat :: rest =>
      match scan_merged h batch_cat merged with
      | Some h' => merge_loop h' merged rest
      | None => merge_loop h (merged ++ [batch_cat]) rest
      end
  end.

Definition _merge_results (h : heap) (existing_results batch_results : list loc)
    : heap * list loc :=
  let merged := existing_results in
  merge_loop h merged batch_results.

(** Lines 105-106 after the parser returned: the parsed results become
    objects of the store and are merged into the accumulated list. *)
Definition merge_batch (h : heap) (all_results : list loc)
    (batch_values : list ClassificationResult) : heap * list loc :=
  let '(h1, batch_results) := alloc h batch_values in
  _merge_results h1 all_results batch_results.

(** ** Batch orchestrator (classify_papers, lines 72-113) *)

(** What a call leaves behind: the store, the batches sent to the
    backend, the batch number of the failure line it printed (if any),
    and what it returned or raised.  [merged_batches] is a history, not
    a Python value: what the parser returned for each batch merged so
    far, in order. *)
Record run := {
  store : heap;
  calls : list (list Paper);
  merged_batches : list (list ClassificationResult);
  printed_failure : option nat;
  outcome : result (list loc)
}.

Section Orchestrator.
Variable json_loads : string -> option json.
(** One round trip to the backend for batch [batch_idx]: the reply text,
    or the exception of the call.  The prompt is a function of the batch
    and of the accumulated categories as they are when it is built, so
    the backend is given these two. *)
Variable client : nat -> list Paper -> list ClassificationResult -> result string.
Variable batch_size : Z.

(** The body of the [try] block up to the parsed batch. *)
Definition batch_reply (h : heap) (all_results : list loc) (bp : list Paper) (batch_idx : nat)
    : result (list ClassificationResult) :=
  result_text ← client batch_idx bp (view h all_results);
  _parse_classification_result json_loads result_text bp.

(** The [for] loop over [range(batch_count)]; the handler prints the
    batch number and raises the exception again. *)
Fixpoint batch_loop (ps : list Paper) (h : heap) (all_results : list loc)
    (sent : list (list Paper)) (hist : list (list ClassificationResult))
    (idxs : list nat) : run :=
  match idxs with
  | [] =>
      {| store := h; calls := sent; merged_batches := hist;
         printed_failure := None; outcome := Ok all_results |}
  | batch_idx :: rest =>
      let bp := batch_papers batch_size ps batch_idx in
      match batch_reply h all_results bp batch_idx with
      | Ok batch_values =>
          let '(h', merged) := merge_batch h all_results batch_values in
          batch_loop ps h' merged (sent ++ [bp]) (hist ++ [batch_values]) rest
      | Raise e =>
          {| store := h; calls := sent ++ [bp]; merged_batches := hist;
             printed_failure := Some (S batch_idx); outcome := Raise e |}
      | IllTyped =>
          {| store := h; calls := sent ++ [bp]; merged_batches := hist;
             printed_failure := None; outcome := IllTyped |}
      end
  end.

Definition classify_papers (h : heap) (ps : list Paper)
    (existing_categories : option (list loc)) : run :=
  match ps with
  | [] =>
      {| store := h; calls := []; merged_batches := [];
         printed_failure := None; outcome := Ok [] |}
  | _ =>
      let all_results := default [] existing_categories in
      match batch_count batch_size ps with
      | Ok k => batch_loop ps h all_results [] [] (py_range k)
      | Raise e =>
          {| store := h; calls := []; merged_batches := [];
             printed_failure := None; outcome := Raise e |}
      | IllTyped =>
          {| store := h; calls := []; merged_batches := [];
             printed_failure := None; outcome := IllTyped |}
      end
  end.

End Orchestrator.

(** ** The specification's reading, for comparison *)

(** The merge as section 4.4 words it, on values: a left fold over the
    [(name, records, summary)] tuples; the first category with exactly
    that name gets the records appended, and when there is none a new
    category goes to the end. *)
Fixpoint merge_tuple_spec (state : list ClassificationResult)
    (name : string) (records : list Paper) (descr : string) : list ClassificationResult :=
  match state with
  | [] => [ {| category := name; papers := records; summary := descr |} ]
  | c :: rest =>
      if String.eqb (category c) name
      then {| category := category c; papers := papers c ++ records; summary := summary c |} :: rest
      else c :: merge_tuple_spec rest name records descr
  end.

Definition merge_spec (state : list ClassificationResult)
    (tuples : list (string * list Paper * string)) : list ClassificationResult :=
  foldl (fun st t => merge_tuple_spec st t.1.1 t.1.2 t.2) state tuples.

Definition tuple_of (c : ClassificationResult) : string * list Paper * string :=
  (category c, papers c, summary c).

(** Two decoded replies that are the same but for the values under
    [is_existing] in the entries of [categories]. *)
Definition same_item_but (key : string) (R : json -> json -> Prop)
    (a b : string * json) : Prop :=
  a.1 = b.1 /\ (if String.eqb a.1 key then R a.2 b.2 else a.2 = b.2).

Definition entries_differ_in_flag (e1 e2 : json) : Prop :=
  match e1, e2 with
  | JDict kvs1, JDict kvs2 =>
      Forall2 (same_item_but "is_existing" (fun _ _ => True)) kvs1 kvs2
  | _, _ => e1 = e2
  end.

Definition categories_differ_in_flag (v1 v2 : json) : Prop :=
  match v1, v2 with
  | JList l1, JList l2 => Forall2 entries_differ_in_flag l1 l2
  | _, _ => v1 = v2
  end.

Definition payloads_differ_in_flag (d1 d2 : json) : Prop :=
  match d1, d2 with
  | JDict kvs1, JDict kvs2 =>
      Forall2 (same_item_but "categories" categories_differ_in_flag) kvs1 kvs2
  | _, _ => d1 = d2
  end.

(** The prefix of [s] that closes the brace opened just before it, with
    [depth] braces opened since. *)
Fixpoint balanced_prefix (depth : nat) (s : string) : option string :=
  match s with
  | EmptyString => None
  | String c s' =>
      if Ascii.eqb c "{" then String c <$> balanced_prefix (S depth) s'
      else if Ascii.eqb c "}" then
        match depth with
        | O => Some (String c EmptyString)
        | S d => String c <$> balanced_prefix d s'
        end
      else String c <$> balanced_prefix depth s'
  end.

(** Section 4.3's "first balanced top-level JSON object substring
    (brace-matched)": the leftmost left brace whose matching right brace
    exists, up to that brace. *)
Fixpoint first_balanced_object (s : string) : option string :=
  match s with
  | EmptyString => None
  | String c s' =>
      if Ascii.eqb c "{" then
        match balanced_prefix 0 s' with
        | Some inner => Some (String c inner)
        | None => first_balanced_object s'
        end
      else first_balanced_object s'
  end.

(** ** A decoder for the example texts

    The theorems below hold for whatever [json.loads] is.  The examples
    need one that runs: this decoder reads objects, arrays, strings
    without escapes, integers, [true], [false], [null], [NaN] and the
    infinities, and refuses anything else.  On the texts of the examples
    it answers as [json.loads] does. *)

Definition quote : ascii := "034".

(** Example texts are written with an apostrophe where JSON has a quote. *)
Fixpoint dq (s : string) : string :=
  match s with
  | EmptyString => EmptyString
  | String c s' => String (if Ascii.eqb c "'" then quote else c) (dq s')
  end.

Definition is_ws (c : ascii) : bool :=
  Ascii.eqb c " " || Ascii.eqb c "009" || Ascii.eqb c "010" || Ascii.eqb c "013".

Fixpoint skip_ws (s : string) : string :=
  match s with
  | String c s' => if is_ws c then skip_ws s' else s
  | EmptyString => s
  end.

Definition digit_of (c : ascii) : option Z :=
  let n := Z.of_nat (nat_of_ascii c) in
  if (48 <=? n) && (n <=? 57) then Some (n - 48) else None.

Fixpoint read_digits (acc : Z) (s : string) : Z * string :=
  match s with
  | String c s' =>
      match digit_of c with
      | Some d => read_digits (10 * acc + d) s'
      | None => (acc, s)
      end
  | EmptyString => (acc, s)
  end.

(** After the opening quote: the characters up to the closing quote. *)
Fixpoint read_string (s : string) : option (string * string) :=
  match s with
  | EmptyString => None
  | String c s' =>
      if Ascii.eqb c quote then Some (EmptyString, s')
      else if Ascii.eqb c "\" then None
      else if (nat_of_ascii c <? 32)%nat then None
      else '(t, r) ← read_string s'; Some (String c t, r)
  end.

Fixpoint strip_prefix (p s : string) : option string :=
  match p, s with
  | EmptyString, _ => Some s
  | String a p', String b s' => if Ascii.eqb a b then strip_prefix p' s' else None
  | _, _ => None
  end.

(** No fraction or exponent may follow an integer here. *)
Definition ends_int (s : string) : bool :=
  match s with
  | String c _ => negb (Ascii.eqb c "." || Ascii.eqb c "e" || Ascii.eqb c "E")
  | EmptyString => true
  end.

Definition read_nat (s : string) : option (Z * string) :=
  match s with
  | String c s' =>
      match digit_of c with
      | Some 0 => if ends_int s' then Some (0, s') else None
      | Some d => let '(n, r) := read_digits d s' in if ends_int r then Some (n, r) else None
      | None => None
      end
  | EmptyString => None
  end.

Definition read_atom (s : string) : option (json * string) :=
  match strip_prefix "true" s, strip_prefix "false" s, strip_prefix "null" s with
  | Some r, _, _ => Some (JBool true, r)
  | _, Some r, _ => Some (JBool false, r)
  | _, _, Some r => Some (JNull, r)
  | _, _, _ =>
      match strip_prefix "NaN" s, strip_prefix "Infinity" s, strip_prefix "-Infinity" s with
      | Some r, _, _ => Some (JFloat FNan, r)
      | _, Some r, _ => Some (JFloat (FInf false), r)
      | _, _, Some r => Some (JFloat (FInf true), r)
      | _, _, _ =>
          match strip_prefix "-" s with
          | Some r => '(n, r') ← read_nat r; Some (JInt (- n), r')
          | None => '(n, r') ← read_nat s; Some (JInt n, r')
          end
      end
  end.

(** A repeated key keeps its place and takes the last value. *)
Fixpoint dict_set (kvs : list (string * json)) (k : string) (v : json) : list (string * json) :=
  match kvs with
  | [] => [(k, v)]
  | (k', v') :: rest =>
      if String.eqb k' k then (k, v) :: rest else (k', v') :: dict_set rest k v
  end.

Fixpoint decode_value (fuel : nat) (s : string) : option (json * string) :=
  match fuel with
  | O => None
  | S fuel' =>
      match skip_ws s with
      | EmptyString => None
      | String c r =>
          if Ascii.eqb c "{" then
            match skip_ws r with
            | String c' r' =>
                if Ascii.eqb c' "}" then Some (JDict [], r')
                else decode_members fuel' r []
            | EmptyString => None
            end
          else if Ascii.eqb c "[" then
            match skip_ws r with
            | String c' r' =>
                if Ascii.eqb c' "]" then Some (JList [], r')
                else decode_elements fuel' r []
            | EmptyString => None
            end
          else if Ascii.eqb c quote then
            '(t, r') ← read_string r; Some (JStr t, r')
          else read_atom (String c r)
      end
  end
with decode_elements (fuel : nat) (s : string) (acc : list json) : option (json * string) :=
  match fuel with
  | O => None
  | S fuel' =>
      '(v, r) ← decode_value fuel' s;
      match skip_ws r with
      | String c r' =>
          if Ascii.eqb c "," then decode_elements fuel' r' (acc ++ [v])
          else if Ascii.eqb c "]" then Some (JList (acc ++ [v]), r')
          else None
      | EmptyString => None
      end
  end
with decode_members (fuel : nat) (s : string) (acc : list (string * json)) : option (json * string) :=
  match fuel with
  | O => None
  | S fuel' =>
      match skip_ws s with
      | String c r =>
          if Ascii.eqb c quote then
            '(k, r1) ← read_string r;
            match skip_ws r1 with
            | String c1 r2 =>
                if Ascii.eqb c1 ":" then
                  '(v, r3) ← decode_value fuel' r2;
                  match skip_ws r3 with
                  | String c3 r4 =>
                      if Ascii.eqb c3 "," then decode_members fuel' r4 (dict_set acc k v)
                      else if Ascii.eqb c3 "}" then Some (JDict (dict_set acc k v), r4)
                      else None
                  | EmptyString => None
                  end
                else None
            | EmptyString => None
            end
          else None
      | EmptyString => None
      end
  end.

Definition decode_json (s : string) : option json :=
  '(v, r) ← decode_value (2 * String.length s + 2) s;
  match skip_ws r with
  | EmptyString => Some v
  | _ => None
  end.

(** ** Auxiliary notions for the statements *)

(** [c] does not occur in [s]. *)
Definition lacks (c : ascii) (s : string) : Prop :=
  ~ In c (list_ascii_of_string s).

(** Every location of [l] is allocated in [h]. *)
Definition valid (h : heap) (l : list loc) : Prop :=
  Forall (fun x => (x < length h)%nat) l.

(** The category names of a list of results, in order. *)
Definition names (h : heap) (l : list loc) : list string :=
  category <$> view h l.

(** [c'] is [c] with records appended: same name, same description. *)
Definition grows (c c' : ClassificationResult) : Prop :=
  category c' = category c /\ summary c' = summary c /\
  (papers c `prefix_of` papers c').

(** The records of the batches in [hist] are all in the categories of
    their names. *)
Definition covered (h : heap) (l : list loc) (hist : list (list ClassificationResult)) : Prop :=
  forall vs v p, vs ∈ hist -> v ∈ vs -> p ∈ papers v ->
  exists c, c ∈ view h l /\ category c = category v /\ p ∈ papers c.

(** The keys of a dict. *)
Definition keys (kvs : list (string * json)) : list string := kvs.*1.

(** The members of the categories named [n], in order and with their
    repetitions. *)
Definition members_named (n : string) (l : list ClassificationResult) : list Paper :=
  l ≫= (fun c => if String.eqb (category c) n then papers c else []).

(** ** Example data *)

Definition paper (t : string) : Paper :=
  {| title := t; abstract := "abstract of " ++ t; venue := "ICML";
     paper_id := None; authors := None; keywords := None;
     pdf_url := None; forum_url := None |}.

Definition p0 : Paper := paper "p0".
Definition p1 : Paper := paper "p1".
Definition p2 : Paper := paper "p2".
Definition p3 : Paper := paper "p3".

Definition cat_of (n : string) (members : list Paper) (descr : string) : ClassificationResult :=
  {| category := n; papers := members; summary := descr |}.

(** The state after merging [("A", [p1]); ("B", [p2])] into the empty
    state. *)
Definition state_AB : heap * list loc :=
  merge_batch [] [] [cat_of "A" [p1] "about A"; cat_of "B" [p2] "about B"].

(** A seed state with one category, as a caller would pass it. *)
Definition seed_heap : heap := [cat_of "A" [p0] "about A"].
Definition seed : list loc := [0%nat].

Definition reply_existing_A : string :=
  dq "{'categories': [{'name': 'A', 'is_existing': true, 'paper_indices': [1]}]}".

Definition reply_new_A : string :=
  dq "{'categories': [{'name': 'A', 'is_existing': false, 'paper_indices': [1]}]}".

(** A backend that answers the first batch and fails on the second. *)
Definition flaky_client (batch_idx : nat) (bp : list Paper)
    (current : list ClassificationResult) : result string :=
  match batch_idx with
  | O => Ok reply_existing_A
  | _ => Raise (BackendError "quota exceeded")
  end.

(** A backend that names the first record of the batch three times. *)
Definition repeating_client (batch_idx : nat) (bp : list Paper)
    (current : list ClassificationResult) : result string :=
  Ok (dq ("{'categories': [{'name': 'A', 'paper_indices': [1, 1], 'summary': 'sa'},"
          ++ " {'name': 'B', 'paper_indices': [1], 'summary': 'sb'}]}")).

(** A reply with a note after the object: the match runs to the last
    brace of the note. *)
Definition reply_with_note : string :=
  dq "Here it is: {'categories': []} (keys are in {braces})".

(** One batch whose reply names record 1 twice under "A" and once more
    under "B", over the empty state and over the seed state. *)
Definition repeated_run : run :=
  classify_papers decode_json repeating_client 5 [] [p1] None.

Definition seeded_run : run :=
  classify_papers decode_json repeating_client 5 seed_heap [p1] (Some seed).

(** Two records in batches of one over the seed state; the backend puts
    the first record into the seed's category "A" and fails on the
    second batch. *)
Definition failed_run : run :=
  classify_papers decode_json flaky_client 1 seed_heap [p1; p2] (Some seed).

(** A reply whose second index is a string, and the run of a backend
    that gives it for a batch of two records. *)
Definition reply_string_index : string :=
  dq "{'categories': [{'name': 'A', 'paper_indices': [1, '2'], 'summary': 's'}]}".

Definition string_index_client (batch_idx : nat) (bp : list Paper)
    (current : list ClassificationResult) : result string :=
  Ok reply_string_index.

Definition string_index_run : run :=
  classify_papers decode_json string_index_client 5 [] [p1; p2] None.

(** * The rest of the pipeline

    [PaperSearchClassifier] of [paper_search_classify.py] (loading,
    keyword search, saving), the converter of [strand_json.py] and the
    viewer of [main.py] (loading what was saved, searching, grouping). *)

(** ** Python values and strings *)

(** [bool(v)]: [None], [False], zero, and the empty string, list and
    dict are false. *)
Definition truthy (v : json) : bool :=
  match v with
  | JNull => false
  | JBool b => b
  | JInt n => negb (n =? 0)
  | JFloat (FFin 0 _) => false
  | JFloat _ => true
  | JStr s => negb (String.eqb s EmptyString)
  | JList l => match l with [] => false | _ => true end
  | JDict kvs => match kvs with [] => false | _ => true end
  end.

(** [a or b] *)
Definition py_or (a b : json) : json := if truthy a then a else b.

(** [d.get(key)] *)
Definition dict_get_none (kvs : list (string * json)) (key : string) : json :=
  dict_get kvs key JNull.

(** [needle in hay] on strings *)
Fixpoint contains (needle hay : string) : bool :=
  if String.prefix needle hay then true
  else match hay with
       | EmptyString => false
       | String _ hay' => contains needle hay'
       end.

(** [s.split(sep)] for a one-character separator: never an empty list. *)
Fixpoint split_on (sep : ascii) (s : string) : list string :=
  match s with
  | EmptyString => [EmptyString]
  | String c s' =>
      if Ascii.eqb c sep then EmptyString :: split_on sep s'
      else match split_on sep s' with
           | w :: ws => String c w :: ws
           | [] => [String c EmptyString]
           end
  end.

(** Number of occurrences of a character. *)
Fixpoint count_char (c : ascii) (s : string) : nat :=
  match s with
  | EmptyString => O
  | String d s' => ((if Ascii.eqb d c then 1 else 0) + count_char c s')%nat
  end.

(** [d[key] = value] on a dict with keys of type [str]: a key that is
    there keeps its place. *)
Fixpoint pydict_set {V : Type} (d : list (string * V)) (key : string) (value : V)
    : list (string * V) :=
  match d with
  | [] => [(key, value)]
  | (k, v) :: rest =>
      if String.eqb k key then (k, value) :: rest
      else (k, v) :: pydict_set rest key value
  end.

(** [d.get(key)] on such a dict *)
Fixpoint pydict_get {V : Type} (d : list (string * V)) (key : string) : option V :=
  match d with
  | [] => None
  | (k, v) :: rest => if String.eqb k key then Some v else pydict_get rest key
  end.

(** Lower case and strip for the examples: ASCII letters, and the ASCII
    blanks.  The theorems take [str.lower] and [str.strip] as they come. *)
Definition ascii_lower_char (c : ascii) : ascii :=
  let n := nat_of_ascii c in
  if (65 <=? n)%nat && (n <=? 90)%nat then ascii_of_nat (n + 32) else c.

Fixpoint ascii_lower (s : string) : string :=
  match s with
  | EmptyString => EmptyString
  | String c s' => String (ascii_lower_char c) (ascii_lower s')
  end.

(** The prefix of [s] up to its last character that is not blank. *)
Fixpoint rstrip (s : string) : string :=
  match s with
  | EmptyString => EmptyString
  | String c s' =>
      match rstrip s' with
      | EmptyString => if is_ws c then EmptyString else String c EmptyString
      | t => String c t
      end
  end.

Definition ascii_strip (s : string) : string := rstrip (skip_ws s).

(** ** PaperSearchClassifier (paper_search_classify.py, lines 527-791) *)

(** *** _sanitize_filename, lines 754-756

    [re.sub] with a character class and the replacement ['_']: each of
    the nine characters of the class (less-than, greater-than, colon,
    double quote, slash, backslash, bar, question mark, star) becomes an
    underscore. *)

Definition forbidden_chars : list ascii :=
  ["<"; ">"; ":"; quote; "/"; "\"; "|"; "?"; "*"]%char.

Definition is_forbidden (c : ascii) : bool :=
  existsb (Ascii.eqb c) forbidden_chars.

Fixpoint _sanitize_filename (filename : string) : string :=
  match filename with
  | EmptyString => EmptyString
  | String c rest =>
      String (if is_forbidden c then "_"%char else c) (_sanitize_filename rest)
  end.

(** *** _parse_single_paper and _parse_papers, lines 568-604 *)

(** The values [Paper(...)] is given, against the annotations of the
    dataclass. *)
Definition as_str (v : json) : result string :=
  match v with
  | JStr s => Ok s
  | _ => IllTyped
  end.

Definition as_opt_str (v : json) : result (option string) :=
  match v with
  | JNull => Ok None
  | JStr s => Ok (Some s)
  | _ => IllTyped
  end.

Fixpoint as_str_list (l : list json) : result (list string) :=
  match l with
  | [] => Ok []
  | v :: rest => s ← as_str v; tl ← as_str_list rest; mret (s :: tl)
  end.

Definition as_opt_str_list (v : json) : result (option (list string)) :=
  match v with
  | JNull => Ok None
  | JList l => tl ← as_str_list l; mret (Some tl)
  | _ => IllTyped
  end.

(** The [try] block of lines 586-602; an item that is not a dict has no
    [get], and the handler turns the exception into [None]. *)
Definition _parse_single_paper (item : json) (venue_name : string) : result (option Paper) :=
  match item with
  | JDict kvs =>
      let title_v :=
        py_or (py_or (dict_get_none kvs "title") (dict_get_none kvs "name")) (JStr "") in
      let abstract_v :=
        py_or (py_or (dict_get_none kvs "abstract") (dict_get_none kvs "tldr")) (JStr "") in
      if negb (truthy title_v) || negb (truthy abstract_v) then Ok None
      else
        t ← as_str title_v;
        a ← as_str abstract_v;
        pid ← as_opt_str (py_or (dict_get_none kvs "paper_id") (dict_get_none kvs "id"));
        au ← as_opt_str_list (py_or (dict_get_none kvs "authors") (JList []));
        kw ← as_opt_str_list (py_or (dict_get_none kvs "keywords") (JList []));
        pdf ← as_opt_str (py_or (dict_get_none kvs "pdf_url") (JStr ""));
        forum ← as_opt_str
          (py_or (py_or (dict_get_none kvs "forum_url") (dict_get_none kvs "virtualsite_url"))
                 (JStr ""));
        mret (Some {| title := t; abstract := a; venue := venue_name; paper_id := pid;
                      authors := au; keywords := kw; pdf_url := pdf; forum_url := forum |})
  | _ => Ok None
  end.

(** The loop of lines 573-576: a paper object is always true, so every
    paper that is not [None] is kept. *)
Fixpoint parse_items (items : list json) (venue_name : string) : result (list Paper) :=
  match items with
  | [] => Ok []
  | item :: rest =>
      paper ← _parse_single_paper item venue_name;
      tl ← parse_items rest venue_name;
      mret (match paper with Some p => p :: tl | None => tl end)
  end.

Definition _parse_papers (data : json) (venue_name : string) : result (list Paper) :=
  match data with
  | JList items => parse_items items venue_name
  | JDict _ =>
      paper ← _parse_single_paper data venue_name;
      mret (match paper with Some p => [p] | None => [] end)
  | _ => Ok []
  end.

(** *** _extract_venue_name and load_papers, lines 536-566 *)

(** [bool(s)] for a string *)
Definition str_truthy (s : string) : bool := negb (String.eqb s EmptyString).

Section Loading.
(** [Path(json_file).stem] and [str.lower], as the libraries give them. *)
Variable path_stem : string -> string.
Variable str_lower : string -> string.
(** Reading a file: [None] when it does not exist, [Some None] when
    [open] or [json.load] raises, else the decoded data. *)
Variable read_json : string -> option (option json).

(** The second test is ['neurips' or 'nips' in filename.lower()]: the
    operands of [or] are the string ['neurips'] and the membership test. *)
Definition _extract_venue_name (json_file : string) : string :=
  let filename := path_stem json_file in
  if contains "iclr" (str_lower filename) then "ICLR 2025"
  else if str_truthy "neurips" || contains "nips" (str_lower filename) then "NeurIPS 2025"
  else if contains "icm" (str_lower filename) then "ICML 2025"
  else filename.

(** The loop of [load_papers] over [self.json_files], on the dict
    [self.papers_by_venue]; a file that is missing or cannot be read is
    skipped. *)
Fixpoint load_papers (json_files : list string) (papers_by_venue : list (string * list Paper))
    : result (list (string * list Paper)) :=
  match json_files with
  | [] => Ok papers_by_venue
  | json_file :: rest =>
      match read_json json_file with
      | Some (Some data) =>
          let venue_name := _extract_venue_name json_file in
          ps ← _parse_papers data venue_name;
          load_papers rest (pydict_set papers_by_venue venue_name ps)
      | _ => load_papers rest papers_by_venue
      end
  end.

End Loading.

(** *** search_papers, lines 606-649 *)

Section Searching.
Variable str_lower : string -> string.
Variable str_strip : string -> string.

(** [[k.strip() for k in keyword.split(',') if k.strip()]] *)
Fixpoint stripped_nonempty (pieces : list string) : list string :=
  match pieces with
  | [] => []
  | k :: rest =>
      if str_truthy (str_strip k) then str_strip k :: stripped_nonempty rest
      else stripped_nonempty rest
  end.

Definition split_keywords (keyword : string) : list string :=
  stripped_nonempty (split_on "," keyword).

(** The loop over the keywords with its [break]. *)
Fixpoint all_keywords_found (case_sensitive : bool) (keywords : list string)
    (abstract_text title_text : string) : bool :=
  match keywords with
  | [] => true
  | kw :: rest =>
      let search_key := if case_sensitive then kw else str_lower kw in
      if negb (contains search_key abstract_text) && negb (contains search_key title_text)
      then false
      else all_keywords_found case_sensitive rest abstract_text title_text
  end.

Definition paper_found (case_sensitive : bool) (keywords : list string) (p : Paper) : bool :=
  let abstract_text := if case_sensitive then abstract p else str_lower (abstract p) in
  let title_text := if case_sensitive then title p else str_lower (title p) in
  all_keywords_found case_sensitive keywords abstract_text title_text.

(** The loop over the papers of one venue, appending to [results]. *)
Fixpoint search_venue (case_sensitive : bool) (keywords : list string)
    (ps : list Paper) (results : list Paper) : list Paper :=
  match ps with
  | [] => results
  | p :: rest =>
      search_venue case_sensitive keywords rest
        (if paper_found case_sensitive keywords p then results ++ [p] else results)
  end.

(** The loop over [self.papers_by_venue.items()]. *)
Fixpoint search_venues (case_sensitive : bool) (keywords : list string)
    (papers_by_venue : list (string * list Paper)) (results : list Paper) : list Paper :=
  match papers_by_venue with
  | [] => results
  | (_, ps) :: rest =>
      search_venues case_sensitive keywords rest
        (search_venue case_sensitive keywords ps results)
  end.

Definition search_papers (papers_by_venue : list (string * list Paper))
    (keyword : string) (case_sensitive : bool) : list Paper :=
  let keywords := split_keywords keyword in
  match keywords with
  | [] => []
  | _ => search_venues case_sensitive keywords papers_by_venue []
  end.

End Searching.

(** *** save_search_results, lines 651-673: the data given to [json.dump] *)

Definition opt_str_json (o : option string) : json :=
  match o with
  | None => JNull
  | Some s => JStr s
  end.

Definition opt_list_json (o : option (list string)) : json :=
  match o with
  | None => JNull
  | Some l => JList (JStr <$> l)
  end.

Definition search_result_item (p : Paper) : json :=
  JDict [("title", JStr (title p)); ("abstract", JStr (abstract p));
         ("venue", JStr (venue p)); ("paper_id", opt_str_json (paper_id p));
         ("authors", opt_list_json (authors p)); ("pdf_url", opt_str_json (pdf_url p));
         ("forum_url", opt_str_json (forum_url p))].

Definition search_results_data (ps : list Paper) : json :=
  JList (search_result_item <$> ps).

(** *** save_classification_results, lines 693-752

    The directory of the run is a dict from file name to the data given
    to [json.dump]; the function returns the paths of the files, which
    are these names under the directory. *)

(** [str(n)] for a natural number *)
Definition decimal (n : nat) : string := NilEmpty.string_of_uint (Nat.to_uint n).

(** The format [02d]: at least two digits, padded with zeros. *)
Definition format_02d (n : nat) : string :=
  if (String.length (decimal n) <? 2)%nat then String "0" (decimal n) else decimal n.

Definition paper_entry (p : Paper) : json :=
  JDict [("title", JStr (title p)); ("abstract", JStr (abstract p));
         ("venue", JStr (venue p)); ("authors", opt_list_json (authors p));
         ("paper_id", opt_str_json (paper_id p)); ("pdf_url", opt_str_json (pdf_url p));
         ("forum_url", opt_str_json (forum_url p))].

Definition category_data (r : ClassificationResult) : json :=
  JDict [("name", JStr (category r)); ("paper_count", JInt (len (papers r)));
         ("summary", JStr (summary r)); ("papers", JList (paper_entry <$> papers r))].

(** [f"{i + 1:02d}_{self._sanitize_filename(result.category)}.json"] *)
Definition category_filename (i : nat) (r : ClassificationResult) : string :=
  format_02d (i + 1) +:+ "_" +:+ _sanitize_filename (category r) +:+ ".json".

Definition summary_entry (i : nat) (r : ClassificationResult) : json :=
  JDict [("name", JStr (category r)); ("paper_count", JInt (len (papers r)));
         ("summary", JStr (summary r)); ("file", JStr (category_filename i r))].

Definition summary_filename : string := "00_classification_summary.json".

(** [sum(len(r.papers) for r in results)] *)
Fixpoint total_papers (results : list ClassificationResult) : Z :=
  match results with
  | [] => 0
  | r :: rest => len (papers r) + total_papers rest
  end.

(** What the loop of lines 711-744 has done after the results from index
    [i] on: the directory, [saved_files] and [summary_data['categories']]. *)
Fixpoint save_categories (i : nat) (results : list ClassificationResult)
    (dir : list (string * json)) (saved_files : list string) (entries : list json)
    : list (string * json) * list string * list json :=
  match results with
  | [] => (dir, saved_files, entries)
  | r :: rest =>
      save_categories (S i) rest
        (pydict_set dir (category_filename i r) (category_data r))
        (saved_files ++ [category_filename i r])
        (entries ++ [summary_entry i r])
  end.

Definition save_classification_results (results : list ClassificationResult)
    (keyword provider_name : string) (timestamp : Z) (dir : list (string * json))
    : list (string * json) * list string :=
  let '(dir1, saved_files, entries) := save_categories 0 results dir [] [] in
  let summary_data :=
    JDict [("keyword", JStr keyword); ("provider", JStr provider_name);
           ("timestamp", JInt timestamp); ("total_papers", JInt (total_papers results));
           ("categories", JList entries)] in
  (pydict_set dir1 summary_filename summary_data, summary_filename :: saved_files).

(** ** The viewer (main.py) *)

Record PaperInfo := {
  info_title : string;
  info_abstract : string;
  info_venue : string;
  info_paper_id : option string;
  info_authors : option (list string);
  info_pdf_url : option string;
  info_forum_url : option string
}.

(** A value of [self.categories]: the dict with the keys [papers],
    [summary] and [count]. *)
Record category_info := {
  cat_papers : list PaperInfo;
  cat_summary : json;
  cat_count : nat
}.

(** [self.categories] and [self.all_papers] *)
Record viewer := {
  categories : list (string * category_info);
  all_papers : list (string * PaperInfo)
}.

(** *** load_year_data, lines 107-141: from the summary file on *)

(** [PaperInfo(title=paper_data.get('title', ''), ...)], lines 122-130 *)
Definition paper_info_of (paper_data : json) : result PaperInfo :=
  t ← py_get paper_data "title" (JStr "");
  a ← py_get paper_data "abstract" (JStr "");
  v ← py_get paper_data "venue" (JStr "");
  pid ← py_get paper_data "paper_id" JNull;
  au ← py_get paper_data "authors" (JList []);
  pdf ← py_get paper_data "pdf_url" JNull;
  forum ← py_get paper_data "forum_url" JNull;
  t' ← as_str t; a' ← as_str a; v' ← as_str v; pid' ← as_opt_str pid;
  au' ← as_opt_str_list au; pdf' ← as_opt_str pdf; forum' ← as_opt_str forum;
  mret {| info_title := t'; info_abstract := a'; info_venue := v'; info_paper_id := pid';
          info_authors := au'; info_pdf_url := pdf'; info_forum_url := forum' |}.

Fixpoint paper_infos (items : list json) : result (list PaperInfo) :=
  match items with
  | [] => Ok []
  | paper_data :: rest =>
      p ← paper_info_of paper_data;
      tl ← paper_infos rest;
      mret (p :: tl)
  end.

Section Viewer.
(** [result_dir / name], when that file exists: its decoded content, or
    the exception of [json.load]. *)
Variable read_file : string -> option (result json).
Variable str_lower : string -> string.

(** The body of the loop over [summary_data.get('categories', [])]. *)
Definition load_category (cat_info : json) (v : viewer) : result viewer :=
  cat_name ← py_get cat_info "name" JNull;
  file ← py_get cat_info "file" JNull;
  match file with
  | JStr file_name =>
      match read_file file_name with
      | None => Ok v
      | Some content =>
          cat_data ← content;
          papers_v ← py_get cat_data "papers" (JList []);
          items ← py_iter papers_v;
          infos ← paper_infos items;
          summary_v ← py_get cat_data "summary" (JStr "");
          name ← as_str cat_name;
          mret {| categories :=
                    pydict_set (categories v) name
                      {| cat_papers := infos; cat_summary := summary_v;
                         cat_count := length infos |};
                  all_papers := all_papers v ++ ((fun p => (name, p)) <$> infos) |}
      end
  | _ => Raise TypeError
  end.

Fixpoint load_categories (cat_infos : list json) (v : viewer) : result viewer :=
  match cat_infos with
  | [] => Ok v
  | cat_info :: rest => v' ← load_category cat_info v; load_categories rest v'
  end.

(** Lines 95-141, in a result directory that holds JSON files: the
    state is emptied; without a summary file it stays empty. *)
Definition load_result_dir : result viewer :=
  let empty := {| categories := []; all_papers := [] |} in
  match read_file summary_filename with
  | None => Ok empty
  | Some content =>
      summary_data ← content;
      cats_v ← py_get summary_data "categories" (JList []);
      cat_infos ← py_iter cats_v;
      load_categories cat_infos empty
  end.

End Viewer.

(** *** search_papers of the viewer, lines 167-199 *)

Section ViewerSearch.
Variable str_lower : string -> string.

(** [any(keyword_lower in author.lower() for author in paper.authors)] *)
Fixpoint any_author (keyword_lower : string) (l : list string) : bool :=
  match l with
  | [] => false
  | author :: rest =>
      if contains keyword_lower (str_lower author) then true
      else any_author keyword_lower rest
  end.

(** The loop over [search_fields] with its [break]: does the paper go
    into the results? *)
Fixpoint field_found (keyword_lower : string) (p : PaperInfo) (search_fields : list string)
    : bool :=
  match search_fields with
  | [] => false
  | field :: rest =>
      if String.eqb field "title" then
        if contains keyword_lower (str_lower (info_title p)) then true
        else field_found keyword_lower p rest
      else if String.eqb field "abstract" then
        if contains keyword_lower (str_lower (info_abstract p)) then true
        else field_found keyword_lower p rest
      else if String.eqb field "authors"
              && match info_authors p with Some (_ :: _) => true | _ => false end then
        if any_author keyword_lower (default [] (info_authors p)) then true
        else field_found keyword_lower p rest
      else field_found keyword_lower p rest
  end.

Fixpoint search_loop (keyword_lower : string) (search_fields : list string)
    (entries : list (string * PaperInfo)) (results : list (string * PaperInfo))
    : list (string * PaperInfo) :=
  match entries with
  | [] => results
  | (cat, p) :: rest =>
      search_loop keyword_lower search_fields rest
        (if field_found keyword_lower p search_fields then results ++ [(cat, p)] else results)
  end.

Definition viewer_search_papers (v : viewer) (keyword : string)
    (search_fields : option (list string)) : list (string * PaperInfo) :=
  let fields := default ["title"; "abstract"] search_fields in
  search_loop (str_lower keyword) fields (all_papers v) [].

End ViewerSearch.

(** *** get_category_stats, lines 201-216 *)

Definition get_category_stats (v : viewer) : json :=
  JDict [("total_categories", JInt (len (categories v)));
         ("total_papers", JInt (len (all_papers v)));
         ("categories",
          JList ((fun '(cat_name, cat_data) =>
                    JDict [("name", JStr cat_name);
                           ("count", JInt (Z.of_nat (cat_count cat_data)));
                           ("summary", cat_summary cat_data)]) <$> categories v))].

(** *** api_search, lines 1136-1166: the grouping of the results *)

(** The dict of a paper in the answer; [paper.authors or []]. *)
Definition info_entry (p : PaperInfo) : json :=
  JDict [("title", JStr (info_title p)); ("abstract", JStr (info_abstract p));
         ("venue", JStr (info_venue p)); ("paper_id", opt_str_json (info_paper_id p));
         ("authors", JList (JStr <$> default [] (info_authors p)));
         ("pdf_url", opt_str_json (info_pdf_url p));
         ("forum_url", opt_str_json (info_forum_url p))].

(** [results_by_category[category].append(...)], after the list was
    put there when the category was new. *)
Definition group_append (groups : list (string * list json)) (cat : string) (entry : json)
    : list (string * list json) :=
  match pydict_get groups cat with
  | None => pydict_set groups cat [entry]
  | Some l => pydict_set groups cat (l ++ [entry])
  end.

Fixpoint group_results (search_results : list (string * PaperInfo))
    (groups : list (string * list json)) : list (string * list json) :=
  match search_results with
  | [] => groups
  | (cat, p) :: rest => group_results rest (group_append groups cat (info_entry p))
  end.

(** The answer for a list of search results. *)
Definition search_answer (search_results : list (string * PaperInfo)) : json :=
  JDict [("total_results", JInt (len search_results));
         ("results", JDict ((fun '(cat, l) => (cat, JList l)) <$> group_results search_results []))].

(** ** The converter (strand_json.py) *)

Section Converter.
Variable str_strip : string -> string.

(** parse_authors, lines 28-40 *)
Definition parse_authors (speakers_authors_str : string) : list string :=
  if str_truthy speakers_authors_str
  then str_strip <$> split_on "," speakers_authors_str
  else [].

End Converter.

(** *** convert_icm_to_standard, lines 43-79 *)

(** [s.replace(old, new)] for a non-empty [old]: [skip] is the number of
    characters of a match still to pass over. *)
Fixpoint replace_from (old new : string) (skip : nat) (s : string) : string :=
  match s with
  | EmptyString => EmptyString
  | String c s' =>
      match skip with
      | S k => replace_from old new k s'
      | O =>
          if String.prefix old s
          then new +:+ replace_from old new (String.length old - 1) s'
          else String c (replace_from old new 0 s')
      end
  end.

Definition str_replace (old new s : string) : string := replace_from old new 0 s.

Section Convert.
Variable str_strip : string -> string.
Variable str_lower : string -> string.
(** [extract_paper_id_from_url] (a regular expression, and an MD5 digest
    when it does not match) and the built-in [hash], on strings. *)
Variable extract_paper_id_from_url : string -> string.
Variable py_hash : string -> Z.

(** [parse_authors] on the value found in the paper: a false value gives
    no author before any method is called; only a string can be split. *)
Definition parse_authors_value (v : json) : result (list string) :=
  if truthy v then
    match v with
    | JStr s => Ok (parse_authors str_strip s)
    | _ => Raise AttributeError
    end
  else Ok [].

(** [{'oral': 1, 'poster': 2, 'workshop': 3}.get(paper_type, 2)] *)
Definition type_order_of (paper_type : string) : Z :=
  if String.eqb paper_type "oral" then 1
  else if String.eqb paper_type "poster" then 2
  else if String.eqb paper_type "workshop" then 3
  else 2.

Definition convert_icm_to_standard (icm_paper : json) : result json :=
  url_v ← py_get icm_paper "virtualsite_url" (JStr "");
  match url_v with
  | JStr virtualsite_url =>
      let paper_id := extract_paper_id_from_url virtualsite_url in
      speakers_authors ← py_get icm_paper "speakers/authors" (JStr "");
      authors_l ← parse_authors_value speakers_authors;
      type_v ← py_get icm_paper "type" (JStr "poster");
      match type_v with
      | JStr type_s =>
          let paper_type := str_lower type_s in
          name_v ← py_get icm_paper "name" (JStr "");
          abstract_v ← py_get icm_paper "abstract" (JStr "");
          lay_v ← py_get icm_paper "lay_summary" (JStr "");
          venue_type ← py_get icm_paper "type" (JStr "Poster");
          match venue_type with
          | JStr vt =>
              Ok (JDict
                [("paper_id", JStr paper_id);
                 ("forum_url",
                  JStr (if contains "/virtual/" virtualsite_url
                        then str_replace "/virtual/" "/forum?id=" virtualsite_url
                        else virtualsite_url));
                 ("number", JInt (py_hash paper_id `mod` 100000));
                 ("version", JInt 1);
                 ("submission_date", JStr "");
                 ("title", name_v);
                 ("authors", JList (JStr <$> authors_l));
                 ("abstract", abstract_v);
                 ("keywords", JList []);
                 ("primary_area", JStr "");
                 ("pdf_url", JStr "");
                 ("tldr", lay_v);
                 ("reply_count", JInt 0);
                 ("venue", JStr ("ICML 2025 " +:+ vt));
                 ("venueid", JStr "ICML.cc/2025/Conference");
                 ("type", JStr paper_type);
                 ("type_order", JInt (type_order_of paper_type))])
          | _ => Raise TypeError
          end
      | _ => Raise AttributeError
      end
  | _ => Raise TypeError
  end.

(** The loop of [convert_file], lines 94-104: a paper whose conversion
    raises is skipped. *)
Fixpoint convert_all (icm_papers : list json) : list json :=
  match icm_papers with
  | [] => []
  | icm_paper :: rest =>
      match convert_icm_to_standard icm_paper with
      | Ok standard_paper => standard_paper :: convert_all rest
      | _ => convert_all rest
      end
  end.

End Convert.

(** ** What comes back from a saved file *)

(** A paper as [_parse_single_paper] gives it back from the item that
    [save_search_results] wrote for it: the venue is the loader's, the
    keywords are not saved, and a missing or empty field becomes the
    default of the loader. *)
Definition reloaded (venue_name : string) (p : Paper) : Paper :=
  {| title := title p; abstract := abstract p; venue := venue_name;
     paper_id := match paper_id p with
                 | Some s => if str_truthy s then Some s else None
                 | None => None
                 end;
     authors := Some (default [] (authors p));
     keywords := Some [];
     pdf_url := Some (default EmptyString (pdf_url p));
     forum_url := Some (default EmptyString (forum_url p)) |}.

(** The [PaperInfo] of the viewer for a paper of the classifier. *)
Definition info_of (p : Paper) : PaperInfo :=
  {| info_title := title p; info_abstract := abstract p; info_venue := venue p;
     info_paper_id := paper_id p; info_authors := authors p;
     info_pdf_url := pdf_url p; info_forum_url := forum_url p |}.

(** Strings of decimal digits. *)
Definition is_digit (c : ascii) : bool :=
  (48 <=? nat_of_ascii c)%nat && (nat_of_ascii c <=? 57)%nat.

Fixpoint all_digits (s : string) : bool :=
  match s with
  | EmptyString => true
  | String c s' => is_digit c && all_digits s'
  end.

(** The entries of the summary for the results from index [i] on. *)
Fixpoint summary_entries (i : nat) (results : list ClassificationResult) : list json :=
  match results with
  | [] => []
  | r :: rest => summary_entry i r :: summary_entries (S i) rest
  end.

(** The names of their files. *)
Fixpoint category_filenames (i : nat) (results : list ClassificationResult) : list string :=
  match results with
  | [] => []
  | r :: rest => category_filename i r :: category_filenames (S i) rest
  end.

(** What the viewer holds for a result of the classifier. *)
Definition category_info_of (r : ClassificationResult) : category_info :=
  {| cat_papers := info_of <$> papers r; cat_summary := JStr (summary r);
     cat_count := length (papers r) |}.

Definition tagged_papers (r : ClassificationResult) : list (string * PaperInfo) :=
  (fun p => (category r, info_of p)) <$> papers r.

(** Reading from a directory whose files all decode. *)
Definition read_dir (dir : list (string * json)) (name : string) : option (result json) :=
  Ok <$> pydict_get dir name.

(** What one search field contributes to the search of the viewer. *)
Definition field_hit (str_lower : string -> string) (kw : string) (p : PaperInfo)
    (field : string) : bool :=
  if String.eqb field "title" then contains kw (str_lower (info_title p))
  else if String.eqb field "abstract" then contains kw (str_lower (info_abstract p))
  else if String.eqb field "authors"
  then any_author str_lower kw (default [] (info_authors p))
  else false.

(** The sum of the sizes of the groups of a grouping. *)
Fixpoint groups_total {V} (groups : list (string * list V)) : nat :=
  match groups with
  | [] => O
  | (_, l) :: rest => (length l + groups_total rest)%nat
  end.

(** The papers of a category among search results, in order. *)
Fixpoint of_category (cat : string) (search_results : list (string * PaperInfo))
    : list PaperInfo :=
  match search_results with
  | [] => []
  | (c, p) :: rest =>
      if String.eqb c cat then p :: of_category cat rest else of_category cat rest
  end.

(** The entry of [get_category_stats] for a result of the classifier. *)
Definition stats_entry (r : ClassificationResult) : json :=
  JDict [("name", JStr (category r)); ("count", JInt (len (papers r)));
         ("summary", JStr (summary r))].

(** A value that is a string. *)
Definition is_str (v : json) : bool :=
  match v with
  | JStr _ => true
  | _ => false
  end.

(** The records that [convert_icm_to_standard] takes: dicts whose
    address and type are strings, or missing, and whose authors are a
    string or false. *)
Definition convertible (icm_paper : json) : bool :=
  match icm_paper with
  | JDict kvs =>
      is_str (dict_get kvs "virtualsite_url" (JStr ""))
      && (negb (truthy (dict_get kvs "speakers/authors" (JStr "")))
          || is_str (dict_get kvs "speakers/authors" (JStr "")))
      && is_str (dict_get kvs "type" (JStr "poster"))
  | _ => false
  end.

(** ** Example data for the loader, the search and the converter *)

(** Three files named without directory or suffix, so that each name is
    its own stem; the first two hold one paper each, the third two. *)
Definition example_stem (json_file : string) : string := json_file.

Definition example_item (t a : string) : json :=
  JDict [("title", JStr t); ("abstract", JStr a)].

Definition example_files : list string := ["iclr_2025"; "icml_2025"; "nips_2025"].

Definition example_read (json_file : string) : option (option json) :=
  if String.eqb json_file "iclr_2025"
  then Some (Some (JList [example_item "Deep search" "Trees and agents"]))
  else if String.eqb json_file "icml_2025"
  then Some (Some (JList [example_item "Planning" "Agents that plan"]))
  else if String.eqb json_file "nips_2025"
  then Some (Some (JList [example_item "Bandits" "Regret of deep agents";
                          example_item "Kernels" "Trees"]))
  else None.

Definition example_paper (t a v : string) : Paper :=
  {| title := t; abstract := a; venue := v; paper_id := None;
     authors := Some []; keywords := Some []; pdf_url := Some "";
     forum_url := Some "" |}.

(** What [load_papers] leaves of them: the paper of "icml_2025" was filed
    under "NeurIPS 2025" and then replaced. *)
Definition example_loaded : list (string * list Paper) :=
  [("ICLR 2025", [example_paper "Deep search" "Trees and agents" "ICLR 2025"]);
   ("NeurIPS 2025", [example_paper "Bandits" "Regret of deep agents" "NeurIPS 2025";
                     example_paper "Kernels" "Trees" "NeurIPS 2025"])].

(** An ICML record with a lay summary and no abstract.  The identifier
    is the one [extract_paper_id_from_url] finds at the end of this
    address; [hash] differs from one process to the next. *)
Definition example_icm_paper : json :=
  JDict [("name", JStr "Planning");
         ("lay_summary", JStr "Agents that plan");
         ("speakers/authors", JStr "A. Author, B. Author");
         ("type", JStr "Oral");
         ("virtualsite_url", JStr "https://icml.cc/virtual/2025/poster/43210")].

Definition example_extract (virtualsite_url : string) : string := "43210".

Definition example_hash (s : string) : Z := 1234567.

Definition example_standard_paper : json :=
  JDict [("paper_id", JStr "43210");
         ("forum_url", JStr "https://icml.cc/forum?id=2025/poster/43210");
         ("number", JInt 34567);
         ("version", JInt 1);
         ("submission_date", JStr "");
         ("title", JStr "Planning");
         ("authors", JList [JStr "A. Author"; JStr "B. Author"]);
         ("abstract", JStr "");
         ("keywords", JList []);
         ("primary_area", JStr "");
         ("pdf_url", JStr "");
         ("tldr", JStr "Agents that plan");
         ("reply_count", JInt 0);
         ("venue", JStr "ICML 2025 Oral");
         ("venueid", JStr "ICML.cc/2025/Conference");
         ("type", JStr "oral");
         ("type_order", JInt 1)].

(** * Properties *)

(** ** Batch planner *)

Lemma take_min_length {A} (n : nat) (l : list A) :
  take (n `min` length l) l = take n l.
Proof. by rewrite <- take_take, firstn_all. Qed.

(** Consecutive chunks of width [w] put together again. *)
Lemma concat_chunks {A} (w k : nat) (l : list A) :
  concat (map (fun i => take w (drop (i * w) l)) (seq 0 k)) = take (k * w) l.
Proof.
  induction k as [|k IH]; [done|].
  rewrite seq_S, map_app, concat_app, IH. simpl.
  rewrite app_nil_r, take_take_drop. f_equal. lia.
Qed.

Section PlannerFacts.
Variable b : Z.
Hypothesis b_pos : 0 < b.

(** With a positive batch size the slice of batch [i] is the [i]-th
    chunk of width [b]. *)
Lemma batch_papers_take (ps : list Paper) (i : nat) :
  batch_papers b ps i = take (Z.to_nat b) (drop (i * Z.to_nat b) ps).
Proof.
  unfold batch_papers, py_slice, slice_bound, len.
  set (n := length ps).
  assert (Hs : 0 <= Z.of_nat i * b) by lia.
  destruct (Z.ltb_spec (Z.of_nat i * b) 0) as [|_]; [lia|].
  destruct (Z.ltb_spec (Z.min (Z.of_nat i * b + b) (Z.of_nat n)) 0) as [|_]; [lia|].
  destruct (Z.le_gt_cases (Z.of_nat i * b) (Z.of_nat n)) as [Hle|Hgt].
  - replace (Z.to_nat (Z.min (Z.of_nat i * b) (Z.of_nat n))) with (i * Z.to_nat b)%nat by lia.
    rewrite <- (take_min_length (Z.to_nat b)). f_equal.
    rewrite length_drop. fold n. lia.
  - rewrite (drop_ge ps (i * Z.to_nat b)) by (fold n; lia).
    rewrite take_nil.
    replace (Z.to_nat _) with 0%nat by lia. done.
Qed.

(** The batch count is the ceiling of [n / b]. *)
Lemma batch_count_ceil (ps : list Paper) :
  exists k : nat, batch_count b ps = Ok (Z.of_nat k) /\
    len ps <= Z.of_nat k * b < len ps + b.
Proof.
  unfold batch_count. destruct (Z.eqb_spec b 0) as [|_]; [lia|].
  set (q := (len ps + b - 1) `div` b).
  pose proof (Z.div_mod (len ps + b - 1) b ltac:(lia)) as Hdm.
  pose proof (Z.mod_pos_bound (len ps + b - 1) b b_pos) as Hr.
  fold q in Hdm.
  assert (0 <= q) by (apply Z.div_pos; unfold len; lia).
  exists (Z.to_nat q). rewrite Z2Nat.id by done. split; [done|]. nia.
Qed.

End PlannerFacts.

(** C4 (amended): for a batch size [b > 0] the planner yields
    [ceil(n/b)] batches, each non-empty and at most [b] long, all but the
    last exactly [b] long, whose concatenation is the input sequence; and
    for any [b] the planner raises if and only if [b = 0]. *)
Theorem plan_batches_partition (b : Z) (ps : list Paper) :
  (0 < b ->
     exists batches, plan_batches b ps = Ok batches /\
       concat batches = ps /\
       len ps <= len batches * b < len ps + b /\
       Forall (fun x => 0 < len x <= b) batches /\
       (forall (i : nat) x,
          batches !! i = Some x -> (S i < length batches)%nat -> len x = b)) /\
  (raises (plan_batches b ps) <-> b = 0).
Proof.
  split.
  - intros Hb. destruct (batch_count_ceil b Hb ps) as (k & Hk & Hceil).
    unfold plan_batches. rewrite Hk. simpl.
    unfold py_range. rewrite Nat2Z.id.
    eexists. split; [reflexivity|].
    rewrite (map_ext _ _ (batch_papers_take b Hb ps)).
    assert (Hlen : length (map (fun i : nat =>
                     take (Z.to_nat b) (drop (i * Z.to_nat b) ps)) (seq 0 k)) = k)
      by (by rewrite length_map, length_seq).
    unfold len in *. rewrite Hlen.
    split; [|split; [done|split]].
    + rewrite concat_chunks. apply take_ge. lia.
    + apply Forall_forall. intros x Hx. apply in_map_iff in Hx.
      destruct Hx as (i & <- & Hi). apply in_seq in Hi.
      rewrite length_take, length_drop. nia.
    + intros i x Hix Hlt. rewrite list_lookup_fmap in Hix.
      rewrite lookup_seq_lt in Hix by lia. simpl in Hix. injection Hix as <-.
      rewrite length_take, length_drop. nia.
  - unfold raises, plan_batches, batch_count.
    destruct (Z.eqb_spec b 0) as [->|Hne]; simpl.
    + split; [done|]. intros _. by eexists.
    + split; [|done]. by intros [e He].
Qed.

(** Three records in batches of two: [[p1; p2]] and [[p3]]. *)
Lemma plan_batches_partition_witness :
  plan_batches 2 [p1; p2; p3] = Ok [[p1; p2]; [p3]] /\
  exists batches, plan_batches 2 [p1; p2; p3] = Ok batches /\
    concat batches = [p1; p2; p3] /\
    len [p1; p2; p3] <= len batches * 2 < len [p1; p2; p3] + 2 /\
    Forall (fun x => 0 < len x <= 2) batches /\
    (forall (i : nat) x,
       batches !! i = Some x -> (S i < length batches)%nat -> len x = 2).
Proof.
  split; [reflexivity|].
  apply (proj1 (plan_batches_partition 2 [p1; p2; p3])). lia.
Defined.

(** C4 (as stated, refuted): a negative batch size does not make the
    planner fail; over five records and [b = -2] it plans no batch. *)
Lemma plan_batches_negative_size :
  -2 <= 0 /\
  plan_batches (-2) [p0; p1; p2; p3; p0] = Ok [] /\
  (raises (plan_batches (-2) [p0; p1; p2; p3; p0]) -> False).
Proof.
  split; [lia|]. split; [reflexivity|]. intros [e He]. discriminate He.
Qed.

(** The same in [classify_papers]: with a negative batch size it sends
    nothing and hands the seed back. *)
Lemma classify_papers_negative_size :
  outcome (classify_papers decode_json flaky_client (-2) seed_heap
             [p0; p1; p2; p3; p0] (Some seed)) = Ok seed /\
  calls (classify_papers decode_json flaky_client (-2) seed_heap
           [p0; p1; p2; p3; p0] (Some seed)) = [].
Proof. split; reflexivity. Qed.

(** ** Response parser *)

Lemma int_in_range_spec (i n : Z) : int_in_range i n = true <-> 0 < i <= n.
Proof. unfold int_in_range. rewrite andb_true_iff, Z.ltb_lt, Z.leb_le. done. Qed.

Lemma paper_at_in_range (ps : list Paper) (i : Z) :
  0 < i <= len ps -> exists p, ps !! Z.to_nat (i - 1) = Some p /\ paper_at ps i = Ok p.
Proof.
  intros Hi. unfold paper_at.
  destruct (lookup_lt_is_Some_2 ps (Z.to_nat (i - 1))) as [p Hp].
  { unfold len in Hi. lia. }
  exists p. by rewrite Hp.
Qed.

(** Over a list of integer indices the comprehension never raises; its
    result lines up, in order, with the indices [i] such that
    [0 < i <= m], each giving the record at position [i - 1] of the
    batch, and the indices outside that range leave no trace. *)
Lemma select_papers_int_indices (ps : list Paper) (idxs : list Z) :
  exists out, select_papers ps (JInt <$> idxs) = Ok out /\
    Forall2 (fun i p => ps !! Z.to_nat (i - 1) = Some p)
            (filter (fun i => 0 < i <= len ps) idxs) out.
Proof.
  induction idxs as [|i idxs (out & Hout & Hall)]; simpl.
  - exists []. split; [done|]. constructor.
  - destruct (int_in_range i (len ps)) eqn:Hr.
    + apply int_in_range_spec in Hr.
      destruct (paper_at_in_range ps i Hr) as (p & Hp & ->).
      simpl. fold (@fmap list _ _ _ JInt idxs). rewrite Hout. simpl.
      exists (p :: out). split; [done|].
      rewrite filter_cons_True by done. by constructor.
    + assert (Hn : ~ (0 < i <= len ps)).
      { rewrite <- int_in_range_spec. congruence. }
      exists out. split; [done|]. by rewrite filter_cons_False.
Qed.

(** The same for a whole entry whose name and summary are strings. *)
Lemma parse_entry_int_indices (ps : list Paper) (kvs : list (string * json))
    (idxs : list Z) (n s : string) :
  dict_get kvs "paper_indices" (JList []) = JList (JInt <$> idxs) ->
  dict_get kvs "name" (JStr default_name) = JStr n ->
  dict_get kvs "summary" (JStr "") = JStr s ->
  exists out,
    parse_entry ps (JDict kvs) = Ok {| category := n; papers := out; summary := s |} /\
    Forall2 (fun i p => ps !! Z.to_nat (i - 1) = Some p)
            (filter (fun i => 0 < i <= len ps) idxs) out.
Proof.
  intros Hi Hn Hs. destruct (select_papers_int_indices ps idxs) as (out & Hout & Hall).
  exists out. split; [|done].
  unfold parse_entry. simpl. rewrite Hi, Hn, Hs. simpl.
  fold (@fmap list _ _ _ JInt idxs). by rewrite Hout.
Qed.

(** *** The regular expression *)
Lemma after_first_open_spec (s body : string) :
  after_first_open s = Some body <->
  exists pre, s = pre +:+ String "{" body /\ lacks "{" pre.
Proof.
  split.
  - revert body. induction s as [|c s IH]; intros body H; simpl in H; [done|].
    destruct (Ascii.eqb_spec c "{") as [->|Hc].
    + injection H as <-. exists EmptyString. split; [done|]. intros [].
    + destruct (IH _ H) as (pre & -> & Hpre).
      exists (String c pre). split; [done|].
      intros [Heq|Hin]; [congruence|by apply Hpre].
  - intros (pre & -> & Hpre). induction pre as [|c pre IH]; simpl.
    + done.
    + destruct (Ascii.eqb_spec c "{") as [->|Hc].
      * exfalso. apply Hpre. by left.
      * apply IH. intros Hin. apply Hpre. by right.
Qed.

Lemma upto_last_close_none (s : string) :
  upto_last_close s = None <-> lacks "}" s.
Proof.
  induction s as [|c s IH]; simpl.
  - split; [intros _ []|done].
  - destruct (upto_last_close s) as [t|].
    + split; [done|]. intros H. exfalso.
      assert (Hs : lacks "}" s) by (intros Hin; apply H; by right).
      apply IH in Hs. done.
    + destruct (Ascii.eqb_spec c "}") as [->|Hc].
      * split; [done|]. intros H. exfalso. apply H. by left.
      * split; [|done]. intros _ [Heq|Hin]; [congruence|].
        by apply (proj1 IH).
Qed.

Lemma upto_last_close_spec (s inner : string) :
  upto_last_close s = Some inner <->
  exists mid post, s = mid +:+ String "}" post /\ lacks "}" post /\
    inner = mid +:+ String "}" EmptyString.
Proof.
  split.
  - revert inner. induction s as [|c s IH]; intros inner H; simpl in H; [done|].
    destruct (upto_last_close s) as [t|] eqn:Ht.
    + injection H as <-. destruct (IH _ eq_refl) as (mid & post & -> & Hpost & ->).
      by exists (String c mid), post.
    + destruct (Ascii.eqb_spec c "}") as [->|Hc]; [|done].
      injection H as <-. exists EmptyString, s.
      split; [done|]. split; [|done]. by apply upto_last_close_none.
  - intros (mid & post & -> & Hpost & ->).
    apply upto_last_close_none in Hpost.
    induction mid as [|c mid IH]; simpl.
    + by rewrite Hpost.
    + by rewrite IH.
Qed.


(** The parser proper raises no [ValueError]. *)
Lemma select_papers_raise (ps : list Paper) (idxs : list json) (e : exn) :
  select_papers ps idxs = Raise e -> e = TypeError.
Proof.
  induction idxs as [|idx idxs IH]; simpl; [done|].
  assert (Hint : forall i,
    (if int_in_range i (len ps)
     then p ← paper_at ps i; tl ← select_papers ps idxs; mret (p :: tl)
     else select_papers ps idxs) = Raise e -> e = TypeError).
  { intros i. destruct (int_in_range i (len ps)) eqn:Hr; [|done].
    apply int_in_range_spec in Hr.
    destruct (paper_at_in_range ps i Hr) as (p & _ & ->). simpl.
    destruct (select_papers ps idxs); simpl; [done| |done].
    intros [= ->]. by apply IH. }
  destruct idx as [|b|i|f|s|l|kvs]; try (by intros [= <-]).
  - apply Hint.
  - apply Hint.
  - destruct (float_in_range f (len ps)); [by intros [= <-]|done].
Qed.

Lemma parse_entry_raise (ps : list Paper) (cat : json) (e : exn) :
  parse_entry ps cat = Raise e -> e = TypeError \/ e = AttributeError.
Proof.
  unfold parse_entry. destruct cat; simpl; try (intros [= <-]; by right).
  destruct (py_iter _) as [idxs|e'|] eqn:Hit; simpl; [| |done].
  - destruct (select_papers ps idxs) as [cp|e'|] eqn:Hsel; simpl.
    + unfold make_result. by repeat case_match.
    + intros [= ->]. left. by eapply select_papers_raise.
    + done.
  - intros [= ->]. left. unfold py_iter in Hit. by repeat case_match; simplify_eq.
Qed.

Lemma parse_entries_raise (ps : list Paper) (cats : list json) (e : exn) :
  parse_entries ps cats = Raise e -> e = TypeError \/ e = AttributeError.
Proof.
  induction cats as [|cat cats IH]; simpl; [done|].
  destruct (parse_entry ps cat) eqn:Hc; simpl; [| |done].
  - destruct (parse_entries ps cats); simpl; [done| |done].
    intros [= ->]. by apply IH.
  - intros [= ->]. by eapply parse_entry_raise.
Qed.

Lemma parse_payload_raise (ps : list Paper) (d : json) (e : exn) :
  parse_payload ps d = Raise e -> e = TypeError \/ e = AttributeError.
Proof.
  unfold parse_payload. destruct d; simpl; try (intros [= <-]; by right).
  destruct (py_iter _) as [cats|e'|] eqn:Hit; simpl; [| |done].
  - apply parse_entries_raise.
  - intros [= ->]. left. unfold py_iter in Hit. by repeat case_match; simplify_eq.
Qed.

Lemma json_match_spec (text g : string) :
  json_match text = Some g <->
  exists pre mid post,
    text = pre +:+ String "{" (mid +:+ String "}" post) /\
    lacks "{" pre /\ lacks "}" post /\
    g = String "{" (mid +:+ String "}" EmptyString).
Proof.
  unfold json_match. split.
  - destruct (after_first_open text) as [body|] eqn:Hb; simpl; [|done].
    destruct (upto_last_close body) as [inner|] eqn:Hi; simpl; [|done].
    intros [= <-].
    apply after_first_open_spec in Hb as (pre & -> & Hpre).
    apply upto_last_close_spec in Hi as (mid & post & -> & Hpost & ->).
    by exists pre, mid, post.
  - intros (pre & mid & post & -> & Hpre & Hpost & ->).
    rewrite (proj2 (after_first_open_spec _ (mid +:+ String "}" post))) by eauto.
    simpl.
    rewrite (proj2 (upto_last_close_spec _ (mid +:+ String "}" EmptyString))) by eauto.
    done.
Qed.

(** C3 (amended): the parser takes the text from its first left brace
    to its last right brace, with no brace matching, and decodes exactly
    that; it raises [ValueError] if and only if the text has no left
    brace with a right brace after it or the decoder rejects that
    substring; otherwise it goes on with the decoded payload. *)
Theorem parse_classification_result_value_error
    (json_loads : string -> option json) (text : string) (ps : list Paper) :
  (_parse_classification_result json_loads text ps = Raise ValueError <->
     json_match text = None \/
     exists g, json_match text = Some g /\ json_loads g = None) /\
  (forall g, json_match text = Some g <->
     exists pre mid post,
       text = pre +:+ String "{" (mid +:+ String "}" post) /\
       lacks "{" pre /\ lacks "}" post /\
       g = String "{" (mid +:+ String "}" EmptyString)) /\
  (forall g d, json_match text = Some g -> json_loads g = Some d ->
     _parse_classification_result json_loads text ps = parse_payload ps d).
Proof.
  unfold _parse_classification_result. split; [|split].
  - destruct (json_match text) as [g|]; [|by split; [left|]].
    destruct (json_loads g) as [d|] eqn:Hd.
    + split.
      * intros H. apply parse_payload_raise in H as [H|H]; discriminate H.
      * intros [H|(g' & [= <-] & H)]; congruence.
    + split; [|done]. intros _. right. by exists g.
  - apply json_match_spec.
  - by intros g d -> ->.
Qed.

(** C3 (as stated, refuted): the text has a balanced object that is
    valid JSON, [{"categories": []}], and the parser still raises
    [ValueError], because it hands the decoder the text up to the last
    right brace. *)
Lemma parse_rejects_balanced_object :
  first_balanced_object reply_with_note = Some (dq "{'categories': []}") /\
  decode_json (dq "{'categories': []}") = Some (JDict [("categories", JList [])]) /\
  json_match reply_with_note = Some (dq "{'categories': []} (keys are in {braces}") /\
  _parse_classification_result decode_json reply_with_note [p1] = Raise ValueError.
Proof. repeat split; vm_compute; reflexivity. Qed.

(** *** Defaults of an entry *)

Lemma dict_get_absent (kvs : list (string * json)) (key : string) (d : json) :
  key ∉ keys kvs -> dict_get kvs key d = d.
Proof.
  unfold keys. induction kvs as [|[k v] kvs IH]; simpl; [done|].
  intros Hk. apply not_elem_of_cons in Hk as [Hne Hk].
  destruct (String.eqb_spec k key); [congruence|]. by apply IH.
Qed.

Lemma parse_entry_dict (ps : list Paper) (kvs : list (string * json)) :
  parse_entry ps (JDict kvs) =
    idxs ← py_iter (dict_get kvs "paper_indices" (JList []));
    category_papers ← select_papers ps idxs;
    make_result (dict_get kvs "name" (JStr default_name)) category_papers
                (dict_get kvs "summary" (JStr "")).
Proof. reflexivity. Qed.

Lemma make_result_ok (n s : json) (cp : list Paper) (r : ClassificationResult) :
  make_result n cp s = Ok r ->
  n = JStr (category r) /\ s = JStr (summary r) /\ papers r = cp.
Proof. unfold make_result. repeat case_match; try done. by intros [= <-]. Qed.

Lemma parse_entries_ok (ps : list Paper) (cats : list json) (rs : list ClassificationResult) :
  parse_entries ps cats = Ok rs <->
  Forall2 (fun cat r => parse_entry ps cat = Ok r) cats rs.
Proof.
  revert rs. induction cats as [|cat cats IH]; intros rs; simpl.
  - split; [intros [= <-]; constructor|]. by intros ->%Forall2_nil_inv_l.
  - split.
    + destruct (parse_entry ps cat) as [r| |] eqn:Hr; simpl; [|done..].
      destruct (parse_entries ps cats) as [rs'| |]; simpl; [|done..].
      intros [= <-]. constructor; [done|]. by apply IH.
    + intros (r & rs' & Hr & Hrs & ->)%Forall2_cons_inv_l.
      apply IH in Hrs. by rewrite Hr, Hrs.
Qed.

Lemma dict_get_present (kvs : list (string * json)) (key : string) (d d' : json) :
  key ∈ keys kvs -> dict_get kvs key d = dict_get kvs key d'.
Proof.
  unfold keys. induction kvs as [|[k v] kvs IH]; simpl.
  - by intros ?%elem_of_nil.
  - destruct (String.eqb_spec k key) as [|Hne]; [done|].
    intros [?|?]%elem_of_cons; [congruence|by apply IH].
Qed.

Lemma dict_get_found (kvs : list (string * json)) (key : string) (v d : json) :
  dict_get kvs key JNull = v -> v <> JNull -> dict_get kvs key d = v.
Proof.
  induction kvs as [|[k x] kvs IH]; simpl; [congruence|].
  by destruct (String.eqb k key).
Qed.

Lemma parse_entry_ok (ps : list Paper) (cat : json) (r : ClassificationResult) :
  parse_entry ps cat = Ok r <->
  exists kvs idxs,
    cat = JDict kvs /\
    dict_get kvs "name" (JStr default_name) = JStr (category r) /\
    dict_get kvs "summary" (JStr "") = JStr (summary r) /\
    py_iter (dict_get kvs "paper_indices" (JList [])) = Ok idxs /\
    select_papers ps idxs = Ok (papers r).
Proof.
  split.
  - destruct cat as [| | | | | |kvs]; try done. rewrite parse_entry_dict.
    destruct (py_iter _) as [idxs| |] eqn:Hit; simpl; [|done..].
    destruct (select_papers ps idxs) as [cp| |] eqn:Hsel; simpl; [|done..].
    intros (Hn & Hs & Hp)%make_result_ok. exists kvs, idxs. by subst cp.
  - intros (kvs & idxs & -> & Hn & Hs & Hit & Hsel).
    rewrite parse_entry_dict, Hit. simpl. rewrite Hsel. simpl. rewrite Hn, Hs.
    by destruct r.
Qed.

Lemma parse_payload_ok (ps : list Paper) (result_data : json) (rs : list ClassificationResult) :
  parse_payload ps result_data = Ok rs <->
  exists top cats,
    result_data = JDict top /\
    py_iter (dict_get top "categories" (JList [])) = Ok cats /\
    Forall2 (fun cat r => parse_entry ps cat = Ok r) cats rs.
Proof.
  unfold parse_payload. split.
  - destruct result_data as [| | | | | |top]; try done. simpl.
    destruct (py_iter _) as [cats| |] eqn:Hit; simpl; [|done..].
    intros H%parse_entries_ok. by exists top, cats.
  - intros (top & cats & -> & Hit & H). simpl. rewrite Hit. simpl.
    by apply parse_entries_ok.
Qed.

(** C9 (amended): an entry without [name] gets the placeholder name,
    without [paper_indices] gets no records, without [summary] gets the
    empty summary; a name that is present is kept as it is, wherever it
    stands in the entry, the empty string included; every entry that is
    parsed is a dict whose name and summary are the values under these
    keys, or the defaults, and whose records are those its indices
    select; and the parser returns one result per entry of the array
    under [categories], in its order. *)
Theorem parse_entry_defaults (ps : list Paper) :
  (forall kvs r, parse_entry ps (JDict kvs) = Ok r ->
     ("name" ∉ keys kvs -> category r = default_name) /\
     ("paper_indices" ∉ keys kvs -> papers r = []) /\
     ("summary" ∉ keys kvs -> summary r = EmptyString)) /\
  (forall kvs,
     "name" ∉ keys kvs -> "paper_indices" ∉ keys kvs -> "summary" ∉ keys kvs ->
     parse_entry ps (JDict kvs) = Ok (cat_of default_name [] EmptyString)) /\
  (forall kvs s,
     dict_get kvs "name" JNull = JStr s ->
     (forall r, parse_entry ps (JDict kvs) = Ok r -> category r = s) /\
     ("paper_indices" ∉ keys kvs -> "summary" ∉ keys kvs ->
      parse_entry ps (JDict kvs) = Ok (cat_of s [] EmptyString))) /\
  (forall cat r,
     parse_entry ps cat = Ok r <->
     exists kvs idxs,
       cat = JDict kvs /\
       dict_get kvs "name" (JStr default_name) = JStr (category r) /\
       dict_get kvs "summary" (JStr "") = JStr (summary r) /\
       py_iter (dict_get kvs "paper_indices" (JList [])) = Ok idxs /\
       select_papers ps idxs = Ok (papers r)) /\
  (forall cats rs,
     parse_entries ps cats = Ok rs <->
     Forall2 (fun cat r => parse_entry ps cat = Ok r) cats rs) /\
  (forall json_loads response_text rs,
     _parse_classification_result json_loads response_text ps = Ok rs <->
     exists group top cats,
       json_match response_text = Some group /\
       json_loads group = Some (JDict top) /\
       py_iter (dict_get top "categories" (JList [])) = Ok cats /\
       Forall2 (fun cat r => parse_entry ps cat = Ok r) cats rs).
Proof.
  split; [|split; [|split; [|split; [|split]]]].
  - intros kvs r. rewrite parse_entry_dict.
    destruct (py_iter _) as [idxs| |] eqn:Hit; simpl; [|done..].
    destruct (select_papers ps idxs) as [cp| |] eqn:Hsel; simpl; [|done..].
    intros (Hn & Hs & Hp)%make_result_ok. split; [|split].
    + intros Habs. rewrite dict_get_absent in Hn by done. congruence.
    + intros Habs. rewrite dict_get_absent in Hit by done.
      injection Hit as <-. simpl in Hsel. congruence.
    + intros Habs. rewrite dict_get_absent in Hs by done. congruence.
  - intros kvs Hn Hi Hs. rewrite parse_entry_dict.
    by rewrite !dict_get_absent.
  - intros kvs s Hname.
    assert (Hn : dict_get kvs "name" (JStr default_name) = JStr s).
    { by apply dict_get_found. }
    split.
    + intros r (kvs' & idxs & [= <-] & Hr & _)%parse_entry_ok. congruence.
    + intros Hi Hs. rewrite parse_entry_dict, Hn.
      by rewrite !dict_get_absent.
  - apply parse_entry_ok.
  - apply parse_entries_ok.
  - intros json_loads response_text rs. unfold _parse_classification_result. split.
    + destruct (json_match response_text) as [group|]; [|done].
      destruct (json_loads group) as [result_data|] eqn:Hd; [|done].
      intros (top & cats & -> & Hit & H)%parse_payload_ok.
      exists group, top, cats. by repeat split.
    + intros (group & top & cats & -> & -> & Hit & H).
      apply parse_payload_ok. by exists top, cats.
Qed.

Lemma parse_entry_defaults_witness :
  parse_entry [p1] (JDict [("is_existing", JBool false)])
    = Ok (cat_of default_name [] EmptyString).
Proof.
  apply (proj1 (proj2 (parse_entry_defaults [p1]))); unfold keys; simpl;
    rewrite list_elem_of_singleton; discriminate.
Defined.

(** C9 (as stated, refuted): an entry whose name is the empty string
    keeps the empty name; the placeholder is not put in. *)
Lemma parse_entry_empty_name :
  _parse_classification_result decode_json
      (dq "{'categories': [{'name': '', 'paper_indices': [1], 'summary': 's'}]}") [p1]
    = Ok [cat_of EmptyString [p1] "s"] /\
  EmptyString <> default_name.
Proof. split; [vm_compute; reflexivity|discriminate]. Qed.

(** Values that are not integers: a string cannot be compared with 0, an
    in-range float cannot index a list, an out-of-range float is dropped
    like an integer, and [True] counts as 1. *)
Lemma select_papers_other_values :
  select_papers [p1] [JStr "1"] = Raise TypeError /\
  select_papers [p1] [JFloat (FFin 1 1)] = Raise TypeError /\
  select_papers [p1] [JFloat (FFin 5 2); JInt 1] = Ok [p1] /\
  select_papers [p1] [JBool true; JBool false] = Ok [p1].
Proof. repeat split. Qed.

(** *** An index that is not an integer *)

(** C5 (the code at the failing input): the reply names record 1 and,
    as a string, record 2.  The comparison of the string with 0 raises
    [TypeError]: the entry is not parsed, record 1 beside it is lost,
    and the run over the two records stops at its first batch and
    returns nothing.  A number written with a fraction does the same
    when it is in range (it passes the filter and cannot index the
    list), while a whole number out of range is dropped and the run
    goes on. *)
Theorem string_index_aborts_run :
  select_papers [p1; p2] [JInt 1; JStr "2"] = Raise TypeError /\
  select_papers [p1; p2] [JInt 1; JFloat (FFin 1 1)] = Raise TypeError /\
  select_papers [p1; p2] [JInt 1; JInt 7] = Ok [p1] /\
  _parse_classification_result decode_json reply_string_index [p1; p2] = Raise TypeError /\
  outcome string_index_run = Raise TypeError /\
  printed_failure string_index_run = Some 1%nat /\
  merged_batches string_index_run = [].
Proof. repeat split; vm_compute; reflexivity. Qed.

(** *** The [is_existing] flag *)

Lemma dict_get_same_item_other (key k : string) R (kvs1 kvs2 : list (string * json)) d :
  Forall2 (same_item_but key R) kvs1 kvs2 -> k <> key ->
  dict_get kvs1 k d = dict_get kvs2 k d.
Proof.
  intros H Hk. induction H as [|[k1 v1] [k2 v2] kvs1 kvs2 [Hkeys Hv] _ IH]; [done|].
  simpl in *. subst k2. destruct (String.eqb_spec k1 k) as [->|_]; [|done].
  destruct (String.eqb_spec k key); [done|]. done.
Qed.

Lemma dict_get_same_item_key (key : string) (R : json -> json -> Prop)
    (kvs1 kvs2 : list (string * json)) d :
  Forall2 (same_item_but key R) kvs1 kvs2 -> R d d ->
  R (dict_get kvs1 key d) (dict_get kvs2 key d).
Proof.
  intros H Hd. induction H as [|[k1 v1] [k2 v2] kvs1 kvs2 [Hkeys Hv] _ IH]; [done|].
  simpl in *. subst k2. by destruct (String.eqb_spec k1 key).
Qed.

Lemma parse_entry_flag (ps : list Paper) (e1 e2 : json) :
  entries_differ_in_flag e1 e2 -> parse_entry ps e1 = parse_entry ps e2.
Proof.
  destruct e1 as [| | | | | |kvs1], e2 as [| | | | | |kvs2];
    simpl; try congruence; try done.
  intros H. rewrite !parse_entry_dict.
  by rewrite (dict_get_same_item_other _ "paper_indices" _ _ _ _ H),
             (dict_get_same_item_other _ "name" _ _ _ _ H),
             (dict_get_same_item_other _ "summary" _ _ _ _ H).
Qed.

Lemma parse_entries_flag (ps : list Paper) (l1 l2 : list json) :
  Forall2 entries_differ_in_flag l1 l2 -> parse_entries ps l1 = parse_entries ps l2.
Proof.
  induction 1 as [|e1 e2 l1 l2 He _ IH]; [done|].
  simpl. by rewrite (parse_entry_flag ps e1 e2), IH.
Qed.

Lemma parse_payload_flag (ps : list Paper) (d1 d2 : json) :
  payloads_differ_in_flag d1 d2 -> parse_payload ps d1 = parse_payload ps d2.
Proof.
  destruct d1 as [| | | | | |kvs1], d2 as [| | | | | |kvs2];
    simpl; try congruence; try done.
  intros H. unfold parse_payload. simpl.
  pose proof (dict_get_same_item_key "categories" categories_differ_in_flag
                kvs1 kvs2 (JList []) H ltac:(constructor)) as Hc.
  destruct (dict_get kvs1 "categories" (JList [])) as [| | | | |l1|],
           (dict_get kvs2 "categories" (JList [])) as [| | | | |l2|];
    simpl in Hc; try congruence; try done.
  simpl. by apply parse_entries_flag.
Qed.

(** C8: two replies whose decoded payloads are the same but for the
    values under [is_existing] parse to the same results, so merging
    them into the same state gives the same store and the same list. *)
Theorem is_existing_ignored (json_loads : string -> option json)
    (t1 t2 : string) (d1 d2 : json) (ps : list Paper) (h : heap) (st : list loc) :
  json_match t1 ≫= json_loads = Some d1 ->
  json_match t2 ≫= json_loads = Some d2 ->
  payloads_differ_in_flag d1 d2 ->
  (vs ← _parse_classification_result json_loads t1 ps; mret (merge_batch h st vs))
  = (vs ← _parse_classification_result json_loads t2 ps; mret (merge_batch h st vs)).
Proof.
  intros H1 H2 Hd. unfold _parse_classification_result.
  destruct (json_match t1) as [g1|]; [|done]. simpl in H1. rewrite H1.
  destruct (json_match t2) as [g2|]; [|done]. simpl in H2. rewrite H2.
  by rewrite (parse_payload_flag ps d1 d2).
Qed.

Lemma is_existing_ignored_witness :
  (vs ← _parse_classification_result decode_json reply_existing_A [p1];
   mret (merge_batch seed_heap seed vs))
  = (vs ← _parse_classification_result decode_json reply_new_A [p1];
     mret (merge_batch seed_heap seed vs)).
Proof.
  eapply (is_existing_ignored decode_json reply_existing_A reply_new_A).
  - vm_compute. reflexivity.
  - vm_compute. reflexivity.
  - simpl. repeat (constructor; simpl; try done).
Defined.

(** ** Store and views *)

Lemma view_nil (h : heap) : view h [] = [].
Proof. done. Qed.

Lemma view_unfold (h : heap) (x : loc) (l : list loc) :
  view h (x :: l) = match h !! x with Some c => c :: view h l | None => view h l end.
Proof. reflexivity. Qed.

Lemma view_cons (h : heap) (x : loc) (l : list loc) (c : ClassificationResult) :
  h !! x = Some c -> view h (x :: l) = c :: view h l.
Proof. intros H. by rewrite view_unfold, H. Qed.

Lemma view_app (h : heap) (l1 l2 : list loc) :
  view h (l1 ++ l2) = view h l1 ++ view h l2.
Proof. apply omap_app. Qed.

Lemma view_ext (h h' : heap) (l : list loc) :
  (forall x, x ∈ l -> h' !! x = h !! x) -> view h' l = view h l.
Proof.
  induction l as [|x l IH]; intros H; [done|].
  rewrite !view_unfold, H by left. rewrite IH; [done|]. intros y Hy. apply H. by right.
Qed.

Lemma valid_cons (h : heap) (x : loc) (l : list loc) :
  valid h (x :: l) <-> (x < length h)%nat /\ valid h l.
Proof.
  unfold valid. split; [by intros H; inversion H|]. intros [? ?]. by constructor.
Qed.

Lemma valid_app (h : heap) (l1 l2 : list loc) :
  valid h (l1 ++ l2) <-> valid h l1 /\ valid h l2.
Proof. unfold valid. apply Forall_app. Qed.

Lemma valid_same_length (h h' : heap) (l : list loc) :
  length h' = length h -> valid h l -> valid h' l.
Proof. unfold valid. intros ->. done. Qed.

Lemma view_alloc (h : heap) (vs : list ClassificationResult) :
  view (h ++ vs) (seq (length h) (length vs)) = vs.
Proof.
  revert h. induction vs as [|v vs IH]; intros h; [done|].
  change (seq (length h) (length (v :: vs)))
    with (length h :: seq (S (length h)) (length vs)).
  rewrite (view_cons _ _ _ v).
  - f_equal. specialize (IH (h ++ [v])).
    rewrite <- app_assoc, length_app in IH. simpl in IH.
    by rewrite Nat.add_1_r in IH.
  - by rewrite lookup_app_r, Nat.sub_diag.
Qed.

Lemma view_weaken (h : heap) (vs : list ClassificationResult) (l : list loc) :
  valid h l -> view (h ++ vs) l = view h l.
Proof.
  intros Hv. apply view_ext. intros x Hx.
  apply lookup_app_l. unfold valid in Hv. rewrite Forall_forall in Hv.
  by apply Hv, list_elem_of_In.
Qed.

(** ** The inner loop *)

Lemma grows_refl c : grows c c.
Proof. by repeat split. Qed.

Lemma grows_trans c1 c2 c3 : grows c1 c2 -> grows c2 c3 -> grows c1 c3.
Proof.
  intros (?&?&?) (?&?&?). repeat split; try congruence. by etrans.
Qed.

Lemma grows_extend more c : grows c (extend_papers more c).
Proof. repeat split. simpl. by apply prefix_app_r. Qed.

(** What a successful scan did: it extended the first result of the
    list whose name is that of the batch result. *)
Lemma scan_merged_some (h h' : heap) (b : loc) (merged : list loc) :
  scan_merged h b merged = Some h' ->
  exists pre x post c bv,
    merged = pre ++ x :: post /\ h !! x = Some c /\ h !! b = Some bv /\
    category c = category bv /\ (category bv ∉ names h pre) /\
    h' = alter (extend_papers (papers bv)) x h.
Proof.
  induction merged as [|y merged IH]; simpl; [done|].
  destruct (h !! y) as [cy|] eqn:Hy; [destruct (h !! b) as [bv|] eqn:Hb|].
  - destruct (String.eqb_spec (category cy) (category bv)) as [Heq|Hne].
    + intros [= <-]. exists [], y, merged, cy, bv. repeat split; try done.
      unfold names. simpl. apply not_elem_of_nil.
    + intros H. destruct (IH H) as (pre & x & post & c & bv' & -> & Hx & Hb' & Hc & Hpre & ->).
      exists (y :: pre), x, post, c, bv'. repeat split; try done.
      unfold names in *. rewrite (view_cons _ _ _ cy) by done.
      rewrite fmap_cons. apply not_elem_of_cons. split; [|done]. congruence.
  - intros H. destruct (IH H) as (pre & x & post & c & bv' & -> & Hx & Hb' & Hc & Hpre & ->).
    congruence.
  - intros H. destruct (IH H) as (pre & x & post & c & bv' & -> & Hx & Hb' & Hc & Hpre & ->).
    exists (y :: pre), x, post, c, bv'. repeat split; try done.
    unfold names in *. by rewrite view_unfold, Hy.
Qed.

Lemma scan_merged_none (h : heap) (b : loc) (merged : list loc) (bv : ClassificationResult) :
  scan_merged h b merged = None -> h !! b = Some bv ->
  category bv ∉ names h merged.
Proof.
  intros H Hb. induction merged as [|y merged IH]; simpl in *.
  - apply not_elem_of_nil.
  - rewrite Hb in H. unfold names in *. rewrite view_unfold.
    destruct (h !! y) as [cy|] eqn:Hy.
    + destruct (String.eqb_spec (category cy) (category bv)) as [Heq|Hne]; [done|].
      rewrite fmap_cons. apply not_elem_of_cons. split; [congruence|]. by apply IH.
    + by apply IH.
Qed.

Lemma alter_extend_grows (h : heap) (y x : loc) (more : list Paper) (c : ClassificationResult) :
  h !! x = Some c ->
  exists c', alter (extend_papers more) y h !! x = Some c' /\ grows c c'.
Proof.
  intros Hx. destruct (decide (y = x)) as [->|Hne].
  - rewrite list_lookup_alter_eq, Hx. simpl. eexists. split; [done|]. apply grows_extend.
  - rewrite list_lookup_alter_ne, Hx by done. eexists. split; [done|]. apply grows_refl.
Qed.

(** ** The outer loop *)

Lemma merge_loop_cons (h : heap) (merged : list loc) (b : loc) (rest : list loc) :
  merge_loop h merged (b :: rest) =
    match scan_merged h b merged with
    | Some h' => merge_loop h' merged rest
    | None => merge_loop h (merged ++ [b]) rest
    end.
Proof. reflexivity. Qed.

(** The merge writes nothing but [papers], and only by appending; it
    keeps the accumulated list as a prefix and adds only batch results. *)
Lemma merge_loop_frame (h h' : heap) (st st' bt : list loc) :
  merge_loop h st bt = (h', st') ->
  length h' = length h /\
  (forall x c, h !! x = Some c -> exists c', h' !! x = Some c' /\ grows c c') /\
  st `prefix_of` st' /\
  (forall x, x ∈ st' -> x ∈ st \/ x ∈ bt).
Proof.
  revert h st. induction bt as [|b bt IH]; intros h st.
  - intros [= <- <-]. repeat split; try done.
    + intros x c Hx. exists c. split; [done|apply grows_refl].
    + by left.
  - rewrite merge_loop_cons. destruct (scan_merged h b st) as [h1|] eqn:Hscan.
    + intros H. apply IH in H as (Hlen & Hfr & Hpre & Hin).
      apply scan_merged_some in Hscan
        as (pre & x & post & c & bv & -> & Hx & Hb & Hc & Hnone & ->).
      rewrite length_alter in Hlen. repeat split; try done.
      * intros y cy Hy.
        destruct (alter_extend_grows h x y (papers bv) cy Hy) as (c1 & Hc1 & Hg1).
        destruct (Hfr _ _ Hc1) as (c2 & Hc2 & Hg2).
        exists c2. split; [done|]. by eapply grows_trans.
      * intros y Hy. destruct (Hin y Hy); [by left|right; by right].
    + intros H. apply IH in H as (Hlen & Hfr & Hpre & Hin).
      repeat split; try done.
      * etrans; [|done]. by apply prefix_app_r.
      * intros y Hy. destruct (Hin y Hy) as [Hy'|Hy']; [|right; by right].
        apply elem_of_app in Hy' as [Hy'|Hy']; [by left|].
        apply list_elem_of_singleton in Hy' as ->. right. by left.
Qed.

Lemma names_grows (h h' : heap) (l : list loc) :
  valid h l ->
  (forall x c, h !! x = Some c -> exists c', h' !! x = Some c' /\ grows c c') ->
  names h' l = names h l.
Proof.
  intros Hv Hfr. unfold names. induction l as [|x l IH]; [done|].
  apply valid_cons in Hv as [Hx Hv].
  destruct (lookup_lt_is_Some_2 h x Hx) as [c Hc].
  destruct (Hfr _ _ Hc) as (c' & Hc' & Hg & _).
  rewrite (view_cons h _ _ c), (view_cons h' _ _ c') by done.
  rewrite !fmap_cons, IH by done. by f_equal.
Qed.

Lemma names_snoc (h : heap) (l : list loc) (b : loc) (bv : ClassificationResult) :
  h !! b = Some bv -> names h (l ++ [b]) = names h l ++ [category bv].
Proof.
  intros Hb. unfold names. rewrite view_app, (view_cons _ _ _ bv), fmap_app by done. done.
Qed.

(** Pairwise distinct names stay pairwise distinct. *)
Lemma merge_loop_names (h h' : heap) (st st' bt : list loc) :
  valid h st -> valid h bt -> NoDup (names h st) ->
  merge_loop h st bt = (h', st') ->
  valid h' st' /\ NoDup (names h' st').
Proof.
  revert h st. induction bt as [|b bt IH]; intros h st Hst Hbt Hnd.
  - by intros [= <- <-].
  - apply valid_cons in Hbt as [Hb Hbt].
    destruct (lookup_lt_is_Some_2 h b Hb) as [bv Hbv].
    rewrite merge_loop_cons. destruct (scan_merged h b st) as [h1|] eqn:Hscan.
    + pose proof (merge_loop_frame h h1 st st [b]) as Hstep.
      rewrite merge_loop_cons, Hscan in Hstep.
      destruct (Hstep eq_refl) as (Hlen & Hfr & _ & _).
      apply IH.
      * by eapply valid_same_length.
      * by eapply valid_same_length.
      * by rewrite (names_grows h h1).
    + apply IH.
      * apply valid_app. split; [done|]. apply valid_cons. split; [done|constructor].
      * done.
      * rewrite (names_snoc _ _ _ bv) by done.
        apply list.NoDup_app. split; [done|]. split; [|apply NoDup_singleton].
        intros n Hn ->%list_elem_of_singleton.
        by eapply scan_merged_none.
Qed.

(** Every record of a batch result ends up in the category of its name. *)
Lemma merge_loop_assigned (h h' : heap) (st st' bt : list loc) :
  merge_loop h st bt = (h', st') ->
  forall b c p, b ∈ bt -> h !! b = Some c -> p ∈ papers c ->
  exists x c', x ∈ st' /\ h' !! x = Some c' /\ category c' = category c /\ p ∈ papers c'.
Proof.
  revert h st. induction bt as [|b0 bt IH]; intros h st Hm b c p Hb Hc Hp.
  - by apply elem_of_nil in Hb.
  - rewrite merge_loop_cons in Hm.
    destruct (scan_merged h b0 st) as [h1|] eqn:Hscan.
    + destruct (merge_loop_frame _ _ _ _ _ Hm) as (_ & Hfr & Hpre & _).
      apply scan_merged_some in Hscan
        as (pre & x0 & post & cx & bv & -> & Hx0 & Hb0 & Hcat & _ & ->).
      apply elem_of_cons in Hb as [->|Hb].
      * assert (bv = c) as -> by congruence.
        destruct (Hfr x0 (extend_papers (papers c) cx)) as (c' & Hc' & Hg1 & _ & Hg3).
        { by rewrite list_lookup_alter_eq, Hx0. }
        exists x0, c'. split; [|split; [done|split]].
        -- eapply elem_of_prefix; [|done]. apply elem_of_app. right. by left.
        -- simpl in Hg1. congruence.
        -- eapply elem_of_prefix; [|done]. simpl. apply elem_of_app. by right.
      * destruct (alter_extend_grows h x0 b (papers bv) c Hc) as (c1 & Hc1 & Hg1 & _ & Hg3).
        destruct (IH _ _ Hm b c1 p Hb Hc1) as (x & c' & ? & ? & ? & ?).
        { by eapply elem_of_prefix. }
        exists x, c'. repeat split; try done. congruence.
    + apply elem_of_cons in Hb as [->|Hb]; [|by eapply IH].
      destruct (merge_loop_frame _ _ _ _ _ Hm) as (_ & Hfr & Hpre & _).
      destruct (Hfr _ _ Hc) as (c' & Hc' & Hg1 & _ & Hg3).
      exists b0, c'. split; [|split; [done|split; [done|]]].
      * eapply elem_of_prefix; [|done]. apply elem_of_app. right. by left.
      * by eapply elem_of_prefix.
Qed.

(** ** The merge against its specification *)

Lemma merge_tuple_spec_fresh (l : list ClassificationResult) n r s :
  n ∉ category <$> l ->
  merge_tuple_spec l n r s = l ++ [ {| category := n; papers := r; summary := s |} ].
Proof.
  induction l as [|c l IH]; simpl; [done|].
  intros [Hne Hl]%not_elem_of_cons.
  destruct (String.eqb_spec (category c) n); [congruence|]. by rewrite IH.
Qed.

Lemma merge_tuple_spec_first (l1 l2 : list ClassificationResult) c n r s :
  n ∉ category <$> l1 -> category c = n ->
  merge_tuple_spec (l1 ++ c :: l2) n r s = l1 ++ extend_papers r c :: l2.
Proof.
  intros Hl1 Hc. induction l1 as [|c1 l1 IH]; simpl.
  - destruct (String.eqb_spec (category c) n); [done|congruence].
  - apply not_elem_of_cons in Hl1 as [Hne Hl1].
    destruct (String.eqb_spec (category c1) n); [congruence|]. by rewrite IH.
Qed.

Lemma merge_spec_cons (st : list ClassificationResult) (c : ClassificationResult) ts :
  merge_spec st (tuple_of c :: ts)
  = merge_spec (merge_tuple_spec st (category c) (papers c) (summary c)) ts.
Proof. reflexivity. Qed.

Lemma merge_loop_refines (h h' : heap) (st st' bt : list loc) :
  valid h st -> valid h bt -> NoDup (st ++ bt) ->
  merge_loop h st bt = (h', st') ->
  view h' st' = merge_spec (view h st) (tuple_of <$> view h bt).
Proof.
  revert h st. induction bt as [|b bt IH]; intros h st Hst Hbt Hnd.
  - by intros [= <- <-].
  - apply valid_cons in Hbt as [Hb Hbt].
    destruct (lookup_lt_is_Some_2 h b Hb) as [bv Hbv].
    rewrite (view_cons _ _ _ bv), fmap_cons, merge_spec_cons by done.
    apply list.NoDup_app in Hnd as (Hnd_st & Hdisj & Hnd_bt).
    apply list.NoDup_cons in Hnd_bt as [Hb_bt Hnd_bt].
    rewrite merge_loop_cons. destruct (scan_merged h b st) as [h1|] eqn:Hscan.
    + apply scan_merged_some in Hscan
        as (pre & x & post & cx & bv' & -> & Hx & Hb' & Hcat & Hfresh & ->).
      assert (bv' = bv) as -> by congruence.
      pose proof Hnd_st as Hnd_st'.
      apply list.NoDup_app in Hnd_st as (_ & Hpre & Hpost).
      apply list.NoDup_cons in Hpost as [Hx_post _].
      assert (Hother : forall l : list loc, x ∉ l ->
                view (alter (extend_papers (papers bv)) x h) l = view h l).
      { intros l Hl. apply view_ext. intros y Hy.
        apply list_lookup_alter_ne. by intros ->. }
      intros Hm. apply IH in Hm; [rewrite Hm|..].
      * rewrite (Hother bt).
        2:{ intros Hin. apply (Hdisj x); [apply elem_of_app; right; by left|by right]. }
        f_equal. rewrite !view_app.
        rewrite (view_cons h _ _ cx) by done.
        rewrite (view_cons _ x _ (extend_papers (papers bv) cx))
          by (by rewrite list_lookup_alter_eq, Hx).
        rewrite (Hother post) by done.
        rewrite (Hother pre) by (intros Hin; apply (Hpre x); [done|by left]).
        by rewrite merge_tuple_spec_first.
      * eapply valid_same_length; [|done]. by rewrite length_alter.
      * eapply valid_same_length; [|done]. by rewrite length_alter.
      * apply list.NoDup_app. split; [done|split; [|done]].
        intros y Hy Hy'. apply (Hdisj y); [done|by right].
    + intros Hm. apply IH in Hm; [rewrite Hm|..].
      * f_equal. rewrite view_app, (view_cons _ _ _ bv) by done.
        rewrite merge_tuple_spec_fresh by (by eapply scan_merged_none).
        by destruct bv.
      * apply valid_app. split; [done|]. apply valid_cons. split; [done|constructor].
      * done.
      * rewrite <- app_assoc. simpl. apply list.NoDup_app. split; [done|].
        split; [done|]. by apply list.NoDup_cons.
Qed.

(** ** Merging a parsed batch *)

Lemma merge_batch_unfold (h : heap) (st : list loc) (vs : list ClassificationResult) :
  merge_batch h st vs = merge_loop (h ++ vs) st (seq (length h) (length vs)).
Proof. reflexivity. Qed.

Lemma valid_alloc (h : heap) (vs : list ClassificationResult) :
  valid (h ++ vs) (seq (length h) (length vs)).
Proof.
  unfold valid. apply Forall_forall. intros x Hx%in_seq.
  rewrite length_app. lia.
Qed.

Lemma valid_weaken (h : heap) (vs : list ClassificationResult) (l : list loc) :
  valid h l -> valid (h ++ vs) l.
Proof.
  unfold valid. apply Forall_impl. intros x Hx. rewrite length_app. lia.
Qed.

Lemma NoDup_alloc (h : heap) (st : list loc) (n : nat) :
  valid h st -> NoDup st -> NoDup (st ++ seq (length h) n).
Proof.
  intros Hv Hnd. apply list.NoDup_app. split; [done|]. split; [|apply NoDup_seq].
  intros x Hx Hx'%elem_of_seq.
  unfold valid in Hv. rewrite Forall_forall in Hv.
  apply list_elem_of_In, Hv in Hx. lia.
Qed.

Lemma elem_of_view (h : heap) (l : list loc) (c : ClassificationResult) :
  c ∈ view h l <-> exists x, x ∈ l /\ h !! x = Some c.
Proof. apply list_elem_of_omap. Qed.

Lemma merge_batch_step (h h' : heap) (st st' : list loc) (vs : list ClassificationResult) :
  valid h st -> NoDup (names h st) -> merge_batch h st vs = (h', st') ->
  valid h' st' /\ NoDup (names h' st') /\
  (forall v p, v ∈ vs -> p ∈ papers v ->
     exists c, c ∈ view h' st' /\ category c = category v /\ p ∈ papers c) /\
  (forall x c, h !! x = Some c -> exists c', h' !! x = Some c' /\ grows c c') /\
  st `prefix_of` st'.
Proof.
  intros Hv Hnd. rewrite merge_batch_unfold. intros Hm.
  destruct (merge_loop_names _ _ _ _ _ (valid_weaken h vs st Hv) (valid_alloc h vs)
              ltac:(by (unfold names; rewrite view_weaken)) Hm) as [Hv' Hnd'].
  destruct (merge_loop_frame _ _ _ _ _ Hm) as (_ & Hfr & Hpre & _).
  repeat split; try done.
  - intros v p Hin Hp.
    apply list_elem_of_lookup in Hin as [i Hi].
    destruct (merge_loop_assigned _ _ _ _ _ Hm (length h + i)%nat v p)
      as (x & c' & Hx & Hc' & Hcat & Hp'); try done.
    + apply elem_of_seq. apply lookup_lt_Some in Hi. lia.
    + rewrite lookup_app_r by lia. by replace (length h + i - length h)%nat with i by lia.
    + exists c'. split; [|done]. apply elem_of_view. by exists x.
  - intros x c Hx. apply Hfr. by apply lookup_app_l_Some.
Qed.

Lemma merge_batch_refines (h : heap) (st : list loc) (vs : list ClassificationResult) :
  valid h st -> NoDup st ->
  view (merge_batch h st vs).1 (merge_batch h st vs).2
  = merge_spec (view h st) (tuple_of <$> vs).
Proof.
  intros Hv Hnd. rewrite merge_batch_unfold.
  destruct (merge_loop _ _ _) as [h' st'] eqn:Hm. simpl.
  apply merge_loop_refines in Hm.
  - by rewrite Hm, view_weaken, view_alloc.
  - by apply valid_weaken.
  - apply valid_alloc.
  - by apply NoDup_alloc.
Qed.

(** C1: the merge goes through the tuples in order; each one is
    appended to the first category of exactly its name, and when there
    is none a new category with that name, those members and that
    description goes to the end.  The accumulated state is a list of
    distinct objects of the store; the tuples are objects of their own
    (first part), as are the results the parser has just built (second
    part). *)
Theorem merge_results_refines_spec (h : heap) (st : list loc) :
  valid h st -> NoDup st ->
  (forall bt, valid h bt -> NoDup bt -> (forall x, x ∈ st -> x ∉ bt) ->
     view (_merge_results h st bt).1 (_merge_results h st bt).2
     = merge_spec (view h st) (tuple_of <$> view h bt)) /\
  (forall vs,
     view (merge_batch h st vs).1 (merge_batch h st vs).2
     = merge_spec (view h st) (tuple_of <$> vs)).
Proof.
  intros Hv Hnd. split.
  - intros bt Hbt Hnd_bt Hdisj. unfold _merge_results.
    destruct (merge_loop h st bt) as [h' st'] eqn:Hm. simpl.
    apply (merge_loop_refines _ _ _ _ _ Hv Hbt); [|done].
    by apply list.NoDup_app.
  - intros vs. by apply merge_batch_refines.
Qed.

(** The example of the specification: [("A", [p1]); ("B", [p2])] and then
    [("A", [p3])] into the empty state give one "A" with [p1; p3] and one
    "B" with [p2]. *)
Lemma merge_results_refines_spec_witness :
  view (merge_batch state_AB.1 state_AB.2 [cat_of "A" [p3] "again A"]).1
       (merge_batch state_AB.1 state_AB.2 [cat_of "A" [p3] "again A"]).2
    = [cat_of "A" [p1; p3] "about A"; cat_of "B" [p2] "about B"] /\
  view (merge_batch state_AB.1 state_AB.2 [cat_of "A" [p3] "again A"]).1
       (merge_batch state_AB.1 state_AB.2 [cat_of "A" [p3] "again A"]).2
    = merge_spec (view state_AB.1 state_AB.2) (tuple_of <$> [cat_of "A" [p3] "again A"]).
Proof.
  split; [vm_compute; reflexivity|].
  apply (merge_results_refines_spec state_AB.1 state_AB.2).
  - unfold valid. vm_compute. repeat constructor.
  - apply (@bool_decide_unpack _ (NoDup_dec _)). vm_compute. exact I.
Defined.

(** C6: the merge never writes a description.  Every object of the
    store, the categories of the state and the results of the batch
    alike, has after the merge the name and the description it had
    before it; the accumulated list keeps its categories in place, and a
    category it gains is a result of the batch, with the description
    that result came with. *)
Theorem merge_results_keeps_description (h : heap) (st bt : list loc) :
  (forall x c, h !! x = Some c ->
     exists c', (_merge_results h st bt).1 !! x = Some c' /\
       category c' = category c /\ summary c' = summary c) /\
  st `prefix_of` (_merge_results h st bt).2 /\
  (forall x, x ∈ (_merge_results h st bt).2 -> x ∈ st \/ x ∈ bt).
Proof.
  unfold _merge_results. destruct (merge_loop h st bt) as [h' st'] eqn:Hm.
  destruct (merge_loop_frame _ _ _ _ _ Hm) as (_ & Hfr & Hpre & Hin).
  repeat split; try done.
  intros x c Hx. destruct (Hfr x c Hx) as (c' & Hc' & Hg1 & Hg2 & _). by exists c'.
Qed.

(** Why the tuples must be objects of their own: when the same object
    comes twice in the batch, its second turn finds itself in the
    accumulated list and doubles what it holds by then. *)
Lemma merge_results_shared_tuple :
  view (_merge_results [cat_of "A" [p1] "a"; cat_of "A" [p2] "b"] [] [0; 1; 0]%nat).1
       (_merge_results [cat_of "A" [p1] "a"; cat_of "A" [p2] "b"] [] [0; 1; 0]%nat).2
    = [cat_of "A" [p1; p2; p1; p2] "a"] /\
  merge_spec [] [("A", [p1], "a"); ("A", [p2], "b"); ("A", [p1], "a")]
    = [cat_of "A" [p1; p2; p1] "a"].
Proof. split; reflexivity. Qed.

(** ** Runs of the batch loop *)

Section Runs.
Variable json_loads : string -> option json.
Variable client : nat -> list Paper -> list ClassificationResult -> result string.
Variable batch_size : Z.

Lemma batch_loop_cons (ps : list Paper) (h : heap) (st : list loc) sent hist i rest :
  batch_loop json_loads client batch_size ps h st sent hist (i :: rest) =
    let bp := batch_papers batch_size ps i in
    match batch_reply json_loads client h st bp i with
    | Ok vs =>
        batch_loop json_loads client batch_size ps
          (merge_batch h st vs).1 (merge_batch h st vs).2
          (sent ++ [bp]) (hist ++ [vs]) rest
    | Raise e =>
        {| store := h; calls := sent ++ [bp]; merged_batches := hist;
           printed_failure := Some (S i); outcome := Raise e |}
    | IllTyped =>
        {| store := h; calls := sent ++ [bp]; merged_batches := hist;
           printed_failure := None; outcome := IllTyped |}
    end.
Proof.
  simpl. destruct (batch_reply _ _ _ _ _ _) as [vs| |]; try done.
  by destruct (merge_batch h st vs).
Qed.

Lemma covered_step (h h' : heap) (st st' : list loc) hist :
  (forall x c, h !! x = Some c -> exists c', h' !! x = Some c' /\ grows c c') ->
  st `prefix_of` st' ->
  covered h st hist -> covered h' st' hist.
Proof.
  intros Hfr Hpre Hcov vs v p Hvs Hv Hp.
  destruct (Hcov vs v p Hvs Hv Hp) as (c & Hc & Hcat & Hpc).
  apply elem_of_view in Hc as (x & Hx & Hxc).
  destruct (Hfr _ _ Hxc) as (c' & Hc' & Hg1 & _ & Hg3).
  exists c'. split; [|split].
  - apply elem_of_view. exists x. split; [|done]. by eapply elem_of_prefix.
  - congruence.
  - by eapply elem_of_prefix.
Qed.

(** The invariant of the loop. *)
Lemma batch_loop_invariant (ps : list Paper) (idxs : list nat) :
  forall h st sent hist st',
  valid h st -> NoDup (names h st) -> covered h st hist ->
  outcome (batch_loop json_loads client batch_size ps h st sent hist idxs) = Ok st' ->
  let r := batch_loop json_loads client batch_size ps h st sent hist idxs in
  valid (store r) st' /\ NoDup (names (store r) st') /\
  covered (store r) st' (merged_batches r) /\
  (forall x c, h !! x = Some c -> exists c', store r !! x = Some c' /\ grows c c') /\
  st `prefix_of` st'.
Proof.
  induction idxs as [|i idxs IH]; intros h st sent hist st' Hv Hnd Hcov.
  - simpl. intros [= <-]. repeat split; try done.
    intros x c Hx. exists c. split; [done|apply grows_refl].
  - rewrite batch_loop_cons. cbv zeta.
    destruct (batch_reply _ _ _ _ _ _) as [vs| |]; [|done..].
    destruct (merge_batch h st vs) as [h1 st1] eqn:Hm. simpl fst. simpl snd.
    destruct (merge_batch_step _ _ _ _ _ Hv Hnd Hm) as (Hv1 & Hnd1 & Has & Hfr & Hpre).
    intros Hout.
    assert (Hcov1 : covered h1 st1 (hist ++ [vs])).
    { intros vs' v p [Hvs|Hvs%list_elem_of_singleton]%elem_of_app Hin Hp.
      - by eapply (covered_step h h1 st st1 hist).
      - subst vs'. by apply Has. }
    destruct (IH _ _ _ _ _ Hv1 Hnd1 Hcov1 Hout) as (? & ? & ? & Hfr' & Hpre').
    repeat split; try done.
    + intros x c Hx. destruct (Hfr _ _ Hx) as (c1 & Hc1 & Hg1).
      destruct (Hfr' _ _ Hc1) as (c2 & Hc2 & Hg2).
      exists c2. split; [done|]. by eapply grows_trans.
    + by etrans.
Qed.

(** A run that raises stops at the batch that failed: that batch is the
    last one sent, its number is on the failure line, and the batches
    before it were all merged. *)
Lemma batch_loop_abort (ps : list Paper) (idxs : list nat) :
  forall h st sent hist e,
  outcome (batch_loop json_loads client batch_size ps h st sent hist idxs) = Raise e ->
  let r := batch_loop json_loads client batch_size ps h st sent hist idxs in
  exists pre i post,
    idxs = pre ++ i :: post /\
    printed_failure r = Some (S i) /\
    calls r = sent ++ (batch_papers batch_size ps <$> (pre ++ [i])) /\
    length (merged_batches r) = (length hist + length pre)%nat.
Proof.
  induction idxs as [|i idxs IH]; [done|]. intros h st sent hist e.
  rewrite batch_loop_cons. cbv zeta.
  destruct (batch_reply _ _ _ _ _ _) as [vs|e'|]; [| |done].
  - intros Hout. destruct (IH _ _ _ _ _ Hout) as (pre & j & post & -> & Hp & Hc & Hl).
    exists (i :: pre), j, post. repeat split; try done.
    + rewrite Hc, <- app_assoc. done.
    + rewrite Hl, length_app. simpl. lia.
  - intros _. exists [], i, idxs. simpl. by repeat split.
Qed.

(** A run that returns sent the planned batches, each once, in order. *)
Lemma batch_loop_calls (ps : list Paper) (idxs : list nat) :
  forall h st sent hist st',
  outcome (batch_loop json_loads client batch_size ps h st sent hist idxs) = Ok st' ->
  calls (batch_loop json_loads client batch_size ps h st sent hist idxs)
  = sent ++ (batch_papers batch_size ps <$> idxs).
Proof.
  induction idxs as [|i idxs IH]; intros h st sent hist st'.
  - simpl. by rewrite app_nil_r.
  - rewrite batch_loop_cons. cbv zeta.
    destruct (batch_reply _ _ _ _ _ _) as [vs| |]; [|done..].
    intros Hout. rewrite (IH _ _ _ _ _ Hout), <- app_assoc. done.
Qed.

Lemma classify_papers_calls (h : heap) (ps : list Paper) existing st' :
  ps <> [] ->
  outcome (classify_papers json_loads client batch_size h ps existing) = Ok st' ->
  plan_batches batch_size ps
  = Ok (calls (classify_papers json_loads client batch_size h ps existing)).
Proof.
  intros Hps. unfold classify_papers, plan_batches. destruct ps as [|p ps]; [done|].
  destruct (batch_count batch_size (p :: ps)) as [k| |]; [|done..].
  intros Hout. by rewrite (batch_loop_calls _ _ _ _ _ _ _ Hout).
Qed.

End Runs.

(** ** The members of a category, with their multiplicity *)

Lemma members_named_cons (n : string) (c : ClassificationResult) (l : list ClassificationResult) :
  members_named n (c :: l)
  = (if String.eqb (category c) n then papers c else []) ++ members_named n l.
Proof. reflexivity. Qed.

Lemma members_named_app (n : string) (l1 l2 : list ClassificationResult) :
  members_named n (l1 ++ l2) = members_named n l1 ++ members_named n l2.
Proof. unfold members_named. apply bind_app. Qed.

Lemma members_named_absent (n : string) (l : list ClassificationResult) :
  n ∉ category <$> l -> members_named n l = [].
Proof.
  induction l as [|c l IH]; [done|]. rewrite fmap_cons, not_elem_of_cons.
  intros [Hne Hl]. rewrite members_named_cons, IH by done.
  destruct (String.eqb_spec (category c) n); [congruence|done].
Qed.

Lemma merge_tuple_spec_members (n : string) (st : list ClassificationResult) nm r s :
  NoDup (category <$> st) ->
  NoDup (category <$> merge_tuple_spec st nm r s) /\
  members_named n (merge_tuple_spec st nm r s)
  = members_named n st ++ (if String.eqb nm n then r else []).
Proof.
  induction st as [|c st IH]; intros Hnd.
  - simpl. split; [apply NoDup_singleton|]. by rewrite app_nil_r.
  - rewrite fmap_cons in Hnd. apply list.NoDup_cons in Hnd as [Hc Hnd].
    cbn [merge_tuple_spec]. destruct (String.eqb_spec (category c) nm) as [Heq|Hne].
    + split; [rewrite fmap_cons; by apply list.NoDup_cons|].
      rewrite !members_named_cons. cbn [category papers].
      destruct (String.eqb_spec (category c) n) as [Hn|Hn].
      * subst n. rewrite members_named_absent by done.
        rewrite Heq, String.eqb_refl. by rewrite !app_nil_r.
      * destruct (String.eqb_spec nm n); [congruence|]. by rewrite app_nil_r.
    + destruct (IH Hnd) as [IHn IHm]. split.
      * rewrite fmap_cons. apply list.NoDup_cons. split; [|done].
        intros Hin. apply Hc. clear -Hin Hne.
        induction st as [|d st IHst]; cbn [merge_tuple_spec] in Hin.
        { apply list_elem_of_singleton in Hin. simpl in Hin. congruence. }
        destruct (String.eqb (category d) nm); [done|].
        rewrite fmap_cons in *. apply elem_of_cons in Hin as [->|Hin]; [left|right; auto].
      * rewrite !members_named_cons, IHm. by rewrite app_assoc.
Qed.

Lemma merge_spec_members (n : string) (vs : list ClassificationResult) :
  forall st, NoDup (category <$> st) ->
  members_named n (merge_spec st (tuple_of <$> vs))
  = members_named n st ++ members_named n vs.
Proof.
  induction vs as [|v vs IH]; intros st Hnd.
  - simpl. by rewrite app_nil_r.
  - rewrite fmap_cons, merge_spec_cons.
    destruct (merge_tuple_spec_members n st (category v) (papers v) (summary v) Hnd)
      as [Hnd' Hm].
    rewrite IH, Hm, members_named_cons by done. by rewrite app_assoc.
Qed.

Lemma names_NoDup_locs (h : heap) (st : list loc) :
  valid h st -> NoDup (names h st) -> NoDup st.
Proof.
  induction st as [|x st IH]; [constructor|].
  rewrite valid_cons. intros [Hx Hv].
  destruct (lookup_lt_is_Some_2 h x Hx) as [c Hc].
  unfold names. rewrite (view_cons _ _ _ _ Hc), fmap_cons.
  intros [Hn Hnd]%list.NoDup_cons. apply list.NoDup_cons. split; [|by apply IH].
  intros Hin. apply Hn. apply list_elem_of_fmap. exists c. split; [done|].
  apply elem_of_view. by exists x.
Qed.

Lemma merge_batch_members (n : string) (h : heap) (st : list loc)
    (vs : list ClassificationResult) :
  valid h st -> NoDup (names h st) ->
  members_named n (view (merge_batch h st vs).1 (merge_batch h st vs).2)
  = members_named n (view h st) ++ members_named n vs.
Proof.
  intros Hv Hnd. rewrite merge_batch_refines by eauto using names_NoDup_locs.
  by apply merge_spec_members.
Qed.

Section RunMembers.
Variable json_loads : string -> option json.
Variable client : nat -> list Paper -> list ClassificationResult -> result string.
Variable batch_size : Z.

Lemma batch_loop_members (n : string) (ps : list Paper) (idxs : list nat) :
  forall h st sent hist st' m0,
  valid h st -> NoDup (names h st) ->
  members_named n (view h st) = m0 ++ members_named n (concat hist) ->
  outcome (batch_loop json_loads client batch_size ps h st sent hist idxs) = Ok st' ->
  let r := batch_loop json_loads client batch_size ps h st sent hist idxs in
  members_named n (view (store r) st') = m0 ++ members_named n (concat (merged_batches r)).
Proof.
  induction idxs as [|i idxs IH]; intros h st sent hist st' m0 Hv Hnd Hm0.
  - simpl. by intros [= <-].
  - rewrite batch_loop_cons. cbv zeta.
    destruct (batch_reply _ _ _ _ _ _) as [vs| |]; [|done..].
    destruct (merge_batch h st vs) as [h1 st1] eqn:Hm. simpl fst. simpl snd.
    destruct (merge_batch_step _ _ _ _ _ Hv Hnd Hm) as (Hv1 & Hnd1 & _).
    apply IH; try done.
    pose proof (merge_batch_members n h st vs Hv Hnd) as Ht. rewrite Hm in Ht. simpl in Ht.
    rewrite Ht, Hm0, concat_app, members_named_app. simpl. by rewrite app_nil_r, app_assoc.
Qed.

Lemma classify_papers_members (n : string) (h : heap) (ps : list Paper)
    (existing : option (list loc)) (st' : list loc) :
  ps <> [] ->
  valid h (default [] existing) -> NoDup (names h (default [] existing)) ->
  outcome (classify_papers json_loads client batch_size h ps existing) = Ok st' ->
  members_named n (view (store (classify_papers json_loads client batch_size h ps existing)) st')
  = members_named n (view h (default [] existing))
    ++ members_named n
         (concat (merged_batches (classify_papers json_loads client batch_size h ps existing))).
Proof.
  intros Hps Hv Hnd. unfold classify_papers. destruct ps as [|p0 ps]; [done|].
  destruct (batch_count batch_size (p0 :: ps)) as [k| |]; [|done..].
  intros Hout. apply batch_loop_members; try done. simpl. by rewrite app_nil_r.
Qed.
End RunMembers.


(** C7 (amended): when the names of the accumulated state are pairwise
    distinct, they are pairwise distinct after every merge of a parsed
    batch and at the end of every run that returns; every record of a
    parsed entry (the records its in-range indices select) is, after the
    merge and at the end of the run, among the members of the category
    named by that entry; and under every name the members are those the
    state had followed by the records of the entries of that name, in
    the order of the entries and each as often as it was selected: none
    is dropped and a record referenced more than once is kept as often
    as it is referenced.  (Over no records nothing is referenced and the
    run returns the empty list.) *)
Theorem names_distinct_records_kept :
  (forall h st vs,
     valid h st -> NoDup (names h st) ->
     valid (merge_batch h st vs).1 (merge_batch h st vs).2 /\
     NoDup (names (merge_batch h st vs).1 (merge_batch h st vs).2) /\
     covered (merge_batch h st vs).1 (merge_batch h st vs).2 [vs] /\
     (forall n,
        members_named n (view (merge_batch h st vs).1 (merge_batch h st vs).2)
        = members_named n (view h st) ++ members_named n vs)) /\
  (forall json_loads client batch_size h ps existing st',
     valid h (default [] existing) -> NoDup (names h (default [] existing)) ->
     outcome (classify_papers json_loads client batch_size h ps existing) = Ok st' ->
     NoDup (names (store (classify_papers json_loads client batch_size h ps existing)) st') /\
     covered (store (classify_papers json_loads client batch_size h ps existing)) st'
             (merged_batches (classify_papers json_loads client batch_size h ps existing)) /\
     (ps <> [] -> forall n,
        members_named n
          (view (store (classify_papers json_loads client batch_size h ps existing)) st')
        = members_named n (view h (default [] existing))
          ++ members_named n
               (concat (merged_batches
                          (classify_papers json_loads client batch_size h ps existing))))).
Proof.
  split.
  - intros h st vs Hv Hnd. destruct (merge_batch h st vs) as [h' st'] eqn:Hm.
    destruct (merge_batch_step _ _ _ _ _ Hv Hnd Hm) as (? & ? & Has & _).
    repeat split; try done.
    + intros vs' v p ->%list_elem_of_singleton. apply Has.
    + intros n. pose proof (merge_batch_members n h st vs Hv Hnd) as H'.
      by rewrite Hm in H'.
  - intros json_loads client batch_size h ps existing st' Hv Hnd Hout.
    assert (Hinv :
      NoDup (names (store (classify_papers json_loads client batch_size h ps existing)) st') /\
      covered (store (classify_papers json_loads client batch_size h ps existing)) st'
              (merged_batches (classify_papers json_loads client batch_size h ps existing))).
    { revert Hout. unfold classify_papers. destruct ps as [|p0 ps].
      { simpl. intros [= <-]. split; [constructor|]. intros vs v p Hvs.
        by apply elem_of_nil in Hvs. }
      destruct (batch_count batch_size (p0 :: ps)) as [k| |]; [|done..].
      intros Hout.
      eapply batch_loop_invariant in Hout as (_ & ? & ? & _); [done..|].
      intros vs v p Hvs. by apply elem_of_nil in Hvs. }
    destruct Hinv as [Hn Hc]. split; [done|]. split; [done|].
    intros Hps n. by apply classify_papers_members.
Qed.

Lemma names_distinct_records_kept_witness :
  NoDup (names (store seeded_run) [0; 2]%nat) /\
  covered (store seeded_run) [0; 2]%nat (merged_batches seeded_run) /\
  members_named "A" (view (store seeded_run) [0; 2]%nat) = [p0; p1; p1] /\
  members_named "B" (view (store seeded_run) [0; 2]%nat) = [p1].
Proof.
  destruct (proj2 names_distinct_records_kept
              decode_json repeating_client 5 seed_heap [p1] (Some seed) [0; 2]%nat)
    as (Hn & Hc & Hm).
  - unfold valid. vm_compute. repeat constructor.
  - apply (@bool_decide_unpack _ (NoDup_dec _)). vm_compute. exact I.
  - vm_compute. reflexivity.
  - split; [exact Hn|]. split; [exact Hc|]. split.
    + exact (Hm ltac:(discriminate) "A"%string).
    + exact (Hm ltac:(discriminate) "B"%string).
Defined.

(** C7 (as stated, refuted): the run returns the categories "A" and "B"
    with distinct names, and record [p1] is twice in "A" and once in
    "B": a record can be in more than one category, and more than once
    in one. *)
Lemma record_in_two_categories :
  outcome repeated_run = Ok [0; 1]%nat /\
  view (store repeated_run) [0; 1]%nat
    = [cat_of "A" [p1; p1] "sa"; cat_of "B" [p1] "sb"].
Proof. split; vm_compute; reflexivity. Qed.

(** C10: over no records [classify_papers] returns the empty list,
    whatever the seed, touches nothing and calls no backend. *)
Theorem classify_papers_no_papers
    (json_loads : string -> option json)
    (client : nat -> list Paper -> list ClassificationResult -> result string)
    (batch_size : Z) (h : heap) (existing : option (list loc)) :
  outcome (classify_papers json_loads client batch_size h [] existing) = Ok [] /\
  calls (classify_papers json_loads client batch_size h [] existing) = [] /\
  store (classify_papers json_loads client batch_size h [] existing) = h /\
  (forall x l, existing = Some (x :: l) ->
     outcome (classify_papers json_loads client batch_size h [] existing) <> Ok (x :: l)).
Proof. repeat split. intros x l _. discriminate. Qed.

(** *** A failure after a merged batch *)

(** C2 (the code at the failing input): the run raises the backend's
    exception and prints batch 2, having sent two batches; nothing is
    returned; and the category object of the caller's seed, which held
    [p0], now holds [p0; p1]. *)
Theorem failed_run_changes_seed :
  outcome failed_run = Raise (BackendError "quota exceeded") /\
  printed_failure failed_run = Some 2%nat /\
  calls failed_run = [[p1]; [p2]] /\
  view seed_heap seed = [cat_of "A" [p0] "about A"] /\
  view (store failed_run) seed = [cat_of "A" [p0; p1] "about A"].
Proof. repeat split; vm_compute; reflexivity. Qed.

(** * Properties of the rest of the pipeline *)

(** ** _sanitize_filename *)

Lemma lacks_cons (c d : ascii) (s : string) :
  lacks c (String d s) <-> d <> c /\ lacks c s.
Proof.
  unfold lacks. simpl. split.
  - intros H. split; [intros ->; apply H; by left|]. intros Hin. apply H. by right.
  - intros [Hne Hs] [Heq|Hin]; [done|by apply Hs].
Qed.

Lemma is_forbidden_underscore : is_forbidden "_" = false.
Proof. reflexivity. Qed.

Lemma sanitize_filename_clean_facts (filename : string) :
  String.length (_sanitize_filename filename) = String.length filename /\
  (forall c, is_forbidden c = true -> lacks c (_sanitize_filename filename)) /\
  (forall (i : nat) c, String.get i filename = Some c ->
     String.get i (_sanitize_filename filename)
     = Some (if is_forbidden c then "_"%char else c)).
Proof.
  induction filename as [|d s (IHlen & IHclean & IHget)]; simpl.
  - repeat split; try done. intros c _ [].
  - split; [by rewrite IHlen|]. split.
    + intros c Hc. apply lacks_cons. split; [|by apply IHclean].
      destruct (is_forbidden d) eqn:Hd.
      * intros <-. by rewrite is_forbidden_underscore in Hc.
      * intros <-. congruence.
    + intros [|i] c; simpl; [by intros [= ->]|apply IHget].
Qed.

(** X1: the sanitized name is as long as the name and holds none of the
    nine characters; a character that is not one of them stays where it
    is, and each of them becomes an underscore. *)
Theorem sanitize_filename_clean (filename : string) :
  String.length (_sanitize_filename filename) = String.length filename /\
  (forall c, is_forbidden c = true -> lacks c (_sanitize_filename filename)) /\
  (forall (i : nat) c, String.get i filename = Some c ->
     String.get i (_sanitize_filename filename)
     = Some (if is_forbidden c then "_"%char else c)).
Proof. apply sanitize_filename_clean_facts. Qed.

(** X2: sanitizing changes nothing exactly when the name holds none of
    the nine characters, so sanitizing twice is sanitizing once. *)
Theorem sanitize_filename_fixed (filename : string) :
  (_sanitize_filename filename = filename <->
     forall c, is_forbidden c = true -> lacks c filename) /\
  _sanitize_filename (_sanitize_filename filename) = _sanitize_filename filename.
Proof.
  assert (Hfix : forall s, _sanitize_filename s = s <->
                   forall c, is_forbidden c = true -> lacks c s).
  { induction s as [|d s IH]; simpl.
    - split; [intros _ c _ []|done].
    - split.
      + intros [= Hd Hs] c Hc. apply lacks_cons. split; [|by apply IH].
        intros ->. rewrite Hc in Hd. subst c. by rewrite is_forbidden_underscore in Hc.
      + intros H. f_equal.
        * destruct (is_forbidden d) eqn:Hd; [|done].
          destruct (proj1 (lacks_cons _ _ _) (H d Hd)) as [Hne _]. done.
        * apply IH. intros c Hc. by apply (proj1 (lacks_cons c d s) (H c Hc)). }
  split; [apply Hfix|]. apply Hfix. apply sanitize_filename_clean_facts.
Qed.

(** ** Dicts *)

Lemma pydict_get_set_eq {V} (d : list (string * V)) (k : string) (v : V) :
  pydict_get (pydict_set d k v) k = Some v.
Proof.
  induction d as [|[k' v'] d IH]; simpl.
  - by rewrite String.eqb_refl.
  - destruct (String.eqb_spec k' k) as [->|Hne]; simpl.
    + by rewrite String.eqb_refl.
    + by destruct (String.eqb_spec k' k).
Qed.

Lemma pydict_get_set_ne {V} (d : list (string * V)) (k k' : string) (v : V) :
  k <> k' -> pydict_get (pydict_set d k v) k' = pydict_get d k'.
Proof.
  intros Hne. induction d as [|[k0 v0] d IH]; simpl.
  - by destruct (String.eqb_spec k k').
  - destruct (String.eqb_spec k0 k) as [->|Hk0]; simpl.
    + by destruct (String.eqb_spec k k').
    + by rewrite IH.
Qed.

Lemma pydict_set_keys {V} (d : list (string * V)) (k : string) (v : V) :
  (pydict_set d k v).*1 = if bool_decide (k ∈ d.*1) then d.*1 else d.*1 ++ [k].
Proof.
  induction d as [|[k0 v0] d IH]; [done|].
  cbn [pydict_set]. destruct (String.eqb_spec k0 k) as [->|Hne]; rewrite !fmap_cons; cbn [fst].
  - rewrite bool_decide_eq_true_2; [done|by left].
  - rewrite IH. destruct (bool_decide_reflect (k ∈ d.*1)) as [Hin|Hnin].
    + rewrite bool_decide_eq_true_2; [done|by right].
    + rewrite bool_decide_eq_false_2; [done|].
      intros [?|?]%elem_of_cons; [congruence|done].
Qed.

Lemma pydict_set_NoDup {V} (d : list (string * V)) (k : string) (v : V) :
  NoDup d.*1 -> NoDup (pydict_set d k v).*1.
Proof.
  intros Hnd. rewrite pydict_set_keys.
  destruct (bool_decide_reflect (k ∈ d.*1)) as [Hin|Hnin]; [done|].
  apply list.NoDup_app. split; [done|]. split; [|apply NoDup_singleton].
  by intros x Hx ->%list_elem_of_singleton.
Qed.

Lemma pydict_get_Some_key {V} (d : list (string * V)) (k : string) (v : V) :
  pydict_get d k = Some v -> k ∈ d.*1.
Proof.
  induction d as [|[k0 v0] d IH]; simpl; [done|].
  destruct (String.eqb_spec k0 k) as [->|Hne]; [by left|]. right. by apply IH.
Qed.

(** ** _extract_venue_name and load_papers *)

Section LoadingFacts.
Variable path_stem : string -> string.
Variable str_lower : string -> string.
Variable read_json : string -> option (option json).

Local Abbreviation venue_of := (_extract_venue_name path_stem str_lower).
Local Abbreviation load := (load_papers path_stem str_lower read_json).

Lemma extract_venue_name_two_values_facts (json_file : string) :
  venue_of json_file
  = (if contains "iclr" (str_lower (path_stem json_file))
     then "ICLR 2025" else "NeurIPS 2025") /\
  venue_of json_file <> "ICML 2025".
Proof.
  unfold _extract_venue_name.
  destruct (contains "iclr" (str_lower (path_stem json_file))); by split.
Qed.

(** X3: the venue of a file is "ICLR 2025" when its lower-cased stem
    holds "iclr" and "NeurIPS 2025" otherwise, whatever the stem holds:
    the branch for "icm" and the one that returns the stem are never
    reached, so the venue is never "ICML 2025". *)
Theorem extract_venue_name_two_values (json_file : string) :
  venue_of json_file
  = (if contains "iclr" (str_lower (path_stem json_file))
     then "ICLR 2025" else "NeurIPS 2025") /\
  venue_of json_file <> "ICML 2025".
Proof. apply extract_venue_name_two_values_facts. Qed.

Lemma load_papers_keys (files : list string) :
  forall d0 d,
  load files d0 = Ok d ->
  NoDup d0.*1 ->
  NoDup d.*1 /\
  (forall k, k ∈ d.*1 -> k ∈ d0.*1 \/ k = "ICLR 2025" \/ k = "NeurIPS 2025").
Proof.
  induction files as [|f files IH]; intros d0 d; simpl.
  - intros [= <-] Hnd. split; [done|]. by left.
  - destruct (read_json f) as [[data|]|]; [|apply IH..].
    destruct (_parse_papers data (venue_of f)) as [ps| |]; simpl; [|done..].
    intros Hload Hnd.
    destruct (IH _ _ Hload (pydict_set_NoDup _ _ _ Hnd)) as [Hnd' Hkeys].
    split; [done|]. intros k Hk. destruct (Hkeys k Hk) as [Hin|Hv]; [|by right].
    rewrite pydict_set_keys in Hin.
    destruct (bool_decide (venue_of f ∈ d0.*1)); [by left|].
    apply elem_of_app in Hin as [Hin|Hin]; [by left|].
    apply list_elem_of_singleton in Hin as ->.
    right. destruct (extract_venue_name_two_values_facts f) as [-> _].
    destruct (contains _ _); [by left|by right].
Qed.

Lemma load_papers_keeps (files : list string) (k : string) :
  forall d0 d,
  load files d0 = Ok d ->
  (forall g data, g ∈ files -> read_json g = Some (Some data) -> venue_of g <> k) ->
  pydict_get d k = pydict_get d0 k.
Proof.
  induction files as [|f files IH]; intros d0 d; simpl.
  - by intros [= <-].
  - intros Hload Hother.
    assert (Hrest : forall g data, g ∈ files -> read_json g = Some (Some data) ->
                      venue_of g <> k).
    { intros g data Hg. apply Hother. by right. }
    destruct (read_json f) as [[data|]|] eqn:Hf; [|by apply IH..].
    destruct (_parse_papers data (venue_of f)) as [ps| |]; simpl in Hload; [|done..].
    rewrite (IH _ _ Hload Hrest). apply pydict_get_set_ne.
    eapply Hother; [by left|done].
Qed.

(** X4: a load that starts from the empty dict ends with at most two
    venues, "ICLR 2025" and "NeurIPS 2025", however many files it read;
    under a venue it holds the papers of the last readable file of that
    venue, and those of the earlier ones are gone. *)
Theorem load_papers_two_venues (files : list string) (d : list (string * list Paper)) :
  load files [] = Ok d ->
  NoDup d.*1 /\
  (forall k, k ∈ d.*1 -> k = "ICLR 2025" \/ k = "NeurIPS 2025") /\
  (length d <= 2)%nat /\
  (forall pre f post data,
     files = pre ++ f :: post ->
     read_json f = Some (Some data) ->
     (forall g data', g ∈ post -> read_json g = Some (Some data') ->
        venue_of g <> venue_of f) ->
     exists ps, _parse_papers data (venue_of f) = Ok ps /\
                pydict_get d (venue_of f) = Some ps).
Proof.
  intros Hload.
  destruct (load_papers_keys files [] d Hload) as [Hnd Hkeys]; [constructor|].
  assert (Hk : forall k, k ∈ d.*1 -> k = "ICLR 2025" \/ k = "NeurIPS 2025").
  { intros k Hin. destruct (Hkeys k Hin) as [Hin'|?]; [|done]. by apply elem_of_nil in Hin'. }
  split; [done|]. split; [done|]. split.
  - rewrite <- (length_fmap fst).
    assert (Hsub : d.*1 ⊆ ["ICLR 2025"; "NeurIPS 2025"]).
    { intros k Hin. destruct (Hk k Hin) as [Hk'|Hk']; subst k; [by left|right; by left]. }
    apply (submseteq_length _ ["ICLR 2025"; "NeurIPS 2025"]).
    by apply NoDup_submseteq.
  - intros pre f post data -> Hf Hlast. revert Hload. generalize (@nil (string * list Paper)).
    induction pre as [|g pre IH]; intros d0; simpl.
    + rewrite Hf. destruct (_parse_papers data (venue_of f)) as [ps| |]; simpl; [|done..].
      intros Hload. exists ps. split; [done|].
      rewrite (load_papers_keeps post (venue_of f) _ _ Hload Hlast).
      apply pydict_get_set_eq.
    + destruct (read_json g) as [[data'|]|]; [|apply IH..].
      destruct (_parse_papers data' (venue_of g)); simpl; [apply IH|done..].
Qed.

End LoadingFacts.

Lemma load_papers_two_venues_witness :
  NoDup example_loaded.*1 /\
  (forall k, k ∈ example_loaded.*1 -> k = "ICLR 2025" \/ k = "NeurIPS 2025") /\
  (length example_loaded <= 2)%nat /\
  (forall pre f post data,
     example_files = pre ++ f :: post ->
     example_read f = Some (Some data) ->
     (forall g data', g ∈ post -> example_read g = Some (Some data') ->
        _extract_venue_name example_stem ascii_lower g
        <> _extract_venue_name example_stem ascii_lower f) ->
     exists ps, _parse_papers data (_extract_venue_name example_stem ascii_lower f) = Ok ps /\
                pydict_get example_loaded (_extract_venue_name example_stem ascii_lower f)
                = Some ps).
Proof.
  apply (load_papers_two_venues example_stem ascii_lower example_read example_files).
  vm_compute. reflexivity.
Defined.

(** ** _parse_single_paper and _parse_papers *)

Lemma truthy_JStr (v : json) (s : string) :
  v = JStr s -> truthy v = true -> s <> EmptyString.
Proof. intros -> H ->. done. Qed.

Lemma py_or_truthy (a b : json) : truthy (py_or a b) = truthy a || truthy b.
Proof. unfold py_or. by destruct (truthy a) eqn:Ha. Qed.

Lemma as_str_ok (v : json) (s : string) : as_str v = Ok s <-> v = JStr s.
Proof. destruct v; simpl; split; congruence. Qed.
Lemma as_str_no_raise (v : json) (e : exn) : as_str v <> Raise e.
Proof. by destruct v. Qed.

Lemma as_opt_str_no_raise (v : json) (e : exn) : as_opt_str v <> Raise e.
Proof. by destruct v. Qed.

Lemma as_str_list_no_raise (l : list json) (e : exn) : as_str_list l <> Raise e.
Proof.
  induction l as [|v l IH]; simpl; [done|].
  destruct v; simpl; try done. destruct (as_str_list l); simpl; (done || congruence).
Qed.

Lemma as_opt_str_list_no_raise (v : json) (e : exn) : as_opt_str_list v <> Raise e.
Proof.
  destruct v as [| | | | |l|]; simpl; try done.
  pose proof (as_str_list_no_raise l e). destruct (as_str_list l); simpl; (done || congruence).
Qed.

Lemma parse_single_paper_spec_facts (item : json) (venue_name : string) :
  (forall e, _parse_single_paper item venue_name <> Raise e) /\
  (_parse_single_paper item venue_name = Ok None <->
     match item with
     | JDict kvs =>
         truthy (dict_get_none kvs "title") || truthy (dict_get_none kvs "name") = false \/
         truthy (dict_get_none kvs "abstract") || truthy (dict_get_none kvs "tldr") = false
     | _ => True
     end) /\
  (forall p, _parse_single_paper item venue_name = Ok (Some p) ->
     title p <> EmptyString /\ abstract p <> EmptyString /\ venue p = venue_name /\
     exists kvs, item = JDict kvs /\
       JStr (title p) = py_or (dict_get_none kvs "title") (dict_get_none kvs "name") /\
       JStr (abstract p) = py_or (dict_get_none kvs "abstract") (dict_get_none kvs "tldr")).
Proof.
  destruct item as [| | | | | |kvs]; try (by repeat split).
  unfold _parse_single_paper. rewrite <- !py_or_truthy.
  set (t0 := py_or (dict_get_none kvs "title") (dict_get_none kvs "name")).
  set (a0 := py_or (dict_get_none kvs "abstract") (dict_get_none kvs "tldr")).
  assert (Ht : truthy (py_or t0 (JStr "")) = truthy t0).
  { rewrite py_or_truthy. simpl. by rewrite orb_false_r. }
  assert (Ha : truthy (py_or a0 (JStr "")) = truthy a0).
  { rewrite py_or_truthy. simpl. by rewrite orb_false_r. }
  rewrite Ht, Ha.
  destruct (truthy t0) eqn:Ht0; simpl.
  2:{ repeat split; try done. intros _. by left. }
  destruct (truthy a0) eqn:Ha0; simpl.
  2:{ repeat split; try done. intros _. by right. }
  assert (Hpt : py_or t0 (JStr "") = t0) by (unfold py_or at 1; by rewrite Ht0).
  assert (Hpa : py_or a0 (JStr "") = a0) by (unfold py_or at 1; by rewrite Ha0).
  rewrite Hpt, Hpa.
  assert (Hother : forall r : result (option Paper),
            (r = IllTyped) ->
            (forall e, r <> Raise e) /\
            (r = Ok None <-> true = false \/ true = false) /\
            (forall p, r = Ok (Some p) ->
               title p <> EmptyString /\ abstract p <> EmptyString /\ venue p = venue_name /\
               exists kvs0, JDict kvs = JDict kvs0 /\
                 JStr (title p) = py_or (dict_get_none kvs0 "title") (dict_get_none kvs0 "name") /\
                 JStr (abstract p)
                 = py_or (dict_get_none kvs0 "abstract") (dict_get_none kvs0 "tldr"))).
  { intros r ->. split; [done|]. split; [|done]. split; [done|by intros [|]]. }
  destruct (as_str t0) as [t|e|] eqn:Et; simpl;
    [|by destruct (as_str_no_raise t0 e)|by apply Hother].
  destruct (as_str a0) as [a|e|] eqn:Ea; simpl;
    [|by destruct (as_str_no_raise a0 e)|by apply Hother].
  apply as_str_ok in Et, Ea.
  destruct (as_opt_str (py_or (dict_get_none kvs "paper_id") _)) as [pid|e|] eqn:E1; simpl;
    [|by destruct (as_opt_str_no_raise _ _ E1)|by apply Hother].
  destruct (as_opt_str_list (py_or (dict_get_none kvs "authors") _)) as [au|e|] eqn:E2; simpl;
    [|by destruct (as_opt_str_list_no_raise _ _ E2)|by apply Hother].
  destruct (as_opt_str_list (py_or (dict_get_none kvs "keywords") _)) as [kw|e|] eqn:E3; simpl;
    [|by destruct (as_opt_str_list_no_raise _ _ E3)|by apply Hother].
  destruct (as_opt_str (py_or (dict_get_none kvs "pdf_url") _)) as [pdf|e|] eqn:E4; simpl;
    [|by destruct (as_opt_str_no_raise _ _ E4)|by apply Hother].
  destruct (as_opt_str (py_or (py_or (dict_get_none kvs "forum_url") _) _))
    as [forum|e|] eqn:E5; simpl;
    [|by destruct (as_opt_str_no_raise _ _ E5)|by apply Hother].
  split; [done|]. split; [split; [done|by intros [|]]|].
  intros p [= <-]. simpl. split; [by eapply truthy_JStr|].
  split; [by eapply truthy_JStr|]. split; [done|].
  exists kvs. split; [done|]. fold t0 a0. by rewrite Et, Ea.
Qed.

(** X5: [_parse_single_paper] never raises.  It gives [None] exactly for
    an item that is not a dict or whose title or abstract, after the
    fall-back to [name] and [tldr], is false (missing, null, empty); a
    paper it gives has a title and an abstract that are not empty, the
    venue it was called with, the value of [title] as title when that
    value is true and the value of [name] otherwise, and likewise
    [abstract] before [tldr]. *)
Theorem parse_single_paper_spec (item : json) (venue_name : string) :
  (forall e, _parse_single_paper item venue_name <> Raise e) /\
  (_parse_single_paper item venue_name = Ok None <->
     match item with
     | JDict kvs =>
         truthy (dict_get_none kvs "title") || truthy (dict_get_none kvs "name") = false \/
         truthy (dict_get_none kvs "abstract") || truthy (dict_get_none kvs "tldr") = false
     | _ => True
     end) /\
  (forall p, _parse_single_paper item venue_name = Ok (Some p) ->
     title p <> EmptyString /\ abstract p <> EmptyString /\ venue p = venue_name /\
     exists kvs, item = JDict kvs /\
       JStr (title p) = py_or (dict_get_none kvs "title") (dict_get_none kvs "name") /\
       JStr (abstract p) = py_or (dict_get_none kvs "abstract") (dict_get_none kvs "tldr")).
Proof. apply parse_single_paper_spec_facts. Qed.

Lemma parse_items_spec (items : list json) (venue_name : string) :
  (forall e, parse_items items venue_name <> Raise e) /\
  (forall ps, parse_items items venue_name = Ok ps ->
     exists rs, Forall2 (fun item r => _parse_single_paper item venue_name = Ok r) items rs /\
                ps = omap id rs).
Proof.
  induction items as [|item items [IHr IHok]]; simpl.
  - split; [done|]. intros ps [= <-]. exists []. split; [constructor|done].
  - destruct (parse_single_paper_spec_facts item venue_name) as (Hr & _ & _).
    destruct (_parse_single_paper item venue_name) as [r|e|] eqn:Hitem; simpl;
      [|by destruct (Hr e)|done].
    destruct (parse_items items venue_name) as [tl|e|]; simpl;
      [|by destruct (IHr e)|done].
    split; [done|]. intros ps [= <-].
    destruct (IHok tl eq_refl) as (rs & Hall & ->).
    exists (r :: rs). split; [by constructor|]. by destruct r.
Qed.

(** X6: [_parse_papers] never raises.  From a list it gives, in the
    order of the list, the papers of the items that [_parse_single_paper]
    does not drop; data that is neither a list nor a dict gives no
    paper; and every paper it gives has a title and an abstract that are
    not empty and the venue it was called with. *)
Theorem parse_papers_spec (data : json) (venue_name : string) :
  (forall e, _parse_papers data venue_name <> Raise e) /\
  (forall ps, _parse_papers data venue_name = Ok ps ->
     Forall (fun p => title p <> EmptyString /\ abstract p <> EmptyString /\
                      venue p = venue_name) ps /\
     (forall items, data = JList items ->
        (length ps <= length items)%nat /\
        exists rs,
          Forall2 (fun item r => _parse_single_paper item venue_name = Ok r) items rs /\
          ps = omap id rs)) /\
  match data with
  | JList _ | JDict _ => True
  | _ => _parse_papers data venue_name = Ok []
  end.
Proof.
  destruct data as [| | | | |items|kvs]; lazy beta iota delta [_parse_papers];
    try (split; [done|split; [|done]]; intros ps [= <-]; split; [constructor|done]).
  - destruct (parse_items_spec items venue_name) as [Hr Hok].
    split; [done|]. split; [|done]. intros ps Hps.
    destruct (Hok ps Hps) as (rs & Hall & ->). split.
    + clear Hps Hok Hr. induction Hall as [|item r items rs Hitem _ IH]; [constructor|].
      destruct r as [p|]; simpl; [|done]. constructor; [|done].
      destruct (parse_single_paper_spec_facts item venue_name) as (_ & _ & Hsome).
      destruct (Hsome p Hitem) as (? & ? & ? & _). done.
    + intros items' [= <-]. split; [|by exists rs].
      apply Forall2_length in Hall. rewrite Hall. clear.
      induction rs as [|[p|] rs IH]; cbn in *; lia.
  - destruct (parse_single_paper_spec_facts (JDict kvs) venue_name) as (Hr & _ & Hsome).
    destruct (_parse_single_paper (JDict kvs) venue_name) as [r|e|] eqn:Hitem; simpl;
      [|by destruct (Hr e)|by repeat split].
    split; [done|]. split; [|done]. intros ps [= <-]. split; [|done].
    destruct r as [p|]; [|constructor]. constructor; [|constructor].
    destruct (Hsome p eq_refl) as (? & ? & ? & _). done.
Qed.

(** ** search_papers *)

Lemma split_on_nonempty (sep : ascii) (s : string) : split_on sep s <> [].
Proof.
  destruct s as [|c s]; simpl; [done|].
  destruct (Ascii.eqb c sep); [done|]. by destruct (split_on sep s).
Qed.

Lemma split_on_app (sep : ascii) (a b : string) :
  split_on sep (a +:+ String sep b) = split_on sep a ++ split_on sep b.
Proof.
  induction a as [|c a IH]; simpl.
  - by rewrite Ascii.eqb_refl.
  - destruct (Ascii.eqb c sep); [by rewrite IH|].
    rewrite IH. destruct (split_on sep a) as [|w ws] eqn:Hs; [|done].
    by destruct (split_on_nonempty sep a).
Qed.

Lemma filter_sublist_impl {A} (f g : A -> bool) (l : list A) :
  (forall x, f x = true -> g x = true) ->
  List.filter f l `sublist_of` List.filter g l.
Proof.
  intros Himp. induction l as [|x l IH]; simpl; [done|].
  destruct (f x) eqn:Hf.
  - rewrite (Himp x Hf). by constructor.
  - destruct (g x); [by constructor|done].
Qed.

Lemma filter_sublist {A} (f : A -> bool) (l : list A) : List.filter f l `sublist_of` l.
Proof.
  induction l as [|x l IH]; simpl; [done|]. destruct (f x); by constructor.
Qed.

Section SearchFacts.
Variable str_lower : string -> string.
Variable str_strip : string -> string.

Local Abbreviation found := (paper_found str_lower).
Local Abbreviation search := (search_papers str_lower str_strip).
Local Abbreviation keywords_of := (split_keywords str_strip).

Lemma stripped_nonempty_app (l1 l2 : list string) :
  stripped_nonempty str_strip (l1 ++ l2)
  = stripped_nonempty str_strip l1 ++ stripped_nonempty str_strip l2.
Proof.
  induction l1 as [|k l1 IH]; simpl; [done|].
  destruct (str_truthy (str_strip k)); simpl; by rewrite IH.
Qed.

Lemma split_keywords_comma (k1 k2 : string) :
  keywords_of (k1 +:+ String "," k2) = keywords_of k1 ++ keywords_of k2.
Proof. unfold split_keywords. by rewrite split_on_app, stripped_nonempty_app. Qed.

Lemma all_keywords_found_spec (cs : bool) (kws : list string) (a t : string) :
  all_keywords_found str_lower cs kws a t = true <->
  forall kw, kw ∈ kws ->
    contains (if cs then kw else str_lower kw) a = true \/
    contains (if cs then kw else str_lower kw) t = true.
Proof.
  induction kws as [|kw kws IH]; simpl.
  - split; [|done]. intros _ kw Hkw. by apply elem_of_nil in Hkw.
  - destruct (contains (if cs then kw else str_lower kw) a) eqn:Ha; simpl.
    + rewrite IH. split.
      * intros H k [->|Hk]%elem_of_cons; [by left|by apply H].
      * intros H k Hk. apply H. by right.
    + destruct (contains (if cs then kw else str_lower kw) t) eqn:Ht; simpl.
      * rewrite IH. split.
        -- intros H k [->|Hk]%elem_of_cons; [by right|by apply H].
        -- intros H k Hk. apply H. by right.
      * split; [done|]. intros H. destruct (H kw) as [H'|H']; [by left|congruence..].
Qed.

Lemma search_venue_filter (cs : bool) (kws : list string) (ps results : list Paper) :
  search_venue str_lower cs kws ps results = results ++ List.filter (found cs kws) ps.
Proof.
  revert results. induction ps as [|p ps IH]; intros results; simpl.
  - by rewrite app_nil_r.
  - rewrite IH. destruct (found cs kws p); [by rewrite <- app_assoc|done].
Qed.

Lemma search_venues_filter (cs : bool) (kws : list string)
    (pbv : list (string * list Paper)) (results : list Paper) :
  search_venues str_lower cs kws pbv results
  = results ++ List.filter (found cs kws) (concat pbv.*2).
Proof.
  revert results. induction pbv as [|[v ps] pbv IH]; intros results; simpl.
  - by rewrite app_nil_r.
  - by rewrite IH, search_venue_filter, filter_app, app_assoc.
Qed.

Lemma search_papers_filter_facts (pbv : list (string * list Paper)) (keyword : string) (cs : bool) :
  search pbv keyword cs
  = match keywords_of keyword with
    | [] => []
    | kws => List.filter (found cs kws) (concat pbv.*2)
    end /\
  (forall kws p, found cs kws p = true <->
     forall kw, kw ∈ kws ->
       contains (if cs then kw else str_lower kw)
                (if cs then abstract p else str_lower (abstract p)) = true \/
       contains (if cs then kw else str_lower kw)
                (if cs then title p else str_lower (title p)) = true).
Proof.
  split.
  - unfold search_papers. destruct (keywords_of keyword) as [|kw kws]; [done|].
    by rewrite search_venues_filter.
  - intros kws p. apply all_keywords_found_spec.
Qed.

(** X7: the keyword search is a filter: it gives, in the order of the
    venues and of the papers of each venue, the papers that hold every
    keyword in their abstract or in their title (lower-cased on both
    sides unless the search is case sensitive); a keyword string without
    a non-blank piece gives no paper at all. *)
Theorem search_papers_filter (pbv : list (string * list Paper)) (keyword : string) (cs : bool) :
  search pbv keyword cs
  = match keywords_of keyword with
    | [] => []
    | kws => List.filter (found cs kws) (concat pbv.*2)
    end /\
  (forall kws p, found cs kws p = true <->
     forall kw, kw ∈ kws ->
       contains (if cs then kw else str_lower kw)
                (if cs then abstract p else str_lower (abstract p)) = true \/
       contains (if cs then kw else str_lower kw)
                (if cs then title p else str_lower (title p)) = true).
Proof. apply search_papers_filter_facts. Qed.

(** X8: a further keyword after a comma can only take papers away,
    as long as the first string holds a keyword; and what is found is a
    sub-list of what was loaded. *)
Theorem search_papers_narrows (pbv : list (string * list Paper)) (k1 k2 : string) (cs : bool) :
  keywords_of k1 <> [] ->
  search pbv (k1 +:+ String "," k2) cs `sublist_of` search pbv k1 cs /\
  search pbv k1 cs `sublist_of` concat pbv.*2.
Proof.
  intros Hk1.
  destruct (search_papers_filter_facts pbv k1 cs) as [-> _].
  destruct (search_papers_filter_facts pbv (k1 +:+ String "," k2) cs) as [-> Hfound].
  rewrite split_keywords_comma.
  destruct (keywords_of k1) as [|kw kws] eqn:E1; [done|]. simpl.
  split; [|apply filter_sublist].
  apply filter_sublist_impl. intros p Hp.
  apply Hfound. intros k Hk. apply (proj1 (Hfound _ p) Hp).
  change (kw :: kws ++ keywords_of k2) with ((kw :: kws) ++ keywords_of k2).
  apply elem_of_app. by left.
Qed.

End SearchFacts.

Lemma search_papers_narrows_witness :
  search_papers ascii_lower ascii_strip example_loaded ("agents" +:+ String "," " DEEP") false
    `sublist_of` search_papers ascii_lower ascii_strip example_loaded "agents" false /\
  search_papers ascii_lower ascii_strip example_loaded "agents" false
    `sublist_of` concat example_loaded.*2.
Proof.
  apply (search_papers_narrows ascii_lower ascii_strip example_loaded "agents" " DEEP" false).
  vm_compute. discriminate.
Defined.

(** ** Saved search results, loaded again *)

Lemma as_str_list_strs (l : list string) : as_str_list (JStr <$> l) = Ok l.
Proof. induction l as [|s l IH]; simpl; [done|]. fold (@fmap list _ _ _ JStr l). by rewrite IH. Qed.

Lemma parse_saved_item (p : Paper) (venue_name : string) :
  _parse_single_paper (search_result_item p) venue_name
  = Ok (if str_truthy (title p) && str_truthy (abstract p)
        then Some (reloaded venue_name p) else None).
Proof.
  destruct p as [t a v pid au kw pdf forum]. unfold search_result_item, reloaded. simpl.
  unfold dict_get_none, py_or. simpl.
  destruct t as [|ct t]; simpl; [done|].
  destruct a as [|ca a]; simpl; [done|].
  destruct pid as [[|c pid]|], au as [[|a1 au]|], pdf as [[|c2 pdf]|], forum as [[|c3 forum]|];
    simpl; rewrite ?as_str_list_strs; try done.
Qed.

(** X9: loading what [save_search_results] saved gives the saved papers
    back, in order: those with an empty title or abstract are dropped,
    the others keep title, abstract, id, authors and links (a missing
    one becoming the loader's default), take the loader's venue and lose
    their keywords. *)
Theorem parse_saved_search_results (ps : list Paper) (venue_name : string) :
  _parse_papers (search_results_data ps) venue_name
  = Ok (reloaded venue_name
          <$> List.filter (fun p => str_truthy (title p) && str_truthy (abstract p)) ps) /\
  (forall p, reloaded venue_name (reloaded venue_name p) = reloaded venue_name p).
Proof.
  split.
  - unfold search_results_data, _parse_papers.
    induction ps as [|p ps IH]; [done|].
    rewrite fmap_cons. cbn [parse_items]. rewrite parse_saved_item, IH. simpl.
    by destruct (str_truthy (title p) && str_truthy (abstract p)).
  - intros [t a v pid au kw pdf forum]. unfold reloaded. simpl. f_equal.
    destruct pid as [s|]; [|done]. by destruct (str_truthy s) eqn:Hs; simpl; rewrite ?Hs.
Qed.

(** ** File names of the categories *)

Lemma string_of_uint_digits (d : Decimal.uint) :
  all_digits (NilEmpty.string_of_uint d) = true.
Proof. induction d; simpl; done. Qed.

Lemma decimal_inj (n m : nat) : decimal n = decimal m -> n = m.
Proof.
  unfold decimal. intros H.
  apply (f_equal NilEmpty.uint_of_string) in H. rewrite !NilEmpty.usu in H.
  injection H as H. apply (f_equal Nat.of_uint) in H.
  by rewrite !DecimalNat.Unsigned.of_to in H.
Qed.

Lemma decimal_leading_zero (n m : nat) : String "0" (decimal n) = decimal m -> n = m.
Proof.
  unfold decimal. intros H.
  change (String "0" (NilEmpty.string_of_uint (Nat.to_uint n)))
    with (NilEmpty.string_of_uint (Decimal.D0 (Nat.to_uint n))) in H.
  apply (f_equal NilEmpty.uint_of_string) in H. rewrite !NilEmpty.usu in H.
  injection H as H. apply (f_equal Nat.of_uint) in H.
  rewrite DecimalNat.Unsigned.of_to in H. rewrite <- H.
  change (Nat.of_uint (Decimal.D0 (Nat.to_uint n))) with (Nat.of_uint (Nat.to_uint n)).
  by rewrite DecimalNat.Unsigned.of_to.
Qed.

Lemma format_02d_inj (n m : nat) : format_02d n = format_02d m -> n = m.
Proof.
  unfold format_02d.
  destruct (String.length (decimal n) <? 2)%nat eqn:Hn,
           (String.length (decimal m) <? 2)%nat eqn:Hm.
  - intros [= H]. by apply decimal_inj.
  - by apply decimal_leading_zero.
  - intros H. symmetry. by apply decimal_leading_zero.
  - apply decimal_inj.
Qed.

Lemma format_02d_digits (n : nat) : all_digits (format_02d n) = true.
Proof.
  unfold format_02d. destruct (_ <? _)%nat; simpl; apply string_of_uint_digits.
Qed.

Lemma format_02d_not_00 (n : nat) : format_02d (S n) <> "00".
Proof.
  unfold format_02d. destruct (_ <? _)%nat eqn:Hl.
  - intros [= H]. change "0" with (decimal 0) in H. by apply decimal_inj in H.
  - intros H. change "00" with (String "0" (decimal 0)) in H.
    symmetry in H. by apply decimal_leading_zero in H.
Qed.

(** Digits, then an underscore: the digits are read off the front. *)
Lemma digits_underscore_inj (u v x y : string) :
  all_digits u = true -> all_digits v = true ->
  u +:+ String "_" x = v +:+ String "_" y -> u = v /\ x = y.
Proof.
  revert v. induction u as [|c u IH]; intros [|d v]; simpl.
  - by intros _ _ [= ->].
  - intros _ [Hd _]%andb_true_iff [= <- _]. done.
  - intros [Hc _]%andb_true_iff _ [= -> _]. done.
  - intros [_ Hu]%andb_true_iff [_ Hv]%andb_true_iff [= -> H].
    destruct (IH v Hu Hv H) as [-> ->]. done.
Qed.

Lemma category_filename_inj (i j : nat) (r r' : ClassificationResult) :
  category_filename i r = category_filename j r' -> i = j.
Proof.
  unfold category_filename. intros H.
  apply digits_underscore_inj in H as [H _]; try apply format_02d_digits.
  apply format_02d_inj in H. lia.
Qed.

Lemma category_filename_not_summary (i : nat) (r : ClassificationResult) :
  category_filename i r <> summary_filename.
Proof.
  unfold category_filename, summary_filename. intros H.
  change "00_classification_summary.json"
    with ("00" +:+ String "_" "classification_summary.json") in H.
  apply digits_underscore_inj in H as [H _]; [|apply format_02d_digits|done].
  rewrite Nat.add_1_r in H. by apply format_02d_not_00 in H.
Qed.

(** ** Saving the categories *)

Lemma save_categories_spec (results : list ClassificationResult) :
  forall i dir saved entries,
  let '(dir', saved', entries') := save_categories i results dir saved entries in
  saved' = saved ++ category_filenames i results /\
  entries' = entries ++ summary_entries i results /\
  (forall k r, results !! k = Some r ->
     pydict_get dir' (category_filename (i + k) r) = Some (category_data r)) /\
  (forall name, (forall k r, results !! k = Some r -> name <> category_filename (i + k) r) ->
     pydict_get dir' name = pydict_get dir name).
Proof.
  induction results as [|r0 results IH]; intros i dir saved entries.
  - simpl. rewrite !app_nil_r. by repeat split.
  - cbn [save_categories].
    specialize (IH (S i) (pydict_set dir (category_filename i r0) (category_data r0))
                   (saved ++ [category_filename i r0]) (entries ++ [summary_entry i r0])).
    destruct (save_categories _ _ _ _ _) as [[dir' saved'] entries'].
    destruct IH as (-> & -> & Hget & Hframe).
    split; [by rewrite <- app_assoc|]. split; [by rewrite <- app_assoc|]. split.
    + intros [|k] r Hr; simpl in Hr.
      * injection Hr as <-. rewrite Nat.add_0_r, Hframe; [apply pydict_get_set_eq|].
        intros k r Hr Heq. apply category_filename_inj in Heq. lia.
      * replace (i + S k)%nat with (S i + k)%nat by lia. by apply Hget.
    + intros name Hname. rewrite Hframe.
      * apply pydict_get_set_ne. intros Heq. apply (Hname 0%nat r0); [done|].
        by rewrite Nat.add_0_r.
      * intros k r Hr. replace (S i + k)%nat with (i + S k)%nat by lia. by apply Hname.
Qed.

Lemma category_filenames_spec (results : list ClassificationResult) (i : nat) :
  length (category_filenames i results) = length results /\
  (forall name, name ∈ category_filenames i results ->
     exists k r, results !! k = Some r /\ name = category_filename (i + k) r) /\
  NoDup (category_filenames i results).
Proof.
  revert i. induction results as [|r0 results IH]; intros i; simpl.
  - split; [done|]. split; [|constructor]. intros name H. by apply elem_of_nil in H.
  - destruct (IH (S i)) as (Hlen & Hin & Hnd). split; [by rewrite Hlen|]. split.
    + intros name [->|H]%elem_of_cons.
      * exists 0%nat, r0. by rewrite Nat.add_0_r.
      * destruct (Hin name H) as (k & r & Hr & ->). exists (S k), r. split; [done|].
        f_equal. lia.
    + apply list.NoDup_cons. split; [|done]. intros H.
      destruct (Hin _ H) as (k & r & _ & Heq). apply category_filename_inj in Heq. lia.
Qed.

Lemma saved_files_spec (results : list ClassificationResult)
    (keyword provider_name : string) (timestamp : Z) (dir : list (string * json)) :
  let saved := save_classification_results results keyword provider_name timestamp dir in
  saved.2 = summary_filename :: category_filenames 0 results /\
  NoDup saved.2 /\
  length saved.2 = S (length results) /\
  (forall k r, results !! k = Some r ->
     pydict_get saved.1 (category_filename k r) = Some (category_data r)) /\
  (exists summary_data,
     pydict_get saved.1 summary_filename = Some summary_data /\
     py_get summary_data "categories" JNull = Ok (JList (summary_entries 0 results)) /\
     py_get summary_data "total_papers" JNull = Ok (JInt (total_papers results))).
Proof.
  unfold save_classification_results.
  pose proof (save_categories_spec results 0 dir [] []) as Hspec.
  destruct (save_categories 0 results dir [] []) as [[dir1 saved1] entries1].
  destruct Hspec as (-> & -> & Hget & _). simpl.
  destruct (category_filenames_spec results 0) as (Hlen & Hin & Hnd).
  split; [done|]. split; [|split; [by rewrite Hlen|split]].
  - apply list.NoDup_cons. split; [|done]. intros H.
    destruct (Hin _ H) as (k & r & _ & Heq). symmetry in Heq.
    by apply category_filename_not_summary in Heq.
  - intros k r Hr. rewrite pydict_get_set_ne; [by apply Hget|].
    intros Heq. symmetry in Heq. by apply category_filename_not_summary in Heq.
  - eexists. split; [apply pydict_get_set_eq|]. done.
Qed.

(** X10: one save writes a file per result and the summary, under names
    that are pairwise distinct whatever the category names are; so after
    it the directory holds the data of every result under the name of
    its file, and the summary first in the list of files it returns. *)
Theorem save_classification_results_files (results : list ClassificationResult)
    (keyword provider_name : string) (timestamp : Z) (dir : list (string * json)) :
  let saved := save_classification_results results keyword provider_name timestamp dir in
  saved.2 = summary_filename :: category_filenames 0 results /\
  NoDup saved.2 /\
  length saved.2 = S (length results) /\
  (forall k r, results !! k = Some r ->
     pydict_get saved.1 (category_filename k r) = Some (category_data r)) /\
  (exists summary_data,
     pydict_get saved.1 summary_filename = Some summary_data /\
     py_get summary_data "categories" JNull = Ok (JList (summary_entries 0 results)) /\
     py_get summary_data "total_papers" JNull = Ok (JInt (total_papers results))).
Proof. apply saved_files_spec. Qed.

(** ** Loading what was saved *)

Lemma paper_info_of_entry (p : Paper) : paper_info_of (paper_entry p) = Ok (info_of p).
Proof.
  destruct p as [t a v pid au kw pdf forum]. unfold paper_info_of, paper_entry, info_of.
  simpl. destruct pid, au, pdf, forum; simpl; rewrite ?as_str_list_strs; done.
Qed.

Lemma paper_infos_entries (ps : list Paper) :
  paper_infos (paper_entry <$> ps) = Ok (info_of <$> ps).
Proof.
  induction ps as [|p ps IH]; [done|].
  rewrite !fmap_cons. cbn [paper_infos]. by rewrite paper_info_of_entry, IH.
Qed.

Section LoadSaved.
Variable read_file : string -> option (result json).

Lemma load_category_saved (i : nat) (r : ClassificationResult) (v : viewer) :
  read_file (category_filename i r) = Some (Ok (category_data r)) ->
  load_category read_file (summary_entry i r) v
  = Ok {| categories := pydict_set (categories v) (category r) (category_info_of r);
          all_papers := all_papers v ++ tagged_papers r |}.
Proof.
  intros Hread. unfold load_category, summary_entry. simpl. rewrite Hread. simpl.
  rewrite paper_infos_entries. simpl. unfold category_info_of, tagged_papers.
  rewrite length_fmap, <- list_fmap_compose. done.
Qed.

Lemma load_categories_saved (results : list ClassificationResult) :
  forall i v,
  (forall k r, results !! k = Some r ->
     read_file (category_filename (i + k) r) = Some (Ok (category_data r))) ->
  load_categories read_file (summary_entries i results) v
  = Ok {| categories :=
            foldl (fun d r => pydict_set d (category r) (category_info_of r))
                  (categories v) results;
          all_papers := all_papers v ++ (results ≫= tagged_papers) |}.
Proof.
  induction results as [|r0 results IH]; intros i v Hread; simpl.
  - rewrite app_nil_r. by destruct v.
  - rewrite load_category_saved by (rewrite <- (Nat.add_0_r i); by apply Hread).
    simpl. rewrite IH.
    + simpl. by rewrite <- app_assoc.
    + intros k r Hr. replace (S i + k)%nat with (i + S k)%nat by lia. by apply Hread.
Qed.

End LoadSaved.

Lemma pydict_set_fresh {V} (d : list (string * V)) (k : string) (v : V) :
  k ∉ d.*1 -> pydict_set d k v = d ++ [(k, v)].
Proof.
  induction d as [|[k0 v0] d IH]; simpl; [done|].
  intros [Hne Hk]%not_elem_of_cons.
  destruct (String.eqb_spec k0 k); [congruence|]. by rewrite IH.
Qed.

Lemma foldl_pydict_set_fresh {A V} (key : A -> string) (val : A -> V) (l : list A) :
  forall d, NoDup (d.*1 ++ (key <$> l)) ->
  foldl (fun d x => pydict_set d (key x) (val x)) d l
  = d ++ ((fun x => (key x, val x)) <$> l).
Proof.
  induction l as [|x l IH]; intros d Hnd; simpl.
  - by rewrite app_nil_r.
  - rewrite fmap_cons in Hnd. apply list.NoDup_app in Hnd as (Hd & Hdisj & Hl).
    apply list.NoDup_cons in Hl as [Hx Hl].
    rewrite pydict_set_fresh by (intros Hin; apply (Hdisj _ Hin); by left).
    rewrite IH.
    + by rewrite <- app_assoc.
    + rewrite fmap_app. simpl. rewrite <- app_assoc. simpl.
      apply list.NoDup_app. split; [done|]. split; [|by apply list.NoDup_cons].
      intros y Hy. by apply Hdisj.
Qed.

Lemma load_saved_classification_facts (results : list ClassificationResult)
    (keyword provider_name : string) (timestamp : Z) (dir : list (string * json)) :
  let saved := save_classification_results results keyword provider_name timestamp dir in
  load_result_dir (read_dir saved.1)
  = Ok {| categories :=
            foldl (fun d r => pydict_set d (category r) (category_info_of r)) [] results;
          all_papers := results ≫= tagged_papers |} /\
  (NoDup (category <$> results) ->
   foldl (fun d r => pydict_set d (category r) (category_info_of r)) [] results
   = (fun r => (category r, category_info_of r)) <$> results).
Proof.
  destruct (saved_files_spec results keyword provider_name timestamp dir)
    as (_ & _ & _ & Hget & (sd & Hsd & Hcats & _)).
  split.
  - unfold load_result_dir, read_dir. rewrite Hsd. simpl.
    destruct sd as [| | | | | |kvs]; try done. simpl in Hcats. injection Hcats as Hcats.
    unfold py_get.
    assert (Hc : dict_get kvs "categories" (JList []) = JList (summary_entries 0 results)).
    { revert Hcats. clear. induction kvs as [|[k v] kvs IH]; simpl; [done|].
      by destruct (String.eqb k "categories"). }
    simpl. rewrite Hc. simpl.
    rewrite (load_categories_saved _ results 0).
    + done.
    + intros k r Hr. simpl. by rewrite (Hget k r Hr).
  - intros Hnd. by rewrite (foldl_pydict_set_fresh category category_info_of).
Qed.

(** X11: the viewer reads back what the classifier saved.  From the
    directory after [save_classification_results], [load_year_data] ends
    with every paper of every result in [all_papers], in order and under
    the name of its category, and with [categories] holding each
    category's papers, summary and count (for a name that comes twice,
    those of the later result, at the place of the first); with
    pairwise distinct names that is one entry per result, in order. *)
Theorem load_saved_classification (results : list ClassificationResult)
    (keyword provider_name : string) (timestamp : Z) (dir : list (string * json)) :
  let saved := save_classification_results results keyword provider_name timestamp dir in
  load_result_dir (read_dir saved.1)
  = Ok {| categories :=
            foldl (fun d r => pydict_set d (category r) (category_info_of r)) [] results;
          all_papers := results ≫= tagged_papers |} /\
  (NoDup (category <$> results) ->
   foldl (fun d r => pydict_set d (category r) (category_info_of r)) [] results
   = (fun r => (category r, category_info_of r)) <$> results).
Proof. apply load_saved_classification_facts. Qed.

(** ** The statistics of a saved classification *)

Lemma total_papers_tagged (results : list ClassificationResult) :
  len (results ≫= tagged_papers) = total_papers results.
Proof.
  unfold len. induction results as [|r rs IH]; [done|].
  cbn [mbind list_bind total_papers]. change (mbind tagged_papers rs) with (rs ≫= tagged_papers).
  rewrite length_app, Nat2Z.inj_add, IH. unfold tagged_papers, len.
  by rewrite length_fmap.
Qed.

(** X12: after the viewer has loaded what the classifier saved for
    results with pairwise distinct names, [get_category_stats] counts
    the results, gives the total of the summary file, and lists each
    result's name, number of papers and summary, in order. *)
Theorem get_category_stats_saved (results : list ClassificationResult)
    (keyword provider_name : string) (timestamp : Z) (dir : list (string * json)) :
  NoDup (category <$> results) ->
  let saved := save_classification_results results keyword provider_name timestamp dir in
  exists v,
    load_result_dir (read_dir saved.1) = Ok v /\
    get_category_stats v
    = JDict [("total_categories", JInt (len results));
             ("total_papers", JInt (total_papers results));
             ("categories", JList (stats_entry <$> results))].
Proof.
  intros Hnd saved.
  destruct (load_saved_classification_facts results keyword provider_name timestamp dir)
    as [Hload Hcats].
  eexists. split; [exact Hload|].
  rewrite (Hcats Hnd). unfold get_category_stats. cbn [categories all_papers].
  rewrite total_papers_tagged. unfold len. rewrite length_fmap, <- list_fmap_compose.
  done.
Qed.

Lemma get_category_stats_saved_witness :
  exists v,
    load_result_dir
      (read_dir (save_classification_results
                   [cat_of "A" [p1; p2] "about A"; cat_of "B" [p3] "about B"]
                   "agents" "openai" 1700000000 []).1) = Ok v /\
    get_category_stats v
    = JDict [("total_categories", JInt 2);
             ("total_papers", JInt 3);
             ("categories",
              JList [JDict [("name", JStr "A"); ("count", JInt 2); ("summary", JStr "about A")];
                     JDict [("name", JStr "B"); ("count", JInt 1); ("summary", JStr "about B")]])].
Proof.
  apply (get_category_stats_saved
           [cat_of "A" [p1; p2] "about A"; cat_of "B" [p3] "about B"]
           "agents" "openai" 1700000000 []).
  apply (@bool_decide_unpack _ (NoDup_dec _)). vm_compute. exact I.
Defined.

(** ** The search of the viewer *)

Section ViewerSearchFacts.
Variable str_lower : string -> string.

Local Abbreviation found := (field_found str_lower).

Lemma field_found_existsb (kw : string) (p : PaperInfo) (fields : list string) :
  found kw p fields = existsb (field_hit str_lower kw p) fields.
Proof.
  induction fields as [|f fields IH]; simpl; [done|]. unfold field_hit at 1.
  destruct (String.eqb f "title"); [by destruct (contains _ _)|].
  destruct (String.eqb f "abstract"); [by destruct (contains _ _)|].
  destruct (String.eqb f "authors"); simpl; [|done].
  destruct (info_authors p) as [[|a l]|]; simpl; try done.
  by destruct (contains kw (str_lower a) || any_author str_lower kw l)%bool eqn:E;
    destruct (contains kw (str_lower a)); simpl in *; rewrite ?E.
Qed.

Lemma search_loop_filter (kw : string) (fields : list string)
    (entries results : list (string * PaperInfo)) :
  search_loop str_lower kw fields entries results
  = results ++ List.filter (fun e => found kw e.2 fields) entries.
Proof.
  revert results. induction entries as [|[c p] entries IH]; intros results; simpl.
  - by rewrite app_nil_r.
  - rewrite IH. destruct (found kw p fields); [by rewrite <- app_assoc|done].
Qed.

Lemma existsb_incl {A} (f : A -> bool) (l1 l2 : list A) :
  (forall x, x ∈ l1 -> x ∈ l2) -> existsb f l1 = true -> existsb f l2 = true.
Proof.
  intros Hsub. rewrite !existsb_exists. intros (x & Hx & Hf). exists x. split; [|done].
  apply list_elem_of_In, Hsub, list_elem_of_In, Hx.
Qed.

(** X13: the search of the viewer gives a sub-list of [all_papers]: a
    paper found under several fields still comes once.  More fields can
    only add papers, and neither the order of the fields nor a field
    given twice changes the result; a field that is not [title],
    [abstract] or [authors] finds nothing. *)
Theorem viewer_search_fields (v : viewer) (keyword : string) (fields1 fields2 : list string) :
  viewer_search_papers str_lower v keyword (Some fields1) `sublist_of` all_papers v /\
  ((forall f, f ∈ fields1 -> f ∈ fields2) ->
   viewer_search_papers str_lower v keyword (Some fields1)
     `sublist_of` viewer_search_papers str_lower v keyword (Some fields2)) /\
  ((forall f, f ∈ fields1 <-> f ∈ fields2) ->
   viewer_search_papers str_lower v keyword (Some fields1)
   = viewer_search_papers str_lower v keyword (Some fields2)) /\
  ((forall f, f ∈ fields1 -> f <> "title" /\ f <> "abstract" /\ f <> "authors") ->
   viewer_search_papers str_lower v keyword (Some fields1) = []).
Proof.
  unfold viewer_search_papers. simpl. rewrite !search_loop_filter. simpl.
  split; [apply filter_sublist|]. split; [|split].
  - intros Hsub. apply filter_sublist_impl. intros [c p]. simpl.
    rewrite !field_found_existsb. by apply existsb_incl.
  - intros Hsame. apply filter_ext. intros [c p]. simpl.
    rewrite !field_found_existsb.
    destruct (existsb _ fields1) eqn:E1, (existsb _ fields2) eqn:E2; try done.
    + rewrite <- E2. symmetry. eapply existsb_incl; [|done]. by apply Hsame.
    + rewrite <- E1. eapply existsb_incl; [|done]. by apply Hsame.
  - intros Hnone. induction (all_papers v) as [|[c p] l IH]; simpl; [done|].
    rewrite field_found_existsb.
    replace (existsb _ fields1) with false; [done|]. symmetry.
    apply not_true_is_false. rewrite existsb_exists. intros (f & Hf & Hhit).
    apply list_elem_of_In, Hnone in Hf as (Ht & Ha & Hau). unfold field_hit in Hhit.
    by destruct (String.eqb_spec f "title"), (String.eqb_spec f "abstract"),
                (String.eqb_spec f "authors").
Qed.

End ViewerSearchFacts.

(** ** The grouping of search results *)

Lemma groups_total_set_new {V} (g : list (string * list V)) (c : string) (l : list V) :
  pydict_get g c = None -> groups_total (pydict_set g c l) = (groups_total g + length l)%nat.
Proof.
  induction g as [|[k l0] g IH]; simpl; [lia|].
  destruct (String.eqb k c); [done|]. intros H. simpl. rewrite IH by done. lia.
Qed.

Lemma groups_total_set_old {V} (g : list (string * list V)) (c : string) (l0 l : list V) :
  pydict_get g c = Some l0 ->
  (groups_total (pydict_set g c l) + length l0 = groups_total g + length l)%nat.
Proof.
  induction g as [|[k l1] g IH]; simpl; [done|].
  destruct (String.eqb k c).
  - intros [= ->]. simpl. lia.
  - intros H. simpl. specialize (IH H). lia.
Qed.

Lemma group_append_total (g : list (string * list json)) (c : string) (e : json) :
  groups_total (group_append g c e) = S (groups_total g).
Proof.
  unfold group_append. destruct (pydict_get g c) as [l0|] eqn:Hc.
  - pose proof (groups_total_set_old g c l0 (l0 ++ [e]) Hc) as H.
    rewrite length_app in H. simpl in H. lia.
  - rewrite groups_total_set_new by done. simpl. lia.
Qed.

Lemma group_append_get (g : list (string * list json)) (c c' : string) (e : json) :
  pydict_get (group_append g c e) c'
  = if String.eqb c c' then Some (default [] (pydict_get g c) ++ [e]) else pydict_get g c'.
Proof.
  unfold group_append. destruct (String.eqb_spec c c') as [<-|Hne].
  - destruct (pydict_get g c); by rewrite pydict_get_set_eq.
  - destruct (pydict_get g c); by rewrite pydict_get_set_ne.
Qed.

Lemma group_results_spec (rs : list (string * PaperInfo)) :
  forall g, NoDup g.*1 ->
  NoDup (group_results rs g).*1 /\
  groups_total (group_results rs g) = (groups_total g + length rs)%nat /\
  (forall c, pydict_get (group_results rs g) c
     = match pydict_get g c, of_category c rs with
       | None, [] => None
       | o, l => Some (default [] o ++ (info_entry <$> l))
       end).
Proof.
  induction rs as [|[c0 p] rs IH]; intros g Hnd.
  - simpl. split; [done|]. split; [lia|]. intros c.
    destruct (pydict_get g c); simpl; by rewrite ?app_nil_r.
  - cbn [group_results].
    assert (Hnd' : NoDup (group_append g c0 (info_entry p)).*1).
    { unfold group_append. destruct (pydict_get g c0); by apply pydict_set_NoDup. }
    destruct (IH _ Hnd') as (Hnd1 & Htot & Hget).
    split; [done|]. split.
    + rewrite Htot, group_append_total. simpl. lia.
    + intros c. rewrite Hget, group_append_get. simpl.
      destruct (String.eqb_spec c0 c) as [->|Hne].
      * destruct (pydict_get g c) as [l0|]; simpl;
          destruct (of_category c rs); simpl; by rewrite <- ?app_assoc.
      * done.
Qed.

(** X14: the grouping of [api_search] loses nothing and invents
    nothing: the categories of the answer are pairwise distinct, the
    group of a category holds the papers found under it, in the order
    found, a category without a paper has no group, and the sizes of
    the groups add up to [total_results]. *)
Theorem search_answer_groups (search_results : list (string * PaperInfo)) :
  NoDup (group_results search_results []).*1 /\
  groups_total (group_results search_results []) = length search_results /\
  (forall c, pydict_get (group_results search_results []) c
     = match of_category c search_results with
       | [] => None
       | l => Some (info_entry <$> l)
       end) /\
  py_get (search_answer search_results) "total_results" JNull
  = Ok (JInt (Z.of_nat (groups_total (group_results search_results [])))).
Proof.
  destruct (group_results_spec search_results []) as (Hnd & Htot & Hget); [constructor|].
  split; [done|]. split; [done|]. split.
  - intros c. rewrite Hget. simpl. by destruct (of_category c search_results).
  - simpl. unfold len. by rewrite Htot.
Qed.

(** ** parse_authors *)

Lemma split_on_length (sep : ascii) (s : string) :
  length (split_on sep s) = S (count_char sep s).
Proof.
  induction s as [|c s IH]; simpl; [done|].
  destruct (Ascii.eqb c sep); simpl; [by rewrite IH|].
  destruct (split_on sep s); simpl in *; lia.
Qed.

(** X15: [parse_authors] gives no author for the empty string only; for
    any other string it gives one author per piece between commas, the
    empty pieces included: one more than the string has commas. *)
Theorem parse_authors_length (str_strip : string -> string) (s : string) :
  (parse_authors str_strip s = [] <-> s = EmptyString) /\
  (s <> EmptyString ->
   length (parse_authors str_strip s) = S (count_char "," s) /\
   parse_authors str_strip s = str_strip <$> split_on "," s).
Proof.
  unfold parse_authors, str_truthy. destruct (String.eqb_spec s EmptyString) as [->|Hne]; simpl.
  - by split.
  - split.
    + split; [|done]. intros H. apply (f_equal length) in H.
      rewrite length_fmap, split_on_length in H. done.
    + intros _. by rewrite length_fmap, split_on_length.
Qed.

(** ** Counting the members *)







Section RunTotals.
Variable json_loads : string -> option json.
Variable client : nat -> list Paper -> list ClassificationResult -> result string.
Variable batch_size : Z.



End RunTotals.


(** ** The converter and the loader *)

Section ConvertFacts.
Variable str_strip : string -> string.
Variable str_lower : string -> string.
Variable extract_paper_id_from_url : string -> string.
Variable py_hash : string -> Z.

Local Abbreviation convert :=
  (convert_icm_to_standard str_strip str_lower extract_paper_id_from_url py_hash).

Lemma convert_ok (icm_paper std : json) :
  convert icm_paper = Ok std ->
  exists kvs url authors_l type_s number,
    icm_paper = JDict kvs /\
    dict_get kvs "virtualsite_url" (JStr "") = JStr url /\
    parse_authors_value str_strip (dict_get kvs "speakers/authors" (JStr "")) = Ok authors_l /\
    dict_get kvs "type" (JStr "poster") = JStr type_s /\
    0 <= number < 100000 /\
    exists vt,
    std = JDict
      [("paper_id", JStr (extract_paper_id_from_url url));
       ("forum_url",
        JStr (if contains "/virtual/" url
              then str_replace "/virtual/" "/forum?id=" url else url));
       ("number", JInt number);
       ("version", JInt 1);
       ("submission_date", JStr "");
       ("title", dict_get kvs "name" (JStr ""));
       ("authors", JList (JStr <$> authors_l));
       ("abstract", dict_get kvs "abstract" (JStr ""));
       ("keywords", JList []);
       ("primary_area", JStr "");
       ("pdf_url", JStr "");
       ("tldr", dict_get kvs "lay_summary" (JStr ""));
       ("reply_count", JInt 0);
       ("venue", JStr ("ICML 2025 " +:+ vt));
       ("venueid", JStr "ICML.cc/2025/Conference");
       ("type", JStr (str_lower type_s));
       ("type_order", JInt (type_order_of (str_lower type_s)))].
Proof.
  unfold convert_icm_to_standard.
  destruct icm_paper as [| | | | | |kvs]; try done. simpl.
  destruct (dict_get kvs "virtualsite_url" (JStr "")) as [| | | |url| |] eqn:Hurl; try done.
  destruct (parse_authors_value str_strip _) as [authors_l| |] eqn:Hau; simpl; try done.
  destruct (dict_get kvs "type" (JStr "poster")) as [| | | |type_s| |] eqn:Hty; try done.
  destruct (dict_get kvs "type" (JStr "Poster")) as [| | | |vt| |]; try done.
  intros [= <-].
  exists kvs, url, authors_l, type_s, (py_hash (extract_paper_id_from_url url) `mod` 100000).
  split; [done|]. split; [done|]. split; [done|]. split; [done|].
  split; [by apply Z.mod_pos_bound|]. by exists vt.
Qed.

Lemma as_str_list_JStr (l : list string) : as_str_list (JStr <$> l) = Ok l.
Proof. induction l as [|s l IH]; [done|]. cbn. by rewrite IH. Qed.

(** X17: a record that [convert_icm_to_standard] converts is a dict
    with an address that is a string; the loader then drops the result
    when the ICML name is false or both the abstract and the lay summary
    are, and otherwise makes a paper whose title is the name, whose
    abstract is the ICML abstract or else the lay summary, whose venue
    is the one the loader gives, with no keywords and an empty PDF
    address; a name or abstract that is not a string is kept as it is. *)
Theorem convert_then_parse (icm_paper std : json) (venue_name : string) :
  convert icm_paper = Ok std ->
  exists kvs url,
    icm_paper = JDict kvs /\
    dict_get kvs "virtualsite_url" (JStr "") = JStr url /\
    let name_v := dict_get kvs "name" (JStr "") in
    let abstract_v := py_or (dict_get kvs "abstract" (JStr ""))
                            (dict_get kvs "lay_summary" (JStr "")) in
    if truthy name_v && truthy abstract_v then
      match name_v, abstract_v with
      | JStr t, JStr a =>
          exists au,
          parse_authors_value str_strip (dict_get kvs "speakers/authors" (JStr "")) = Ok au /\
          _parse_single_paper std venue_name =
            Ok (Some {| title := t; abstract := a; venue := venue_name;
                        paper_id :=
                          (let id := extract_paper_id_from_url url in
                           if str_truthy id then Some id else None);
                        authors := Some au;
                        keywords := Some [];
                        pdf_url := Some "";
                        forum_url :=
                          Some (if contains "/virtual/" url
                                then str_replace "/virtual/" "/forum?id=" url
                                else url) |})
      | _, _ => _parse_single_paper std venue_name = IllTyped
      end
    else _parse_single_paper std venue_name = Ok None.
Proof.
  intros (kvs & url & au & ty & number & -> & Hurl & Hau & Hty & Hn & vt & ->)%convert_ok.
  exists kvs, url. split; [done|]. split; [done|].
  unfold _parse_single_paper, dict_get_none. cbn [dict_get String.eqb Ascii.eqb Bool.eqb].
  cbv zeta.
  assert (Hor : forall v, py_or (py_or v JNull) (JStr "") = py_or v (JStr "")).
  { intros v. unfold py_or. by destruct (truthy v) eqn:E; rewrite ?E. }
  rewrite !Hor. clear Hor.
  assert (Hau' : as_opt_str_list (py_or (JList (JStr <$> au)) (JList [])) = Ok (Some au)).
  { destruct au as [|s au]; [done|]. unfold py_or. cbn [truthy fmap list_fmap].
    change (as_opt_str_list (JList (JStr <$> s :: au)) = Ok (Some (s :: au))).
    unfold as_opt_str_list. by rewrite as_str_list_JStr. }
  assert (Hid : as_opt_str (py_or (JStr (extract_paper_id_from_url url)) JNull)
                = Ok (if str_truthy (extract_paper_id_from_url url)
                      then Some (extract_paper_id_from_url url) else None)).
  { unfold py_or, str_truthy. cbn [truthy].
    by destruct (negb (String.eqb (extract_paper_id_from_url url) "")). }
  assert (Hforum : forall f, as_opt_str (py_or (JStr f) (JStr "")) = Ok (Some f)).
  { intros f. unfold py_or. cbn [truthy]. destruct (String.eqb_spec f ""); by subst. }
  rewrite Hau', Hid, !Hforum. clear Hau' Hid Hforum.
  generalize (dict_get kvs "name" (JStr "")) as name_v.
  generalize (py_or (dict_get kvs "abstract" (JStr "")) (dict_get kvs "lay_summary" (JStr "")))
    as abstract_v.
  intros abstract_v name_v.
  assert (Hpy : forall v, truthy (py_or v (JStr "")) = truthy v).
  { intros v. unfold py_or. by destruct (truthy v) eqn:E. }
  assert (Hpy' : forall v, truthy v = true -> py_or v (JStr "") = v).
  { intros v E. unfold py_or. by rewrite E. }
  rewrite !Hpy.
  destruct (truthy name_v) eqn:En; [|done].
  destruct (truthy abstract_v) eqn:Ea; [|done].
  rewrite !Hpy' by done. cbn [andb negb orb].
  destruct name_v; try done; destruct abstract_v; try done.
  exists au. split; [done|]. done.
Qed.

End ConvertFacts.

Lemma convert_then_parse_witness :
  exists kvs url,
    example_icm_paper = JDict kvs /\
    dict_get kvs "virtualsite_url" (JStr "") = JStr url /\
    let name_v := dict_get kvs "name" (JStr "") in
    let abstract_v := py_or (dict_get kvs "abstract" (JStr ""))
                            (dict_get kvs "lay_summary" (JStr "")) in
    if truthy name_v && truthy abstract_v then
      match name_v, abstract_v with
      | JStr t, JStr a =>
          exists au,
          parse_authors_value ascii_strip (dict_get kvs "speakers/authors" (JStr "")) = Ok au /\
          _parse_single_paper example_standard_paper "NeurIPS 2025" =
            Ok (Some {| title := t; abstract := a; venue := "NeurIPS 2025";
                        paper_id :=
                          (let id := example_extract url in
                           if str_truthy id then Some id else None);
                        authors := Some au;
                        keywords := Some [];
                        pdf_url := Some "";
                        forum_url :=
                          Some (if contains "/virtual/" url
                                then str_replace "/virtual/" "/forum?id=" url
                                else url) |})
      | _, _ => _parse_single_paper example_standard_paper "NeurIPS 2025" = IllTyped
      end
    else _parse_single_paper example_standard_paper "NeurIPS 2025" = Ok None.
Proof.
  apply (convert_then_parse ascii_strip ascii_lower example_extract example_hash).
  vm_compute. reflexivity.
Defined.

Section ConvertAllFacts.
Variable str_strip : string -> string.
Variable str_lower : string -> string.
Variable extract_paper_id_from_url : string -> string.
Variable py_hash : string -> Z.

Local Abbreviation convert :=
  (convert_icm_to_standard str_strip str_lower extract_paper_id_from_url py_hash).
Local Abbreviation convert_list :=
  (convert_all str_strip str_lower extract_paper_id_from_url py_hash).

Lemma convert_outcome (icm_paper : json) :
  if convertible icm_paper
  then exists std, convert icm_paper = Ok std
  else convert icm_paper = Raise TypeError \/ convert icm_paper = Raise AttributeError.
Proof.
  unfold convertible, convert_icm_to_standard.
  destruct icm_paper as [| | | | | |kvs]; cbn [py_get mbind]; try by right.
  cbn.
  assert (Hty : forall d d', is_str (dict_get kvs "type" (JStr d)) = true ->
                  is_str (dict_get kvs "type" (JStr d')) = true).
  { intros d d'. induction kvs as [|[k v] kvs IH]; [done|]. cbn.
    by destruct (String.eqb k "type"). }
  destruct (dict_get kvs "virtualsite_url" (JStr "")) as [| | | |url| |];
    cbn [is_str andb]; try by left.
  unfold parse_authors_value.
  destruct (truthy (dict_get kvs "speakers/authors" (JStr ""))) eqn:Hau; cbn [negb orb].
  - destruct (dict_get kvs "speakers/authors" (JStr "")) as [| | | |au| |];
      cbn [is_str andb]; try by right.
    cbn. specialize (Hty "poster" "Poster")%string.
    destruct (dict_get kvs "type" (JStr "poster")) as [| | | |ty| |];
      cbn [is_str]; try by right.
    destruct (dict_get kvs "type" (JStr "Poster")) as [| | | |vt| |];
      try (by discriminate Hty); by eexists.
  - cbn. specialize (Hty "poster" "Poster")%string.
    destruct (dict_get kvs "type" (JStr "poster")) as [| | | |ty| |];
      cbn [is_str]; try by right.
    destruct (dict_get kvs "type" (JStr "Poster")) as [| | | |vt| |];
      try (by discriminate Hty); by eexists.
Qed.

(** X18: the loop of [convert_file] keeps, in order, the conversions of
    exactly the records that are dicts whose address and type are strings
    (or missing) and whose authors are a string or false; every other
    record raises [TypeError] or [AttributeError] and is skipped. *)
Theorem convert_all_convertible (icm_papers : list json) :
  Forall2 (fun icm_paper std => convert icm_paper = Ok std)
          (filter (fun x => convertible x = true) icm_papers) (convert_list icm_papers) /\
  forall icm_paper, convertible icm_paper = false ->
    convert icm_paper = Raise TypeError \/ convert icm_paper = Raise AttributeError.
Proof.
  split.
  - induction icm_papers as [|x l IH]; [constructor|].
    cbn [convert_all]. pose proof (convert_outcome x) as Hx.
    rewrite filter_cons. destruct (convertible x) eqn:E.
    + destruct Hx as [std Hstd]. rewrite Hstd.
      rewrite decide_True by done. by constructor.
    + rewrite decide_False by done.
      by destruct Hx as [-> | ->].
  - intros x E. pose proof (convert_outcome x) as Hx. by rewrite E in Hx.
Qed.
End ConvertAllFacts.
